(** * breez: the account outbound-value code

    A shallow embedding of [account/lnurl.go] (LNURL auth, pay and
    success-action decryption) and [account/sweep.go] (the full-balance sweep
    planner) of the breez wallet, with the properties its specification
    states about them; and, with properties read off the code, the rest of
    those two files (link resolution, withdraw, login, the sweep's signer),
    the readiness checks of package [lnnode], the filter header parser of
    [chainservice/init.go] and [version.go].

    Layout: the Go standard-library pieces the code calls ([encoding/hex],
    [encoding/binary], [crypto/sha256], [crypto/hmac], [errors], [fmt]) come
    first and are written out; packages outside the repository (go-bip32,
    btcec, zpay32, go-lnurl, btcutil, lnd's sweep builder and RPC clients) are
    interfaces, given as type classes; then the repository's own functions;
    then small instances of the interfaces used to run the functions on
    concrete inputs; then the theorems. *)

From Stdlib Require Import ZArith Lia List Ascii String Strings.Byte Bool.
From stdpp Require Import gmap strings list pretty.

Set Warnings "-register-all".

Local Open Scope string_scope.
Local Open Scope Z_scope.

(** ** Go values *)

Module Go.

(** [error] values. [fmt.Errorf] keeps its format string, the rendered
    operands and, for the [%w] verb, the wrapped error ([Unwrap]). Errors
    made by packages outside the repository are [pkg_error]; btcd's
    [blockchain.RuleError] is the one of them the code inspects. *)
Inductive error : Type :=
| errors_New (msg : string)
| fmt_Errorf (format : string) (operands : list string) (wrapped : option error)
| pkg_error (pkg : string) (msg : string)
| RuleError (description : string).

(** What a call yields: a value, an [error], or a run-time panic. *)
Inductive result (A : Type) : Type :=
| Ok (a : A)
| Err (e : error)
| Panic (msg : string).
Arguments Ok {A} a.
Arguments Err {A} e.
Arguments Panic {A} msg.

Definition nil_dereference : string :=
  "runtime error: invalid memory address or nil pointer dereference".

(** [errors.As(err, &ruleErr)] with [ruleErr : blockchain.RuleError]: walks
    the [Unwrap] chain. *)
Fixpoint errors_As_RuleError (err : error) : bool :=
  match err with
  | RuleError _ => true
  | fmt_Errorf _ _ (Some w) => errors_As_RuleError w
  | _ => false
  end.

(** Fixed-width integers as [Z] with the wrap-around written out. *)
Definition uint32 (z : Z) : Z := z mod 2 ^ 32.
Definition uint64 (z : Z) : Z := z mod 2 ^ 64.
Definition int32 (z : Z) : Z := (z + 2 ^ 31) mod 2 ^ 32 - 2 ^ 31.
Definition int64 (z : Z) : Z := (z + 2 ^ 63) mod 2 ^ 64 - 2 ^ 63.
Definition math_MaxInt32 : Z := 2 ^ 31 - 1.

(** Bytes. *)
Definition byte_to_Z (b : byte) : Z := Z.of_N (Byte.to_N b).
Definition byte_of_Z (z : Z) : byte :=
  match Byte.of_N (Z.to_N (z mod 256)) with
  | Some b => b
  | None => x00
  end.

(** [[]byte(s)] and [string(b)]. *)
Definition bytes_of_string (s : string) : list byte := list_byte_of_string s.
Definition string_of_bytes (b : list byte) : string := string_of_list_byte b.

(** *** encoding/hex *)

Definition hextable : string := "0123456789abcdef".

Definition hexdigit (n : Z) : ascii :=
  match String.get (Z.to_nat n) hextable with
  | Some c => c
  | None => "0"%char
  end.

(** [hex.EncodeToString]. *)
Fixpoint hex_EncodeToString (src : list byte) : string :=
  match src with
  | [] => ""
  | b :: rest =>
      String (hexdigit (Z.shiftr (byte_to_Z b) 4))
        (String (hexdigit (Z.land (byte_to_Z b) 15)) (hex_EncodeToString rest))
  end.

(** [fromHexChar]. *)
Definition fromHexChar (c : ascii) : option Z :=
  let n := Z.of_nat (nat_of_ascii c) in
  if (48 <=? n) && (n <=? 57) then Some (n - 48)
  else if (97 <=? n) && (n <=? 102) then Some (n - 97 + 10)
  else if (65 <=? n) && (n <=? 70) then Some (n - 65 + 10)
  else None.

Definition InvalidByteError (c : ascii) : error :=
  pkg_error "encoding/hex" ("invalid byte: " ++ String c "").
Definition ErrLength : error :=
  pkg_error "encoding/hex" "odd length hex string".

(** [hex.DecodeString]: the bytes decoded so far come back together with the
    error, so a caller that drops the error still holds the decoded prefix. *)
Fixpoint hex_DecodeString (s : string) : list byte * option error :=
  match s with
  | "" => ([], None)
  | String p "" =>
      match fromHexChar p with
      | None => ([], Some (InvalidByteError p))
      | Some _ => ([], Some ErrLength)
      end
  | String p (String q rest) =>
      match fromHexChar p with
      | None => ([], Some (InvalidByteError p))
      | Some a =>
          match fromHexChar q with
          | None => ([], Some (InvalidByteError q))
          | Some b =>
              let '(tl, err) := hex_DecodeString rest in
              (byte_of_Z (Z.lor (Z.shiftl a 4) b) :: tl, err)
          end
      end
  end.

(** *** encoding/binary *)

(** [binary.BigEndian.Uint32]: the first four bytes of [b]. (Go panics on
    a shorter slice; the slices passed below have four bytes.) *)
Definition BigEndian_Uint32 (b : list byte) : Z :=
  match b with
  | b0 :: b1 :: b2 :: b3 :: _ =>
      Z.lor (Z.lor (Z.lor (byte_to_Z b3) (Z.shiftl (byte_to_Z b2) 8))
               (Z.shiftl (byte_to_Z b1) 16))
        (Z.shiftl (byte_to_Z b0) 24)
  | _ => 0
  end.

Definition BigEndian_PutUint32 (v : Z) : list byte :=
  [byte_of_Z (Z.shiftr v 24); byte_of_Z (Z.shiftr v 16);
   byte_of_Z (Z.shiftr v 8); byte_of_Z v].

Definition BigEndian_PutUint64 (v : Z) : list byte :=
  (BigEndian_PutUint32 (Z.shiftr v 32) ++ BigEndian_PutUint32 v)%list.

(** [s[lo:hi]], for bounds within [s]. *)
Definition slice {A} (s : list A) (lo hi : nat) : list A :=
  firstn (hi - lo) (skipn lo s).

(** *** crypto/sha256 *)

Module sha256.

(** The constants are written in Go as two tables of literals; they are
    the first 32 bits of the fractional parts of the cube roots ([_K]) and
    of the square roots ([init0] to [init7]) of the first primes, and are
    computed here from that definition. *)
Definition is_prime (n : nat) : bool :=
  forallb (fun d => negb (Nat.eqb (n mod d) 0)) (seq 2 (n - 2)).

Definition primes (count : nat) : list Z :=
  map Z.of_nat (firstn count (filter is_prime (seq 2 320))).

(** The integer cube root of [n], bit by bit from [2 ^ (bits - 1)] down. *)
Fixpoint cube_root (bits : nat) (n acc : Z) : Z :=
  match bits with
  | O => acc
  | S bits' =>
      let candidate := acc + 2 ^ Z.of_nat bits' in
      cube_root bits' n
        (if candidate * candidate * candidate <=? n then candidate else acc)
  end.

Definition _K : list Z :=
  Eval vm_compute in
    map (fun p => Z.land (cube_root 36 (p * 2 ^ 96) 0) 0xffffffff) (primes 64).

Definition init_words : list Z :=
  Eval vm_compute in
    map (fun p => Z.land (Z.sqrt (p * 2 ^ 64)) 0xffffffff) (primes 8).

Record digest := mkDigest {
  h0 : Z; h1 : Z; h2 : Z; h3 : Z; h4 : Z; h5 : Z; h6 : Z; h7 : Z }.

Definition init : digest :=
  mkDigest (nth 0 init_words 0) (nth 1 init_words 0) (nth 2 init_words 0)
           (nth 3 init_words 0) (nth 4 init_words 0) (nth 5 init_words 0)
           (nth 6 init_words 0) (nth 7 init_words 0).

(** uint32 arithmetic: the low 32 bits are kept. *)
Definition trunc (x : Z) : Z := Z.land x 0xffffffff.

(** [bits.RotateLeft32(x, -k)]. *)
Definition rotr (k x : Z) : Z :=
  trunc (Z.lor (Z.shiftr x k) (Z.shiftl x (32 - k))).

Definition not32 (x : Z) : Z := Z.lxor x 0xffffffff.

(** The 64 rounds of one block. [w] holds the sixteen schedule words
    [w[i] .. w[i+15]] of the round [i] about to run. *)
Fixpoint rounds (ks : list Z) (w : list Z) (s : digest) : digest :=
  match ks with
  | [] => s
  | k :: ks' =>
      let wi := nth 0 w 0 in
      let v1 := nth 14 w 0 in
      let t1' := Z.lxor (Z.lxor (rotr 17 v1) (rotr 19 v1)) (Z.shiftr v1 10) in
      let v2 := nth 1 w 0 in
      let t2' := Z.lxor (Z.lxor (rotr 7 v2) (rotr 18 v2)) (Z.shiftr v2 3) in
      let wnext := trunc (t1' + nth 9 w 0 + t2' + wi) in
      let '(mkDigest a b c d e f g h) := s in
      let t1 := trunc (h + Z.lxor (Z.lxor (rotr 6 e) (rotr 11 e)) (rotr 25 e)
                        + Z.lxor (Z.land e f) (Z.land (not32 e) g) + k + wi) in
      let t2 := trunc (Z.lxor (Z.lxor (rotr 2 a) (rotr 13 a)) (rotr 22 a)
                        + Z.lxor (Z.lxor (Z.land a b) (Z.land a c)) (Z.land b c)) in
      rounds ks' (tl w ++ [wnext])%list
        (mkDigest (trunc (t1 + t2)) a b c (trunc (d + t1)) e f g)
  end.

Fixpoint words (n : nat) (p : list byte) : list Z :=
  match n with
  | O => []
  | S n' => BigEndian_Uint32 (firstn 4 p) :: words n' (skipn 4 p)
  end.

Definition add_digest (x y : digest) : digest :=
  mkDigest (trunc (h0 x + h0 y)) (trunc (h1 x + h1 y))
           (trunc (h2 x + h2 y)) (trunc (h3 x + h3 y))
           (trunc (h4 x + h4 y)) (trunc (h5 x + h5 y))
           (trunc (h6 x + h6 y)) (trunc (h7 x + h7 y)).

(** [block]: consumes [n] chunks of 64 bytes. *)
Fixpoint block (n : nat) (s : digest) (p : list byte) : digest :=
  match n with
  | O => s
  | S n' =>
      block n' (add_digest s (rounds _K (words 16 (firstn 64 p)) s)) (skipn 64 p)
  end.

(** The padding [checkSum] appends: 0x80, zeros up to 56 mod 64, and the
    length in bits as a big-endian uint64. *)
Definition padding (len : Z) : list byte :=
  (x80 :: repeat x00 (Z.to_nat ((55 - len) mod 64))
    ++ BigEndian_PutUint64 (uint64 (len * 8)))%list.

(** [sha256.Sum256]. *)
Definition Sum256 (data : list byte) : list byte :=
  let p := (data ++ padding (Z.of_nat (length data)))%list in
  let d := block (length p / 64)%nat init p in
  (BigEndian_PutUint32 (h0 d) ++ BigEndian_PutUint32 (h1 d) ++
   BigEndian_PutUint32 (h2 d) ++ BigEndian_PutUint32 (h3 d) ++
   BigEndian_PutUint32 (h4 d) ++ BigEndian_PutUint32 (h5 d) ++
   BigEndian_PutUint32 (h6 d) ++ BigEndian_PutUint32 (h7 d))%list.

Definition BlockSize : nat := 64.

End sha256.

(** *** crypto/hmac *)

Definition xor_bytes (pad : Z) (key : list byte) : list byte :=
  map (fun b => byte_of_Z (Z.lxor (byte_to_Z b) pad)) key.

(** [hmac.New(sha256.New, key)], [Write(msg)], [Sum(nil)]. [Write] on a hash
    never returns an error. *)
Definition hmac_sha256 (key msg : list byte) : list byte :=
  let key' := if (sha256.BlockSize <? length key)%nat
              then sha256.Sum256 key else key in
  let padded := (key' ++ repeat x00 (sha256.BlockSize - length key'))%list in
  let inner := sha256.Sum256 (xor_bytes 0x36 padded ++ msg)%list in
  sha256.Sum256 (xor_bytes 0x5c padded ++ inner)%list.

(** *** fmt *)

(** [fmt.Sprintf] for the verbs the code uses ([%v %w %s %d %x %q], with the
    [#] and [+] flags): every verb is replaced by the next rendered
    operand. *)
Fixpoint Sprintf (format : string) (operands : list string) : string :=
  match format with
  | "" => ""
  | String "%" (String f (String _ rest as tail)) =>
      let rest' := if (Ascii.eqb f "#" || Ascii.eqb f "+")%bool then rest else tail in
      match operands with
      | o :: os => (o ++ Sprintf rest' os)%string
      | [] => ("%!v(MISSING)" ++ Sprintf rest' [])%string
      end
  | String "%" (String _ rest) =>
      match operands with
      | o :: os => (o ++ Sprintf rest os)%string
      | [] => ("%!v(MISSING)" ++ Sprintf rest [])%string
      end
  | String c rest => String c (Sprintf rest operands)
  end.

(** [err.Error()]. *)
Definition Error (err : error) : string :=
  match err with
  | errors_New msg => msg
  | fmt_Errorf format operands _ => Sprintf format operands
  | pkg_error _ msg => msg
  | RuleError d => d
  end.

(** [fmt.Errorf] without and with a trailing [%w] operand. *)
Definition Errorf (format : string) (operands : list string) : error :=
  fmt_Errorf format operands None.
Definition Errorf_w (format : string) (operands : list string) (err : error) : error :=
  fmt_Errorf format (operands ++ [Error err])%list (Some err).

(** Sequencing of calls that may fail: the first error or panic is returned. *)
Definition bind {A B} (r : result A) (k : A -> result B) : result B :=
  match r with
  | Ok a => k a
  | Err e => Err e
  | Panic p => Panic p
  end.

Notation "x <- r ;; k" := (bind r (fun x => k))
  (at level 100, r at next level, right associativity).

End Go.

Import Go.

(** ** Packages outside the repository

    Their code is not part of the repository; each is an interface whose
    operations the repository calls. *)

(** go-bip32's [Key]. The field [Key] of the Go struct is [KeyBytes] here. *)
Module bip32.
Record Key := mkKey {
  KeyBytes : list byte;
  Version : list byte;
  ChildNumber : list byte;
  FingerPrint : list byte;
  ChainCode : list byte;
  Depth : Z;
  IsPrivate : bool }.
End bip32.

Class Bip32 := {
  (** [bip32.NewMasterKey(seed)] *)
  NewMasterKey : list byte -> result bip32.Key;
  (** [key.NewChildKey(childIdx)] *)
  NewChildKey : bip32.Key -> Z -> result bip32.Key }.

Class Btcec := {
  PrivateKey : Type;
  PublicKey : Type;
  (** [btcec.PrivKeyFromBytes(btcec.S256(), pk)] *)
  PrivKeyFromBytes : list byte -> PrivateKey * PublicKey;
  (** [btcec.ParsePubKey(pubKeyStr, btcec.S256())] *)
  ParsePubKey : list byte -> result PublicKey }.

(** zpay32's decoded [Invoice]: the three fields the code reads, all
    pointers in Go. *)
Module zpay32.
Record Invoice := mkInvoice {
  MilliSat : option Z;
  PaymentHash : option (list byte);
  DescriptionHash : option (list byte) }.
End zpay32.

Class Zpay32 := {
  (** [zpay32.Decode(invoice, a.activeParams)] *)
  zpay32_Decode : string -> result zpay32.Invoice }.

(** go-lnurl. *)
Module lnurl.
Module SuccessAction.
Record t := mk {
  Tag : string;
  Description : string;
  URL : string;
  Message : string;
  Ciphertext : string;
  IV : string }.
End SuccessAction.
Module LNURLPayResponse1.
Record t := mk {
  Callback : string;
  MinSendable : Z;
  MaxSendable : Z;
  EncodedMetadata : string;
  Metadata : list (list string) }.
End LNURLPayResponse1.
Module LNURLPayResponse2.
Record t := mk {
  Status : string;
  Reason : string;
  SuccessAction : option SuccessAction.t;
  Routes : list (list string);
  PR : string;
  Disposable : option bool }.
End LNURLPayResponse2.
End lnurl.

Class Lnurl := {
  (** [sa.Decipher(preimage)] *)
  Decipher : lnurl.SuccessAction.t -> list byte -> result string;
  (** [lnurl.Metadata(m).Description()] *)
  Metadata_Description : list (list string) -> string }.

(** ** The node's RPC surface and the sweep builder *)

Module lnrpc.
Inductive AddressType : Set :=
| WITNESS_PUBKEY_HASH
| NESTED_PUBKEY_HASH
| UNUSED_WITNESS_PUBKEY_HASH
| UNUSED_NESTED_PUBKEY_HASH.
Record OutPoint := mkOutPoint {
  TxidBytes : list byte;
  OutputIndex : Z }.
Module Utxo.
Record t := mk {
  AddressType : AddressType;
  AmountSat : Z;
  PkScript : string;
  Outpoint : option OutPoint;
  Confirmations : Z }.
End Utxo.
Record GetInfoResponse := mkGetInfoResponse { BlockHeight : Z }.
(** [lnrpc.LightningClient]: the answers of the node to the two calls made. *)
Record LightningClient := mkLightningClient {
  GetInfo : result GetInfoResponse;
  ListUnspent : Z -> Z -> result (list Utxo.t) }.
End lnrpc.

Module walletrpc.
Record WalletKitClient := mkWalletKitClient {
  (** [EstimateFee] by [ConfTarget]; the answer's [SatPerKw] *)
  EstimateFee : Z -> result Z }.
End walletrpc.

Module wire.
Record OutPoint := mkOutPoint { Hash : list byte; Index : Z }.
Record TxOut := mkTxOut { Value : Z; PkScript : list byte }.
Module MsgTx.
Record t := mk {
  Version : Z;
  TxIn : list OutPoint;
  TxOut : list TxOut;
  LockTime : Z }.
End MsgTx.
End wire.

Module lnwallet.
Inductive AddressType : Set :=
| WitnessPubKey
| NestedWitnessPubKey
| UnknownAddressType.
Module Utxo.
Record t := mk {
  AddressType : AddressType;
  Value : Z;
  Confirmations : Z;
  PkScript : list byte;
  OutPoint : wire.OutPoint }.
End Utxo.
End lnwallet.

Module chainhash.
Definition HashSize : nat := 32.
(** [hash.SetBytes(newHash)] *)
Definition SetBytes (newHash : list byte) : result (list byte) :=
  if (length newHash =? HashSize)%nat then Ok newHash
  else Err (pkg_error "chainhash"
         (Sprintf "invalid hash length of %v, want %v"
            [pretty (Z.of_nat (length newHash)); pretty (Z.of_nat HashSize)])).
End chainhash.

Module sweep.
Record WalletSweepPackage := mkWalletSweepPackage { SweepTx : wire.MsgTx.t }.

(** What [sweep.CraftSweepAllTx] does with the [UtxoSource] it is handed:
    it may call [ListUnspentWitness] and go on from the answer, any number
    of times, and then returns. The two lockers passed to it do nothing, and
    the signer's answers do not reach the accounting; both are folded into
    the builder. *)
Inductive Builder : Type :=
| Return (r : result WalletSweepPackage)
| CallListUnspentWitness (minConfs maxConfs : Z)
    (k : result (list lnwallet.Utxo.t) -> Builder).
End sweep.

Class Btcutil := {
  Address : Type;
  (** [btcutil.DecodeAddress(addr, a.activeParams)] *)
  DecodeAddress : string -> result Address;
  (** [addr.IsForNet(a.activeParams)] *)
  IsForNet : Address -> bool;
  (** [addr.String()] *)
  Address_String : Address -> string;
  (** [a.activeParams.Name] *)
  activeParams_Name : string }.

Class Lnd `{Btcutil} := {
  (** [lnwallet.DefaultDustLimit()] *)
  DefaultDustLimit : Z;
  (** [sweep.CraftSweepAllTx(feeRate, dustLimit, blockHeight, nil, addr, ...)] *)
  CraftSweepAllTx : Z -> Z -> Z -> Address -> sweep.Builder;
  (** [tx.Serialize(&buf)] *)
  Serialize : wire.MsgTx.t -> result (list byte);
  (** [tx.TxHash().String()] *)
  TxHash_String : wire.MsgTx.t -> string;
  (** the operand of [%#v] *)
  MsgTx_GoString : wire.MsgTx.t -> string }.

(** ** The repository's data ([data] package messages) *)

Module data.
Module LNURLAuth.
Record t := mk {
  Tag : string;
  Callback : string;
  K1 : string;
  Host : string;
  Jwt : bool }.
End LNURLAuth.
Module LNUrlPayMetadata.
Record t := mk { Entry : list string }.
End LNUrlPayMetadata.
Module LNURLPayResponse1.
Record t := mk {
  Callback : string;
  Host : string;
  MinAmount : Z;
  MaxAmount : Z;
  Metadata : list LNUrlPayMetadata.t;
  Amount : Z;
  Comment : string }.
End LNURLPayResponse1.
Module SuccessAction.
Record t := mk {
  Tag : string;
  Description : string;
  Url : string;
  Message : string;
  Ciphertext : string;
  Iv : string }.
End SuccessAction.
Module LNUrlPayInfo.
Record t := mk {
  PaymentHash : string;
  Invoice : string;
  SuccessAction : option SuccessAction.t;
  Comment : string;
  InvoiceDescription : string;
  Metadata : list LNUrlPayMetadata.t;
  Host : string }.
End LNUrlPayInfo.
Record TransactionDetails := mkTransactionDetails {
  Tx : list byte;
  TxHash : string;
  Fees : Z }.
Record SweepAllCoinsTransactions := mkSweepAllCoinsTransactions {
  Amt : Z;
  Transactions : gmap Z TransactionDetails }.
End data.

(** ** The store ([db] package) *)

Module db.

(** Modelled from the spec: the [db] package ([FetchLNURLAuthKey],
    [FetchLNUrlPayInfo], [SaveLNUrlPayInfo]) is not among the sources. The
    spec gives a seed "created once on first use" and pay records "keyed by
    payment hash"; a fetch hands out a copy of the stored record. [failure]
    is the error every operation returns while the store cannot be used. *)
Record DB := mkDB {
  lnurlAuthKey : option (list byte);
  lnurlPayInfo : gmap string data.LNUrlPayInfo.t;
  failure : option error }.

(** Modelled from the spec: [db.FetchLNURLAuthKey(createNew)]. The boolean
    tells whether [createNew] ran. *)
Definition FetchLNURLAuthKey (d : DB) (createNew : result (list byte))
  : result (list byte) * DB * bool :=
  match failure d with
  | Some err => (Err err, d, false)
  | None =>
      match lnurlAuthKey d with
      | Some key => (Ok key, d, false)
      | None =>
          match createNew with
          | Ok key => (Ok key, mkDB (Some key) (lnurlPayInfo d) (failure d), true)
          | other => (other, d, true)
          end
      end
  end.

(** Modelled from the spec: [db.FetchLNUrlPayInfo(paymentHash)]; a missing
    record is [nil, nil]. *)
Definition FetchLNUrlPayInfo (d : DB) (paymentHash : string)
  : result (option data.LNUrlPayInfo.t) :=
  match failure d with
  | Some err => Err err
  | None => Ok (lnurlPayInfo d !! paymentHash)
  end.

(** Modelled from the spec: [db.SaveLNUrlPayInfo(info)]. *)
Definition SaveLNUrlPayInfo (d : DB) (info : data.LNUrlPayInfo.t)
  : option error * DB :=
  match failure d with
  | Some err => (Some err, d)
  | None =>
      (None, mkDB (lnurlAuthKey d)
               (<[data.LNUrlPayInfo.PaymentHash info := info]> (lnurlPayInfo d))
               (failure d))
  end.

End db.

(** ** The network, as the LNURL client sees it *)

Module url.
(** A parsed [*url.URL]: [Query] is what [url.Query()] returns, in the order
    [Add] appended; [Base] is the rest of the URL. *)
Record URL := mk { Base : string; Query : list (string * string) }.
End url.

Module http.
Record Response := mk { StatusCode : Z; Status : string; Body : string }.
End http.

Class Network := {
  (** [url.Parse(rawurl)] *)
  url_Parse : string -> result url.URL;
  (** [io.ReadFull(rand.Reader, make([]byte, n))] *)
  rand_ReadFull : nat -> result (list byte);
  (** [http.Get(url.String())], the query encoded by [query.Encode()] *)
  http_Get : url.URL -> result http.Response;
  (** [json.NewDecoder(resp.Body).Decode(&payResponse2)] *)
  json_Decode_LNURLPayResponse2 : string -> result lnurl.LNURLPayResponse2.t }.

(** ** Package [account] *)

Module account.

(** *** account/lnurl.go *)

Record lnurlPayMetadata_t := mkPayMetadata {
  encoded : string;
  data_ : list (list string) }.

(** The fields of [Service] these functions use. [backupRequests] counts the
    calls of [a.requestBackup()]; logging is left out. *)
Record Service := mkService {
  lnurlWithdrawing : string;
  lnurlPayMetadata : lnurlPayMetadata_t;
  breezDB : db.DB;
  backupRequests : nat }.

Definition with_breezDB (a : Service) (d : db.DB) : Service :=
  mkService (lnurlWithdrawing a) (lnurlPayMetadata a) d (backupRequests a).

Definition requestBackup (a : Service) : Service :=
  mkService (lnurlWithdrawing a) (lnurlPayMetadata a) (breezDB a)
    (S (backupRequests a)).

(** [HandleLNURL], case [lnurl.LNURLPayResponse1]: what resolving a pay
    link leaves in the service, [a.lnurlPayMetadata.encoded] and
    [a.lnurlPayMetadata.data]. (The response it builds for the caller
    converts the amounts through [float64] and is not part of this model.) *)
Definition HandleLNURL_LNURLPayResponse1 (a : Service)
    (params : lnurl.LNURLPayResponse1.t) : Service :=
  mkService (lnurlWithdrawing a)
    (mkPayMetadata (lnurl.LNURLPayResponse1.EncodedMetadata params)
       (lnurl.LNURLPayResponse1.Metadata params))
    (breezDB a) (backupRequests a).

Section lnurl_go.
Context `{Bip32, Btcec, Zpay32, Lnurl, Network}.

(** [getLNURLAuthKey]. [NewSeed] is what [bip32.NewSeed()] returns if the
    store asks for a new seed. *)
Definition getLNURLAuthKey (a : Service) (NewSeed : result (list byte))
  : result bip32.Key * Service :=
  let '(key, d, needsBackup) := db.FetchLNURLAuthKey (breezDB a) NewSeed in
  let a := with_breezDB a d in
  match key with
  | Err err => (Err (Errorf_w "failed to fetch lnurl key %w" [] err), a)
  | Panic p => (Panic p, a)
  | Ok key =>
      let a := if needsBackup then requestBackup a else a in
      match NewMasterKey key with
      | Err err => (Err (Errorf_w "error creating lnurl master key: %w" [] err), a)
      | Panic p => (Panic p, a)
      | Ok masterKey => (Ok masterKey, a)
      end
  end.

(** The inner loop of [FinishLNURLAuth],
    [for key, err = key.NewChildKey(nextChildIndex); err != nil; { nextChildIndex++ }]:
    the call sits in the init statement and runs once, before [retry_loop];
    the condition reads [err], which the body does not assign. [None] is a
    loop still running when [fuel] iterations are spent. *)
Fixpoint retry_loop (fuel : nat) (err : option error) (nextChildIndex : Z)
  : option Z :=
  match err with
  | None => Some nextChildIndex
  | Some _ =>
      match fuel with
      | O => None
      | S fuel' => retry_loop fuel' err (uint32 (nextChildIndex + 1))
      end
  end.

(** The outer loop, [for i := 0; i < 4; i++], over the remaining values of
    [i]. [key, err = key.NewChildKey(nextChildIndex)] assigns both: a failed
    call leaves [key] nil and [err] set, and were the inner loop to end then,
    the next use of [key] would dereference nil. *)
Fixpoint derivation_path (fuel : nat) (first16 : list byte) (steps : list nat)
    (key : bip32.Key) : option (result bip32.Key) :=
  match steps with
  | [] => Some (Ok key)
  | i :: steps' =>
      let nextChildIndex := BigEndian_Uint32 (slice first16 (i * 4) (i * 4 + 4)) in
      match NewChildKey key nextChildIndex with
      | Panic p => Some (Panic p)
      | Ok key' =>
          match retry_loop fuel None nextChildIndex with
          | None => None
          | Some _ => derivation_path fuel first16 steps' key'
          end
      | Err err =>
          match retry_loop fuel (Some err) nextChildIndex with
          | None => None
          | Some _ => Some (Panic nil_dereference)
          end
      end
  end.

(** [FinishLNURLAuth] up to "this is the result keypair" (the signing of
    [k1] and the callback request follow it). *)
Definition FinishLNURLAuth_keypair (fuel : nat) (a : Service)
    (NewSeed : result (list byte)) (authParams : data.LNURLAuth.t)
  : option (result (PrivateKey * PublicKey)) * Service :=
  match getLNURLAuthKey a NewSeed with
  | (Err err, a') => (Some (Err err), a')
  | (Panic p, a') => (Some (Panic p), a')
  | (Ok key, a') =>
      let sha := hmac_sha256 (bip32.KeyBytes key)
                   (bytes_of_string (data.LNURLAuth.Host authParams)) in
      let first16 := slice sha 0 16 in
      match derivation_path fuel first16 [0; 1; 2; 3]%nat key with
      | None => (None, a')
      | Some (Ok key) => (Some (Ok (PrivKeyFromBytes (bip32.KeyBytes key))), a')
      | Some (Err err) => (Some (Err err), a')
      | Some (Panic p) => (Some (Panic p), a')
      end
  end.

(** [FinishLNURLPay], steps 5 and 6: the callback request and its answer. *)
Definition FinishLNURLPay_request (params : data.LNURLPayResponse1.t)
  : result lnurl.LNURLPayResponse2.t :=
  match url_Parse (data.LNURLPayResponse1.Callback params) with
  | Err err => Err (Errorf "invalid callback url %v" [Error err])
  | Panic p => Panic p
  | Ok u =>
      let query := (url.Query u ++
        [("amount", Sprintf "%d" [pretty (data.LNURLPayResponse1.Amount params)])])%list in
      nonce <- rand_ReadFull 12 ;;
      let query := (query ++ [("nonce", hex_EncodeToString nonce)])%list in
      let query :=
        if String.eqb (data.LNURLPayResponse1.Comment params) "" then query
        else (query ++ [("comment", data.LNURLPayResponse1.Comment params)])%list in
      resp <- http_Get (url.mk (url.Base u) query) ;;
      if negb (http.StatusCode resp =? 200) && negb (http.StatusCode resp =? 320)
      then Err (Errorf "Error in http request: %s" [http.Status resp])
      else
        payResponse2 <- json_Decode_LNURLPayResponse2 (http.Body resp) ;;
        if String.eqb (lnurl.LNURLPayResponse2.Status payResponse2) "ERROR"
        then Err (errors_New (lnurl.LNURLPayResponse2.Reason payResponse2))
        else Ok payResponse2
  end.

(** Step 10: the success action, if any, must carry a supported tag. *)
Definition FinishLNURLPay_successAction (sa : option lnurl.SuccessAction.t)
  : result (option data.SuccessAction.t) :=
  match sa with
  | None => Ok None
  | Some sa =>
      let t := lnurl.SuccessAction.Tag sa in
      if negb (String.eqb t "message") && negb (String.eqb t "url")
         && negb (String.eqb t "aes")
      then Err (Errorf "Unknown SuccessAction: %s" [t])
      else Ok (Some (data.SuccessAction.mk
                       (lnurl.SuccessAction.Tag sa)
                       (lnurl.SuccessAction.Description sa)
                       (lnurl.SuccessAction.URL sa)
                       (lnurl.SuccessAction.Message sa)
                       (lnurl.SuccessAction.Ciphertext sa)
                       (lnurl.SuccessAction.IV sa)))
  end.

(** Steps 7 to 11: decode the invoice, check the description hash and the
    amount, and build the record. *)
Definition FinishLNURLPay_verify (a : Service) (params : data.LNURLPayResponse1.t)
    (payResponse2 : lnurl.LNURLPayResponse2.t) : result data.LNUrlPayInfo.t :=
  invoice <- zpay32_Decode (lnurl.LNURLPayResponse2.PR payResponse2) ;;
  match zpay32.DescriptionHash invoice with
  | None => Err (errors_New "Description hash not found in invoice.")
  | Some descriptionHash =>
      let sum := sha256.Sum256 (bytes_of_string (encoded (lnurlPayMetadata a))) in
      if negb (String.eqb (hex_EncodeToString sum) (hex_EncodeToString descriptionHash))
      then Err (errors_New "Invoice description hash does not match metadata.")
      else
        match zpay32.MilliSat invoice with
        | None => Panic nil_dereference
        | Some milliSat =>
            if negb (data.LNURLPayResponse1.Amount params =? uint64 milliSat)
            then Err (errors_New "Invoice amount does not match the amount set by user.")
            else
              _sa <- FinishLNURLPay_successAction
                       (lnurl.LNURLPayResponse2.SuccessAction payResponse2) ;;
              match zpay32.PaymentHash invoice with
              | None => Panic nil_dereference
              | Some paymentHash =>
                  Ok (data.LNUrlPayInfo.mk
                        (hex_EncodeToString paymentHash)
                        (lnurl.LNURLPayResponse2.PR payResponse2)
                        _sa
                        (data.LNURLPayResponse1.Comment params)
                        (Metadata_Description (data_ (lnurlPayMetadata a)))
                        (data.LNURLPayResponse1.Metadata params)
                        (data.LNURLPayResponse1.Host params))
              end
        end
  end.

(** [FinishLNURLPay]. The error of [SaveLNUrlPayInfo] is dropped. *)
Definition FinishLNURLPay (a : Service) (params : data.LNURLPayResponse1.t)
  : result data.LNUrlPayInfo.t * Service :=
  match (payResponse2 <- FinishLNURLPay_request params ;;
         FinishLNURLPay_verify a params payResponse2) with
  | Ok info =>
      let '(_, d) := db.SaveLNUrlPayInfo (breezDB a) info in
      (Ok info, with_breezDB a d)
  | other => (other, a)
  end.

(** [DecryptLNUrlPayMessage]. [info] is the caller's copy of the record;
    [info.SuccessAction] is a pointer, nil when the record has no action.
    A failed [Decipher] has already assigned its (empty) content to the
    copy's [Message] when the function returns; the store is not written. *)
Definition DecryptLNUrlPayMessage (a : Service) (paymentHash : string)
    (preimage : list byte) : result string * Service :=
  match db.FetchLNUrlPayInfo (breezDB a) paymentHash with
  | Err err =>
      (Err (Errorf "Unable to get LNUrl-Pay info from database: %s" [Error err]), a)
  | Panic p => (Panic p, a)
  | Ok None =>
      (Err (errors_New
        "DecryptLNUrlPayMessage: could not find lnUrlPayInfo with given paymentHash."), a)
  | Ok (Some info) =>
      match data.LNUrlPayInfo.SuccessAction info with
      | None => (Panic nil_dereference, a)
      | Some isa =>
          let sa := lnurl.SuccessAction.mk
                      (data.SuccessAction.Tag isa)
                      (data.SuccessAction.Description isa)
                      (data.SuccessAction.Url isa)
                      (data.SuccessAction.Message isa)
                      (data.SuccessAction.Ciphertext isa)
                      (data.SuccessAction.Iv isa) in
          if String.eqb (lnurl.SuccessAction.Ciphertext sa) ""
          then (Err (errors_New "LNUrl-Pay CipherText is empty."), a)
          else
            match Decipher sa preimage with
            | Err err => (Err (Errorf "Could not decrypt message: %v" [Error err]), a)
            | Panic p => (Panic p, a)
            | Ok message =>
                let info := data.LNUrlPayInfo.mk
                  (data.LNUrlPayInfo.PaymentHash info)
                  (data.LNUrlPayInfo.Invoice info)
                  (Some (data.SuccessAction.mk
                           (data.SuccessAction.Tag isa)
                           (data.SuccessAction.Description isa)
                           (data.SuccessAction.Url isa)
                           message
                           (data.SuccessAction.Ciphertext isa)
                           (data.SuccessAction.Iv isa)))
                  (data.LNUrlPayInfo.Comment info)
                  (data.LNUrlPayInfo.InvoiceDescription info)
                  (data.LNUrlPayInfo.Metadata info)
                  (data.LNUrlPayInfo.Host info) in
                match db.SaveLNUrlPayInfo (breezDB a) info with
                | (Some err, d) =>
                    (Err (Errorf "Could not save deciphered message: %s" [Error err]),
                     with_breezDB a d)
                | (None, d) => (Ok message, with_breezDB a d)
                end
            end
      end
  end.

End lnurl_go.

(** *** account/sweep.go *)

(** [a.daemonAPI]: the clients are nil until the daemon is up. *)
Record API := mkAPI {
  APIClient : option lnrpc.LightningClient;
  WalletKitClient : option walletrpc.WalletKitClient }.

Definition targets : list Z := [2; 6; 25].

Record rpcUtxoSource := mkRpcUtxoSource {
  lightningClient : lnrpc.LightningClient;
  totalAmount : Z }.

Definition NewRpcUtxoSource (c : lnrpc.LightningClient) : rpcUtxoSource :=
  mkRpcUtxoSource c 0.

(** [determineFeePerKw]. *)
Definition determineFeePerKw (daemonAPI : API) (confTarget : Z) : result Z :=
  match WalletKitClient daemonAPI with
  | None => Err (Errorf "API not ready" [])
  | Some walletKitClient =>
      match walletrpc.EstimateFee walletKitClient (int32 confTarget) with
      | Err err =>
          Err (Errorf_w "walletKitClient.EstimateFee(%v): %w" [pretty confTarget] err)
      | Panic p => Panic p
      | Ok satPerKw => Ok satPerKw
      end
  end.

(** The loop of [ListUnspentWitness] over the listed outputs; the running
    [u.totalAmount] is returned whatever the outcome. *)
Fixpoint ListUnspentWitness_range (utxos : list lnrpc.Utxo.t)
    (lu : list lnwallet.Utxo.t) (totalAmount : Z)
  : result (list lnwallet.Utxo.t) * Z :=
  match utxos with
  | [] => (Ok lu, totalAmount)
  | utxo :: rest =>
      let addrType :=
        match lnrpc.Utxo.AddressType utxo with
        | lnrpc.WITNESS_PUBKEY_HASH => Some lnwallet.WitnessPubKey
        | lnrpc.NESTED_PUBKEY_HASH => Some lnwallet.NestedWitnessPubKey
        | _ => None
        end in
      match addrType with
      | None => (Err (Errorf "invalid utxo address type" []), totalAmount)
      | Some addrType =>
          match hex_DecodeString (lnrpc.Utxo.PkScript utxo) with
          | (_, Some err) =>
              (Err (Errorf_w "hex.DecodeString(%v): %w" [lnrpc.Utxo.PkScript utxo] err),
               totalAmount)
          | (pkScript, None) =>
              match lnrpc.Utxo.Outpoint utxo with
              | None => (Panic nil_dereference, totalAmount)
              | Some outpoint =>
                  match chainhash.SetBytes (lnrpc.TxidBytes outpoint) with
                  | Err err =>
                      (Err (Errorf_w "outPointHash.SetBytes(%x): %w"
                              [hex_EncodeToString (lnrpc.TxidBytes outpoint)] err),
                       totalAmount)
                  | Panic p => (Panic p, totalAmount)
                  | Ok outPointHash =>
                      ListUnspentWitness_range rest
                        (lu ++ [lnwallet.Utxo.mk addrType
                                  (lnrpc.Utxo.AmountSat utxo)
                                  (lnrpc.Utxo.Confirmations utxo)
                                  pkScript
                                  (wire.mkOutPoint outPointHash
                                     (lnrpc.OutputIndex outpoint))])%list
                        (int64 (totalAmount + lnrpc.Utxo.AmountSat utxo))
                  end
              end
          end
      end
  end.

(** [ListUnspentWitness]: the arguments are ignored, the request is for one
    confirmation and more. *)
Definition ListUnspentWitness (u : rpcUtxoSource) (minConfs maxConfs : Z)
  : result (list lnwallet.Utxo.t) * rpcUtxoSource :=
  match lnrpc.ListUnspent (lightningClient u) 1 math_MaxInt32 with
  | Err err => (Err (Errorf_w "u.lightningClient.ListUnspent: %w" [] err), u)
  | Panic p => (Panic p, u)
  | Ok utxoOutputs =>
      let '(r, total) := ListUnspentWitness_range utxoOutputs [] 0 in
      (r, mkRpcUtxoSource (lightningClient u) total)
  end.

(** The builder at work on [rus]. *)
Fixpoint run (b : sweep.Builder) (rus : rpcUtxoSource)
  : result sweep.WalletSweepPackage * rpcUtxoSource :=
  match b with
  | sweep.Return r => (r, rus)
  | sweep.CallListUnspentWitness minConfs maxConfs k =>
      let '(r, rus') := ListUnspentWitness rus minConfs maxConfs in
      run (k r) rus'
  end.

(** [for _, output := range sweepTxPkg.SweepTx.TxOut { amtOut += output.Value }] *)
Definition amtOut_of (outs : list wire.TxOut) : Z :=
  fold_left (fun amtOut output => int64 (amtOut + wire.Value output)) outs 0.

Section sweep_go.
Context `{Btcec, Lnd}.

(** What one pass of the loop over [targets] does. *)
Inductive tier : Type :=
| tier_continue
| tier_set (details : data.TransactionDetails) (totalAmount : Z)
| tier_return (r : result data.SweepAllCoinsTransactions).

Definition sweep_tier (daemonAPI : API) (lnClient : lnrpc.LightningClient)
    (info : lnrpc.GetInfoResponse) (targetAddr : Address) (confTarget : Z) : tier :=
  match determineFeePerKw daemonAPI confTarget with
  | Err err =>
      tier_return (Err (Errorf_w "a.determineFeePerKw(%v): %w" [pretty confTarget] err))
  | Panic p => tier_return (Panic p)
  | Ok feePerKw =>
      let rus := NewRpcUtxoSource lnClient in
      let '(sweepTxPkg, rus) :=
        run (CraftSweepAllTx feePerKw DefaultDustLimit (lnrpc.BlockHeight info)
               targetAddr) rus in
      match sweepTxPkg with
      | Err err =>
          if errors_As_RuleError err then tier_continue
          else tier_return (Err (Errorf_w "sweep.CraftSweepAllTx(): %w" [] err))
      | Panic p => tier_return (Panic p)
      | Ok sweepTxPkg =>
          let amtOut := amtOut_of (wire.MsgTx.TxOut (sweep.SweepTx sweepTxPkg)) in
          match Serialize (sweep.SweepTx sweepTxPkg) with
          | Err err =>
              tier_return (Err (Errorf_w "tx.Serialize %#v: %w"
                                  [MsgTx_GoString (sweep.SweepTx sweepTxPkg)] err))
          | Panic p => tier_return (Panic p)
          | Ok rawTx =>
              tier_set (data.mkTransactionDetails rawTx
                          (TxHash_String (sweep.SweepTx sweepTxPkg))
                          (int64 (totalAmount rus - amtOut)))
                       (totalAmount rus)
          end
      end
  end.

(** [for _, confTarget := range targets { ... }] and the final return. *)
Fixpoint sweep_range (daemonAPI : API) (lnClient : lnrpc.LightningClient)
    (info : lnrpc.GetInfoResponse) (targetAddr : Address) (confTargets : list Z)
    (td : gmap Z data.TransactionDetails) (totalAmount : Z)
  : result data.SweepAllCoinsTransactions :=
  match confTargets with
  | [] => Ok (data.mkSweepAllCoinsTransactions totalAmount td)
  | confTarget :: rest =>
      match sweep_tier daemonAPI lnClient info targetAddr confTarget with
      | tier_return r => r
      | tier_continue =>
          sweep_range daemonAPI lnClient info targetAddr rest td totalAmount
      | tier_set details total =>
          sweep_range daemonAPI lnClient info targetAddr rest
            (<[int32 confTarget := details]> td) total
      end
  end.

(** [SweepAllCoinsTransactions], with the package variable [targets] as an
    argument. *)
Definition SweepAllCoinsTransactions_over (confTargets : list Z) (daemonAPI : API)
    (address : string) : result data.SweepAllCoinsTransactions :=
  match DecodeAddress address with
  | Err err => Err err
  | Panic p => Panic p
  | Ok targetAddr =>
      if negb (IsForNet targetAddr)
      then Err (Errorf "address: %v is not valid for this network: %v"
                  [Address_String targetAddr; activeParams_Name])
      else
        let '(decodedAddr, _) := hex_DecodeString address in
        match ParsePubKey decodedAddr with
        | Ok _ => Err (Errorf "cannot send coins to pubkeys" [])
        | Panic p => Panic p
        | Err _ =>
            match APIClient daemonAPI with
            | None => Panic nil_dereference
            | Some lnClient =>
                match lnrpc.GetInfo lnClient with
                | Err err => Err (Errorf_w "lnClient.GetInfo: %w" [] err)
                | Panic p => Panic p
                | Ok info =>
                    sweep_range daemonAPI lnClient info targetAddr confTargets ∅ 0
                end
            end
        end
  end.

Definition SweepAllCoinsTransactions (daemonAPI : API) (address : string)
  : result data.SweepAllCoinsTransactions :=
  SweepAllCoinsTransactions_over targets daemonAPI address.

End sweep_go.

End account.

(** ** The specification's vocabulary *)

Module spec.

(** The error names of the specification, as the values the code returns. *)
Definition HashMismatch : error :=
  errors_New "Invoice description hash does not match metadata.".
Definition AmountMismatch : error :=
  errors_New "Invoice amount does not match the amount set by user.".
Definition NotDecryptable : error :=
  errors_New "LNUrl-Pay CipherText is empty.".
Definition PubkeyDestinationRejected : error :=
  Errorf "cannot send coins to pubkeys" [].

(** The pending metadata's hash, the value an invoice must carry. *)
Definition expected_hash (a : account.Service) : list byte :=
  sha256.Sum256 (bytes_of_string (account.encoded (account.lnurlPayMetadata a))).

(** The four child indices [FinishLNURLAuth] reads off the HMAC of the host
    under the master key. *)
Definition child_index (masterKey : bip32.Key) (host : string) (i : nat) : Z :=
  BigEndian_Uint32
    (slice (slice (hmac_sha256 (bip32.KeyBytes masterKey) (bytes_of_string host)) 0 16)
       (i * 4) (i * 4 + 4)).

(** The record [DecryptLNUrlPayMessage] hands to [Decipher]. *)
Definition to_lnurl (isa : data.SuccessAction.t) : lnurl.SuccessAction.t :=
  lnurl.SuccessAction.mk
    (data.SuccessAction.Tag isa) (data.SuccessAction.Description isa)
    (data.SuccessAction.Url isa) (data.SuccessAction.Message isa)
    (data.SuccessAction.Ciphertext isa) (data.SuccessAction.Iv isa).

(** The coins the builder was last shown: the answer of its latest
    [ListUnspentWitness] call, when that call succeeded. *)
Fixpoint last_listing (b : sweep.Builder) (rus : account.rpcUtxoSource)
    (last : option (list lnwallet.Utxo.t)) : option (list lnwallet.Utxo.t) :=
  match b with
  | sweep.Return _ => last
  | sweep.CallListUnspentWitness minConfs maxConfs k =>
      let '(r, rus') := account.ListUnspentWitness rus minConfs maxConfs in
      last_listing (k r) rus' (match r with Ok lu => Some lu | _ => None end)
  end.

Definition sum_Z (l : list Z) : Z := fold_right Z.add 0 l.

(** The builder of one tier: [CraftSweepAllTx] with the tier's fee rate. *)
Definition builder_of `{Lnd} (daemonAPI : account.API)
    (info : lnrpc.GetInfoResponse) (targetAddr : Address) (confTarget : Z)
  : option sweep.Builder :=
  match account.determineFeePerKw daemonAPI confTarget with
  | Ok feePerKw =>
      Some (CraftSweepAllTx feePerKw DefaultDustLimit (lnrpc.BlockHeight info)
              targetAddr)
  | _ => None
  end.

End spec.

(** ** Small instances of the interfaces

    Stand-ins for the outside packages and for the network, simple enough to
    evaluate: the functions above are run on them for the concrete cases
    below. They fix only what a case needs (which calls fail, what an answer
    carries); none of the general statements depends on them. *)

Module sample.

Definition has_prefix (p s : string) : bool := String.prefix p s.

(** go-bip32 stand-in: keys are chained with HMAC-SHA256; [invalid] chooses
    the child indices whose derivation is refused, as go-bip32 refuses a
    child whose key fails [validatePrivateKey]. *)
Definition ErrInvalidPrivateKey : error := pkg_error "bip32" "Invalid private key".

Definition master (seed : list byte) : bip32.Key :=
  let i := hmac_sha256 (bytes_of_string "Bitcoin seed") seed in
  bip32.mkKey i [x04; x88; xad; xe4] [x00; x00; x00; x00]
    [x00; x00; x00; x00] (sha256.Sum256 i) 0 true.

Definition child (key : bip32.Key) (childIdx : Z) : bip32.Key :=
  let i := hmac_sha256 (bip32.ChainCode key)
             (bip32.KeyBytes key ++ BigEndian_PutUint32 childIdx)%list in
  bip32.mkKey i (bip32.Version key) (BigEndian_PutUint32 childIdx)
    (firstn 4 (sha256.Sum256 (bip32.KeyBytes key))) (sha256.Sum256 i)
    (bip32.Depth key + 1) true.

Definition bip32_with (invalid : Z -> bool) : Bip32 := {|
  NewMasterKey seed := Ok (master seed);
  NewChildKey key childIdx :=
    if invalid childIdx then Err ErrInvalidPrivateKey
    else Ok (child key childIdx) |}.

(** btcec stand-in: a public key is recognised by its serialised form alone
    (33 bytes led by 02 or 03, or 65 bytes led by 04). *)
Definition btcec : Btcec := {|
  PrivateKey := list byte;
  PublicKey := list byte;
  PrivKeyFromBytes pk := (pk, x02 :: sha256.Sum256 pk);
  ParsePubKey pubKeyStr :=
    match pubKeyStr with
    | b :: _ =>
        if ((length pubKeyStr =? 33)%nat
            && (Byte.eqb b x02 || Byte.eqb b x03))
           || ((length pubKeyStr =? 65)%nat && Byte.eqb b x04)
        then Ok pubKeyStr
        else Err (pkg_error "btcec" "invalid pub key")
    | [] => Err (pkg_error "btcec" "pubkey string is empty")
    end |}.

(** zpay32 stand-in: one known payment request. *)
Definition zpay32_knowing (pr : string) (invoice : zpay32.Invoice) : Zpay32 := {|
  zpay32_Decode s :=
    if String.eqb s pr then Ok invoice
    else Err (pkg_error "zpay32" "invalid bech32 string") |}.

(** go-lnurl stand-in: [Decipher] never looks at the tag; it accepts a
    32-byte preimage whose first two bytes, in hex, are the IV, and then
    hands back the ciphertext as the content. *)
Definition lnurl : Lnurl := {|
  Decipher sa preimage :=
    if (length preimage =? 32)%nat
       && String.eqb (lnurl.SuccessAction.IV sa) (hex_EncodeToString (firstn 2 preimage))
    then Ok (lnurl.SuccessAction.Ciphertext sa)
    else Err (pkg_error "lnurl" "cipher: message authentication failed");
  Metadata_Description m :=
    match filter (fun e => String.eqb (nth 0 e "") "text/plain") m with
    | e :: _ => nth 1 e ""
    | [] => ""
    end |}.

(** A service answering every callback with status 200 and [answer]. *)
Definition network_answering (answer : lnurl.LNURLPayResponse2.t) : Network := {|
  url_Parse rawurl := Ok (url.mk rawurl []);
  rand_ReadFull n := Ok (repeat x2a n);
  http_Get _ := Ok (http.mk 200 "200 OK" "{...}");
  json_Decode_LNURLPayResponse2 _ := Ok answer |}.

(** btcutil stand-in: addresses are kept as their strings; "bc1" and "tb1"
    strings and serialised public keys in hex decode, and "tb1" strings are
    for another network. *)
Definition btcutil : Btcutil := {|
  Address := string;
  DecodeAddress addr :=
    if has_prefix "bc1" addr || has_prefix "tb1" addr then Ok addr
    else if ((String.length addr =? 66)%nat || (String.length addr =? 130)%nat)
    then match hex_DecodeString addr with
         | (serializedPubKey, None) =>
             match @ParsePubKey btcec serializedPubKey with
             | Ok _ => Ok addr
             | Err e => Err e
             | Panic p => Panic p
             end
         | (_, Some e) => Err e
         end
    else Err (pkg_error "btcutil" "decoded address is of unknown format");
  IsForNet addr := negb (has_prefix "tb1" addr);
  Address_String addr := addr;
  activeParams_Name := "mainnet" |}.

(** lnd stand-in, after [sweep.CraftSweepAllTx]: list the coins once, spend
    all of them to one output of [total - fee] with
    [fee = feeRate * weight / 1000], and fail the sanity check with a rule
    error when there is no input or the output would be negative. *)
Definition sum_values (utxos : list lnwallet.Utxo.t) : Z :=
  fold_right Z.add 0 (map lnwallet.Utxo.Value utxos).

Definition craft_sweep_all (feeRate dustLimit blockHeight : Z) (addr : string)
  : sweep.Builder :=
  sweep.CallListUnspentWitness 1 math_MaxInt32 (fun r =>
    match r with
    | Err e => sweep.Return (Err e)
    | Panic p => sweep.Return (Panic p)
    | Ok utxos =>
        let weight := 168 + 272 * Z.of_nat (length utxos) in
        let amt := sum_values utxos - feeRate * weight / 1000 in
        if (length utxos =? 0)%nat
        then sweep.Return (Err (RuleError "transaction has no inputs"))
        else if amt <? 0
        then sweep.Return (Err (RuleError "transaction output has negative value"))
        else sweep.Return (Ok (sweep.mkWalletSweepPackage
               (wire.MsgTx.mk 2 (map lnwallet.Utxo.OutPoint utxos)
                  [wire.mkTxOut amt (bytes_of_string addr)] blockHeight)))
    end).

Definition serialize (tx : wire.MsgTx.t) : list byte :=
  flat_map (fun o => BigEndian_PutUint64 (uint64 (wire.Value o)))
    (wire.MsgTx.TxOut tx).

Definition lnd : @Lnd btcutil :=
  @Build_Lnd btcutil
    573
    craft_sweep_all
    (fun tx => Ok (serialize tx))
    (fun tx => hex_EncodeToString (firstn 4 (sha256.Sum256 (serialize tx))))
    (fun _ => "&wire.MsgTx{...}").

(** *** Sample inputs *)

Definition dq : string := String (ascii_of_nat 34) "".

(** The encoded metadata [[["text/plain","hi"]]]. *)
Definition encoded_hi : string :=
  ("[[" ++ dq ++ "text/plain" ++ dq ++ "," ++ dq ++ "hi" ++ dq ++ "]]")%string.

Definition empty_db : db.DB := db.mkDB None ∅ None.

Definition service_new : account.Service :=
  account.mkService "" (account.mkPayMetadata "" []) empty_db 0.

Definition resolved_hi : lnurl.LNURLPayResponse1.t :=
  lnurl.LNURLPayResponse1.mk "https://service.example/pay" 1000 100000000
    encoded_hi [["text/plain"; "hi"]].

(** The service once the pay link is resolved. *)
Definition service_hi : account.Service :=
  account.HandleLNURL_LNURLPayResponse1 service_new resolved_hi.

(** A request for 1000 sat, that is 1,000,000 msat. *)
Definition params_1000sat : data.LNURLPayResponse1.t :=
  data.LNURLPayResponse1.mk "https://service.example/pay" "service.example"
    1 100000 [data.LNUrlPayMetadata.mk ["text/plain"; "hi"]] 1000000 "".

Definition pr_sample : string := "lnbc10u1sample".

Definition answer_plain : lnurl.LNURLPayResponse2.t :=
  lnurl.LNURLPayResponse2.mk "" "" None [] pr_sample None.

Definition invoice_of (milliSat : option Z) (descriptionHash : list byte)
  : zpay32.Invoice :=
  zpay32.mkInvoice milliSat (Some (repeat x11 32)) (Some descriptionHash).

Definition hash_hi : list byte := sha256.Sum256 (bytes_of_string encoded_hi).

(** A stored record whose success action is tagged "message" and yet
    carries a ciphertext, as [FinishLNURLPay] stores it when the service
    sends one; [preimage_7] is the preimage its IV goes with. *)
Definition preimage_7 : list byte := repeat x07 32.
Definition preimage_wrong : list byte := repeat x08 32.

Definition action_message : data.SuccessAction.t :=
  data.SuccessAction.mk "message" "Here is your redeem code" "" ""
    "c2VjcmV0IGNvZGU=" "0707".

Definition info_message : data.LNUrlPayInfo.t :=
  data.LNUrlPayInfo.mk "1111" pr_sample (Some action_message) ""
    "hi" [data.LNUrlPayMetadata.mk ["text/plain"; "hi"]] "service.example".

Definition service_paid : account.Service :=
  account.mkService "" (account.mkPayMetadata encoded_hi [["text/plain"; "hi"]])
    (db.mkDB None {["1111" := info_message]} None) 0.

(** A wallet whose seed is stored, and a login request. *)
Definition seed_1 : list byte := repeat x01 32.

Definition service_seeded : account.Service :=
  account.mkService "" (account.mkPayMetadata "" [])
    (db.mkDB (Some seed_1) ∅ None) 0.

Definition auth_site : data.LNURLAuth.t :=
  data.LNURLAuth.mk "login" "https://site.example/auth" "00ff" "site.example" false.

Definition auth_site_jwt : data.LNURLAuth.t :=
  data.LNURLAuth.mk "login" "https://site.example/auth?v=2" "a1b2" "site.example" true.

(** The same seed in a service that has seen other use. *)
Definition service_seeded_used : account.Service :=
  account.mkService "https://other.example/w?k1=1"
    (account.mkPayMetadata encoded_hi [])
    (db.mkDB (Some seed_1) {["1111" := info_message]} None) 3.

Definition no_entropy : result (list byte) := Err (pkg_error "rand" "unused").

(** The path of [auth_site]'s host under [seed_1], and the keypair at its
    end. *)
Definition path_site (n : nat) : bip32.Key :=
  let m := master seed_1 in
  fold_left (fun key i => child key (spec.child_index m "site.example" i))
    (seq 0 n) m.

Definition keypair_site : list byte * list byte :=
  @PrivKeyFromBytes btcec (bip32.KeyBytes (path_site 4)).

(** A node holding two confirmed coins, 50,000 and 30,000 sat, with the fee
    estimates of [fee]. *)
Definition coin (amountSat : Z) (index : Z) : lnrpc.Utxo.t :=
  lnrpc.Utxo.mk lnrpc.WITNESS_PUBKEY_HASH amountSat "0014aabb"
    (Some (lnrpc.mkOutPoint (repeat x33 32) index)) 6.

Definition node_with (fee : Z -> result Z) (coins : result (list lnrpc.Utxo.t))
  : account.API :=
  account.mkAPI
    (Some (lnrpc.mkLightningClient (Ok (lnrpc.mkGetInfoResponse 700000))
             (fun _ _ => coins)))
    (Some (walletrpc.mkWalletKitClient fee)).

Definition two_coins : result (list lnrpc.Utxo.t) :=
  Ok [coin 50000 0; coin 30000 1].

(** 253 sat/kw at every target but the two-block one, whose estimate is so
    high that the fee exceeds the coins. *)
Definition fee_steep (confTarget : Z) : result Z :=
  if confTarget =? 2 then Ok 1000000000 else Ok 253.

(** An estimate of zero for the 25-block target. *)
Definition fee_zero_at_25 (confTarget : Z) : result Z :=
  if confTarget =? 25 then Ok 0 else Ok 253.

Definition destination : string := "bc1qw508d6qejxtdg4y5r3zarvary0c5xw7kv8f3t4".

(** A compressed public key in hex: 02 and 32 more bytes. *)
Definition pubkey_hex : string :=
  "02c6047f9441ed7d6d3045406e95c07cd85c778e4b8cef3ca7abac09b95c709ee5".

Definition fee_253 (confTarget : Z) : result Z := Ok 253.

(** Estimates falling with the target: 1000, 500 and 253 sat/kw. *)
Definition fee_tiers (confTarget : Z) : result Z :=
  if confTarget =? 2 then Ok 1000 else if confTarget =? 6 then Ok 500 else Ok 253.

(** The plan the sample node and builder make for [destination], if any. *)
Definition plan_of (daemonAPI : account.API) : data.SweepAllCoinsTransactions :=
  match @account.SweepAllCoinsTransactions btcec btcutil lnd daemonAPI destination with
  | Ok r => r
  | _ => data.mkSweepAllCoinsTransactions 0 ∅
  end.

Definition details_of (daemonAPI : account.API) (key : Z) : data.TransactionDetails :=
  match data.Transactions (plan_of daemonAPI) !! key with
  | Some details => details
  | None => data.mkTransactionDetails [] "" 0
  end.

End sample.

(** ** Further vocabulary: the store of pay records *)

Module store.

(** [info] with the message of its success action replaced, as
    [DecryptLNUrlPayMessage] saves it. *)
Definition with_message (info : data.LNUrlPayInfo.t) (message : string)
  : data.LNUrlPayInfo.t :=
  data.LNUrlPayInfo.mk
    (data.LNUrlPayInfo.PaymentHash info)
    (data.LNUrlPayInfo.Invoice info)
    (match data.LNUrlPayInfo.SuccessAction info with
     | Some isa =>
         Some (data.SuccessAction.mk
                 (data.SuccessAction.Tag isa) (data.SuccessAction.Description isa)
                 (data.SuccessAction.Url isa) message
                 (data.SuccessAction.Ciphertext isa) (data.SuccessAction.Iv isa))
     | None => None
     end)
    (data.LNUrlPayInfo.Comment info)
    (data.LNUrlPayInfo.InvoiceDescription info)
    (data.LNUrlPayInfo.Metadata info)
    (data.LNUrlPayInfo.Host info).

(** The store with [info] saved. *)
Definition saved (d : db.DB) (info : data.LNUrlPayInfo.t) : db.DB :=
  db.mkDB (db.lnurlAuthKey d)
    (<[data.LNUrlPayInfo.PaymentHash info := info]> (db.lnurlPayInfo d))
    (db.failure d).

(** The tags [FinishLNURLPay] lets through. *)
Definition supported_tags : list string := ["message"; "url"; "aes"].

(** A service's answer carrying an "aes" action for [sample.preimage_7]. *)
Definition answer_aes : lnurl.LNURLPayResponse2.t :=
  lnurl.LNURLPayResponse2.mk "" ""
    (Some (lnurl.SuccessAction.mk "aes" "Here is your redeem code" "" ""
             "c2VjcmV0IGNvZGU=" "0707"))
    [] sample.pr_sample None.

Definition zpay32_hi : Zpay32 :=
  sample.zpay32_knowing sample.pr_sample
    (sample.invoice_of (Some 1000000) sample.hash_hi).

(** The service after the sample flow was paid, with and without an action. *)
Definition service_after (answer : lnurl.LNURLPayResponse2.t) : account.Service :=
  snd (@account.FinishLNURLPay zpay32_hi sample.lnurl
         (sample.network_answering answer) sample.service_hi sample.params_1000sat).

Definition info_after (answer : lnurl.LNURLPayResponse2.t) : data.LNUrlPayInfo.t :=
  match fst (@account.FinishLNURLPay zpay32_hi sample.lnurl
               (sample.network_answering answer) sample.service_hi
               sample.params_1000sat) with
  | Ok info => info
  | _ => sample.info_message
  end.

End store.

(** ** Further vocabulary: listed coins *)

Module listing.

(** The wallet address types [ListUnspentWitness] has a counterpart for. *)
Definition address_type_of (t : lnrpc.AddressType) : option lnwallet.AddressType :=
  match t with
  | lnrpc.WITNESS_PUBKEY_HASH => Some lnwallet.WitnessPubKey
  | lnrpc.NESTED_PUBKEY_HASH => Some lnwallet.NestedWitnessPubKey
  | _ => None
  end.

(** [out] is the record of the node's output [utxo]. *)
Definition converts (utxo : lnrpc.Utxo.t) (out : lnwallet.Utxo.t) : Prop :=
  address_type_of (lnrpc.Utxo.AddressType utxo) = Some (lnwallet.Utxo.AddressType out)
  /\ lnwallet.Utxo.Value out = lnrpc.Utxo.AmountSat utxo
  /\ lnwallet.Utxo.Confirmations out = lnrpc.Utxo.Confirmations utxo
  /\ hex_DecodeString (lnrpc.Utxo.PkScript utxo) = (lnwallet.Utxo.PkScript out, None)
  /\ exists outpoint,
       lnrpc.Utxo.Outpoint utxo = Some outpoint
       /\ length (lnrpc.TxidBytes outpoint) = 32%nat
       /\ lnwallet.Utxo.OutPoint out
          = wire.mkOutPoint (lnrpc.TxidBytes outpoint) (lnrpc.OutputIndex outpoint).

Definition convertible (utxo : lnrpc.Utxo.t) : Prop := exists out, converts utxo out.

(** A tier the loop of [SweepAllCoinsTransactions] passes over. *)
Definition skipped `{Lnd} (daemonAPI : account.API)
    (lnClient : lnrpc.LightningClient) (info : lnrpc.GetInfoResponse)
    (targetAddr : Address) (confTarget : Z) : Prop :=
  exists builder err rus,
    spec.builder_of daemonAPI info targetAddr confTarget = Some builder
    /\ account.run builder (account.NewRpcUtxoSource lnClient) = (Err err, rus)
    /\ errors_As_RuleError err = true.

(** A tier that records [details], its source holding [total] afterwards. *)
Definition recorded `{Lnd} (daemonAPI : account.API)
    (lnClient : lnrpc.LightningClient) (info : lnrpc.GetInfoResponse)
    (targetAddr : Address) (confTarget : Z)
    (details : data.TransactionDetails) (total : Z) : Prop :=
  exists builder sweepTxPkg rus rawTx,
    spec.builder_of daemonAPI info targetAddr confTarget = Some builder
    /\ account.run builder (account.NewRpcUtxoSource lnClient) = (Ok sweepTxPkg, rus)
    /\ Serialize (sweep.SweepTx sweepTxPkg) = Ok rawTx
    /\ account.totalAmount rus = total
    /\ data.Tx details = rawTx
    /\ data.TxHash details = TxHash_String (sweep.SweepTx sweepTxPkg).

(** A node without coins. *)
Definition no_coins : result (list lnrpc.Utxo.t) := Ok [].

(** A node whose wallet kit client is not up. *)
Definition node_without_walletkit : account.API :=
  account.mkAPI
    (Some (lnrpc.mkLightningClient (Ok (lnrpc.mkGetInfoResponse 700000))
             (fun _ _ => sample.two_coins)))
    None.

End listing.

(** ** The rest of account/lnurl.go *)

(** go-lnurl's answer to a resolved link, by the type [HandleLNURL] switches
    on, with the fields it reads. *)
Module golnurl.
Module LNURLAuthParams.
Record t := mk { Tag : string; Callback : string; K1 : string; Host : string }.
End LNURLAuthParams.
Module LNURLWithdrawResponse.
(** [CallbackURL] is a [*url.URL]; nil is [None]. *)
Record t := mk {
  CallbackURL : option url.URL;
  K1 : string;
  MinWithdrawable : Z;
  MaxWithdrawable : Z;
  DefaultDescription : string }.
End LNURLWithdrawResponse.
Module LNURLChannelResponse.
Record t := mk { K1 : string; Callback : string; URI : string }.
End LNURLChannelResponse.
Inductive LNURLParams : Type :=
| AuthParams (params : LNURLAuthParams.t)
| WithdrawResponse (params : LNURLWithdrawResponse.t)
| ChannelResponse (params : LNURLChannelResponse.t)
| PayResponse1 (params : lnurl.LNURLPayResponse1.t)
| other_params.
Module LNURLResponse.
Record t := mk { Status : string; Reason : string }.
End LNURLResponse.
End golnurl.

(** What [HandleLNURL] returns to the caller. *)
Module response.
Record LNUrlWithdraw := mkLNUrlWithdraw {
  MinAmount : Z;
  MaxAmount : Z;
  DefaultDescription : string }.
Record LNURLChannel := mkLNURLChannel {
  K1 : string;
  Callback : string;
  Uri : string }.
Inductive LNUrlResponse : Type :=
| LNUrlResponse_Auth (Auth : data.LNURLAuth.t)
| LNUrlResponse_Withdraw (Withdraw : LNUrlWithdraw)
| LNUrlResponse_Channel (Channel : LNURLChannel)
| LNUrlResponse_PayResponse1 (PayResponse1 : data.LNURLPayResponse1.t).
(** [LoginResponse] of lnurl.go. *)
Record LoginResponse := mkLoginResponse {
  Status : string;
  Reason : string;
  Token : string }.
End response.

(** The calls of these functions that leave the repository. The
    conversions of millisatoshi amounts go through [float64] in Go and are
    kept as two operations. *)
Class LnurlWeb := {
  (** [lnurl.FindLNURLInText(text)] *)
  FindLNURLInText : string -> option string;
  (** [lnurl.HandleLNURL(encodedLnurl)]: the raw URL and the parameters *)
  lnurl_HandleLNURL : string -> result (string * golnurl.LNURLParams);
  (** [url.Parse(rawurl)]: the [Host] of the parsed URL, if it parses *)
  url_Host : string -> option string;
  (** [u.String()] of a URL whose [RawQuery] writes the pairs of [Query]
      in their order *)
  url_String : url.URL -> string;
  (** [int64(math.Ceil(float64(x) / 1000))] *)
  milli_Ceil : Z -> Z;
  (** [int64(math.Floor(float64(x) / 1000))] *)
  milli_Floor : Z -> Z;
  (** [http.Get(rawurl)] *)
  http_Get_string : string -> result http.Response;
  (** [json.NewDecoder(resp.Body).Decode(&lnurlresp)] *)
  json_Decode_LNURLResponse : string -> result golnurl.LNURLResponse.t;
  json_Decode_LoginResponse : string -> result response.LoginResponse }.

(** The signing done for a login. *)
Class Signer `{Btcec} := {
  Signature : Type;
  WireSig : Type;
  (** [privKey.Sign(hash)] *)
  Sign : PrivateKey -> list byte -> result Signature;
  (** [lnwire.NewSigFromSignature(sig)] *)
  NewSigFromSignature : Signature -> result WireSig;
  (** [wireSig.ToSignatureBytes()] *)
  ToSignatureBytes : WireSig -> list byte;
  (** [pubKey.SerializeCompressed()] *)
  SerializeCompressed : PublicKey -> list byte }.

Module lnurl_go.
Import account.

Definition index_out_of_range : string := "runtime error: index out of range".

(** [url.Values] is a [map[string][]string], here
    [gmap string (list string)]. [v[key]], nil read as the empty list: *)
Definition Values_index (v : gmap string (list string)) (key : string)
  : list string :=
  default [] (v !! key).

(** [v.Add(key, value)]. *)
Definition Values_Add (v : gmap string (list string)) (key value : string)
  : gmap string (list string) :=
  <[key := (Values_index v key ++ [value])%list]> v.

(** [v.Set(key, value)]. *)
Definition Values_Set (v : gmap string (list string)) (key value : string)
  : gmap string (list string) :=
  <[key := [value]]> v.

(** [u.Query()]: the pairs of the query, gathered under their keys in the
    order they are written. *)
Definition URL_Query (u : url.URL) : gmap string (list string) :=
  fold_left (fun v kv => Values_Add v (fst kv) (snd kv)) (url.Query u) ∅.

(** [sort.Strings] on the keys, strings compared byte by byte. *)
Fixpoint insert_string (k : string) (keys : list string) : list string :=
  match keys with
  | [] => [k]
  | k' :: rest =>
      if String.leb k k' then k :: keys else k' :: insert_string k rest
  end.

Definition sort_Strings (keys : list string) : list string :=
  fold_right insert_string [] keys.

(** [v.Encode()], as the pairs it writes: the keys sorted, and under each
    key its values in their order. *)
Definition Values_Encode (v : gmap string (list string))
  : list (string * string) :=
  flat_map (fun k => map (pair k) (Values_index v k))
    (sort_Strings (map_to_list v).*1).

(** The loop of [HandleLNURL] over [params.Metadata], with [e[0]] and
    [e[1]] read from each entry. *)
Fixpoint metadata_entries (entries : list (list string))
    (metadata : list data.LNUrlPayMetadata.t)
  : result (list data.LNUrlPayMetadata.t) :=
  match entries with
  | [] => Ok metadata
  | e :: rest =>
      match e with
      | e0 :: e1 :: _ =>
          metadata_entries rest
            (metadata ++ [data.LNUrlPayMetadata.mk [e0; e1]])%list
      | _ => Panic index_out_of_range
      end
  end.

Section lnurl_rest.
Context `{Bip32, Btcec, Network, LnurlWeb} `{!Signer}.

(** [HandleLNURL]. *)
Definition HandleLNURL (a : Service) (rawString : string)
  : result response.LNUrlResponse * Service :=
  match FindLNURLInText rawString with
  | None => (Err (Errorf "'%s' does not contain an LNURL." [rawString]), a)
  | Some encodedLnurl =>
      match lnurl_HandleLNURL encodedLnurl with
      | Err err => (Err err, a)
      | Panic p => (Panic p, a)
      | Ok (rawurl, iparams) =>
          match iparams with
          | golnurl.AuthParams params =>
              (Ok (response.LNUrlResponse_Auth
                     (data.LNURLAuth.mk
                        (golnurl.LNURLAuthParams.Tag params)
                        (golnurl.LNURLAuthParams.Callback params)
                        (golnurl.LNURLAuthParams.K1 params)
                        (golnurl.LNURLAuthParams.Host params)
                        false)), a)
          | golnurl.WithdrawResponse params =>
              match golnurl.LNURLWithdrawResponse.CallbackURL params with
              | None => (Panic nil_dereference, a)
              | Some CallbackURL =>
                  let qs := Values_Set (URL_Query CallbackURL) "k1"
                              (golnurl.LNURLWithdrawResponse.K1 params) in
                  let CallbackURL :=
                    url.mk (url.Base CallbackURL) (Values_Encode qs) in
                  let a := mkService (url_String CallbackURL)
                             (lnurlPayMetadata a) (breezDB a) (backupRequests a) in
                  (Ok (response.LNUrlResponse_Withdraw
                         (response.mkLNUrlWithdraw
                            (milli_Ceil (golnurl.LNURLWithdrawResponse.MinWithdrawable params))
                            (milli_Floor (golnurl.LNURLWithdrawResponse.MaxWithdrawable params))
                            (golnurl.LNURLWithdrawResponse.DefaultDescription params))),
                   a)
              end
          | golnurl.ChannelResponse params =>
              (Ok (response.LNUrlResponse_Channel
                     (response.mkLNURLChannel
                        (golnurl.LNURLChannelResponse.K1 params)
                        (golnurl.LNURLChannelResponse.Callback params)
                        (golnurl.LNURLChannelResponse.URI params))), a)
          | golnurl.PayResponse1 params =>
              let host := match url_Host rawurl with Some h => h | None => "" end in
              let a := HandleLNURL_LNURLPayResponse1 a params in
              match metadata_entries (lnurl.LNURLPayResponse1.Metadata params) [] with
              | Ok metadata =>
                  (Ok (response.LNUrlResponse_PayResponse1
                         (data.LNURLPayResponse1.mk
                            (lnurl.LNURLPayResponse1.Callback params)
                            host
                            (milli_Floor (lnurl.LNURLPayResponse1.MinSendable params))
                            (milli_Floor (lnurl.LNURLPayResponse1.MaxSendable params))
                            metadata 0 "")), a)
              | Err err => (Err err, a)
              | Panic p => (Panic p, a)
              end
          | golnurl.other_params => (Err (errors_New "Unsupported LNURL"), a)
          end
      end
  end.

(** [FinishLNURLWithdraw]. *)
Definition FinishLNURLWithdraw (a : Service) (bolt11 : string) : result unit :=
  let callback := lnurlWithdrawing a in
  resp <- http_Get_string (callback ++ "&pr=" ++ bolt11)%string ;;
  lnurlresp <- json_Decode_LNURLResponse (http.Body resp) ;;
  if String.eqb (golnurl.LNURLResponse.Status lnurlresp) "ERROR"
  then Err (errors_New (golnurl.LNURLResponse.Reason lnurlresp))
  else Ok tt.

(** [FinishLNURLAuth] from "this is the result keypair" on. *)
Definition FinishLNURLAuth_login (linkingPrivKey : PrivateKey)
    (linkingPubKey : PublicKey) (authParams : data.LNURLAuth.t) : result string :=
  match hex_DecodeString (data.LNURLAuth.K1 authParams) with
  | (_, Some err) => Err (Errorf_w "failed to decode k1 challenge %w" [] err)
  | (k1Decoded, None) =>
      match Sign linkingPrivKey k1Decoded with
      | Err err => Err (Errorf_w "failed to sign k1 challenge %w" [] err)
      | Panic p => Panic p
      | Ok sig =>
          match NewSigFromSignature sig with
          | Err err => Err (Errorf "can't convert sig to wire format: %v" [Error err])
          | Panic p => Panic p
          | Ok wireSig =>
              let der := ToSignatureBytes wireSig in
              match url_Parse (data.LNURLAuth.Callback authParams) with
              | Err err => Err (Errorf "invalid callback url %v" [Error err])
              | Panic p => Panic p
              | Ok u =>
                  let query := (url.Query u ++
                    [("key", hex_EncodeToString (SerializeCompressed linkingPubKey));
                     ("sig", hex_EncodeToString der)])%list in
                  let query := if data.LNURLAuth.Jwt authParams
                               then (query ++ [("jwt", "true")])%list else query in
                  resp <- http_Get (url.mk (url.Base u) query) ;;
                  lnurlresp <- json_Decode_LoginResponse (http.Body resp) ;;
                  if String.eqb (response.Status lnurlresp) "ERROR"
                  then Err (errors_New (response.Reason lnurlresp))
                  else Ok (response.Token lnurlresp)
              end
          end
      end
  end.

(** [FinishLNURLAuth]. *)
Definition FinishLNURLAuth (fuel : nat) (a : Service)
    (NewSeed : result (list byte)) (authParams : data.LNURLAuth.t)
  : option (result string) * Service :=
  match FinishLNURLAuth_keypair fuel a NewSeed authParams with
  | (None, a') => (None, a')
  | (Some (Err err), a') => (Some (Err err), a')
  | (Some (Panic p), a') => (Some (Panic p), a')
  | (Some (Ok (linkingPrivKey, linkingPubKey)), a') =>
      (Some (FinishLNURLAuth_login linkingPrivKey linkingPubKey authParams), a')
  end.

End lnurl_rest.

End lnurl_go.

(** Stand-ins and inputs for the resolution of links and for logins. *)
Module resolve.

Definition pay_link : string := "lnurl1pay".
Definition withdraw_link : string := "lnurl1withdraw".

(** Metadata whose second entry has one string only. *)
Definition resolved_short : lnurl.LNURLPayResponse1.t :=
  lnurl.LNURLPayResponse1.mk "https://service.example/pay" 1000 100000000
    "[[...]]" [["text/plain"; "hi"]; ["image/png;base64"]].

Definition short_link : string := "lnurl1short".

(** A withdraw answer whose callback already carries a [k1], and a
    parameter written twice. *)
Definition withdraw_answer : golnurl.LNURLWithdrawResponse.t :=
  golnurl.LNURLWithdrawResponse.mk
    (Some (url.mk "https://service.example/w"
             [("z", "1"); ("k1", "old"); ("a", "2"); ("z", "3")]))
    "fresh" 1500 2999500 "refund".

Definition show_query (q : list (string * string)) : string :=
  fold_right (fun kv rest => ("&" ++ fst kv ++ "=" ++ snd kv ++ rest)%string) "" q.

(** go-lnurl and the web: every text is taken for a link; three links
    resolve; a callback answers with status OK. *)
Definition web : LnurlWeb := {|
  FindLNURLInText text := if String.eqb text "" then None else Some text;
  lnurl_HandleLNURL encodedLnurl :=
    if String.eqb encodedLnurl pay_link
    then Ok ("https://service.example/lnurl", golnurl.PayResponse1 sample.resolved_hi)
    else if String.eqb encodedLnurl short_link
    then Ok ("https://service.example/lnurl", golnurl.PayResponse1 resolved_short)
    else if String.eqb encodedLnurl withdraw_link
    then Ok ("https://service.example/lnurl", golnurl.WithdrawResponse withdraw_answer)
    else Err (pkg_error "lnurl" "invalid bech32 string");
  url_Host _ := Some "service.example";
  url_String u := (url.Base u ++ "?" ++ show_query (url.Query u))%string;
  milli_Ceil x := (x + 999) / 1000;
  milli_Floor x := x / 1000;
  http_Get_string _ := Ok (http.mk 200 "200 OK" "{...}");
  json_Decode_LNURLResponse _ := Ok (golnurl.LNURLResponse.mk "OK" "");
  json_Decode_LoginResponse _ := Ok (response.mkLoginResponse "OK" "" "token") |}.

(** A signer refusing an empty message. *)
Definition signer : @Signer sample.btcec :=
  @Build_Signer sample.btcec (list byte) (list byte)
    (fun privKey hash =>
       match hash with
       | [] => Err (pkg_error "btcec" "empty hash")
       | _ => Ok (hmac_sha256 privKey hash)
       end)
    (fun sig => Ok sig)
    (fun wireSig => wireSig)
    (fun pubKey => pubKey).

(** A login whose challenge is not hex. *)
Definition auth_bad_k1 : data.LNURLAuth.t :=
  data.LNURLAuth.mk "login" "https://site.example/auth" "00fg" "site.example" false.

End resolve.

(** ** The signer handed to the sweep builder ([rpcSigner], account/sweep.go) *)

Module txscript.
(** [txscript.TxSigHashes]; each field is a [chainhash.Hash]. *)
Record TxSigHashes := mkTxSigHashes {
  HashPrevOuts : list byte;
  HashSequence : list byte;
  HashOutputs : list byte }.
End txscript.

Module input.
(** [input.SignDescriptor], the fields read; [Output] and [SigHashes] are
    pointers, nil as [None]. *)
Record SignDescriptor := mkSignDescriptor {
  Output : option wire.TxOut;
  HashType : Z;
  WitnessScript : list byte;
  InputIndex : Z;
  SigHashes : option txscript.TxSigHashes }.
Record Script := mkScript {
  Witness : list (list byte);
  SigScript : list byte }.
End input.

Module signrpc.
Record TxOut := mkTxOut { Value : Z; PkScript : list byte }.
Record SignDescriptor := mkSignDescriptor {
  Output : TxOut;
  Sighash : Z;
  WitnessScript : list byte;
  InputIndex : Z }.
Record TxSigHashes := mkTxSigHashes {
  HashPrevOuts : list byte;
  HashSequence : list byte;
  HashOutputs : list byte }.
Record SignReq := mkSignReq {
  RawTxBytes : list byte;
  SignDescs : list SignDescriptor;
  SigHashes : option TxSigHashes }.
Record SignResp := mkSignResp { RawSigs : list (list byte) }.
Record InputScript := mkInputScript {
  Witness : list (list byte);
  SigScript : list byte }.
Module InputScriptResp.
Record t := mk {
  InputScripts : list (option InputScript);
  SigHashes : option TxSigHashes }.
End InputScriptResp.
(** [signrpc.SignerClient]: the answers of the node to the two calls made. *)
Record SignerClient := mkSignerClient {
  SignOutputRaw : SignReq -> result SignResp;
  ComputeInputScript : SignReq -> result InputScriptResp.t }.
End signrpc.

Class DER := {
  DERSignature : Type;
  (** [btcec.ParseDERSignature(sigStr, btcec.S256())] *)
  ParseDERSignature : list byte -> result DERSignature }.

Module signer_go.
Import lnurl_go.

(** [rpcSigner]; [signerClient] is nil until the daemon is up. *)
Record rpcSigner := mkRpcSigner {
  signerClient : option signrpc.SignerClient }.

Definition NewRpcSigner (s : option signrpc.SignerClient) : rpcSigner :=
  mkRpcSigner s.

Section rpc_signer.
Context `{Lnd, DER}.

(** [SignOutputRaw]. *)
Definition SignOutputRaw (s : rpcSigner) (tx : wire.MsgTx.t)
    (signDesc : input.SignDescriptor) : result DERSignature :=
  match Serialize tx with
  | Err err => Err (Errorf_w "tx.Serialize %#v: %w" [MsgTx_GoString tx] err)
  | Panic p => Panic p
  | Ok rawTx =>
      match input.Output signDesc with
      | None => Panic nil_dereference
      | Some output =>
          let signDescriptor :=
            [signrpc.mkSignDescriptor
               (signrpc.mkTxOut (wire.Value output) (wire.PkScript output))
               (uint32 (input.HashType signDesc))
               (input.WitnessScript signDesc)
               (int32 (input.InputIndex signDesc))] in
          match input.SigHashes signDesc with
          | None => Panic nil_dereference
          | Some sigHashes =>
              match signerClient s with
              | None => Panic nil_dereference
              | Some srpc =>
                  match signrpc.SignOutputRaw srpc
                          (signrpc.mkSignReq rawTx signDescriptor
                             (Some (signrpc.mkTxSigHashes
                                      (txscript.HashPrevOuts sigHashes)
                                      (txscript.HashSequence sigHashes)
                                      (txscript.HashOutputs sigHashes)))) with
                  | Err err =>
                      Err (Errorf_w "srpc.SignOutputRaw %#v: %w" [MsgTx_GoString tx] err)
                  | Panic p => Panic p
                  | Ok r =>
                      match signrpc.RawSigs r with
                      | [] => Panic index_out_of_range
                      | sig :: _ => ParseDERSignature sig
                      end
                  end
              end
          end
      end
  end.

(** [ComputeInputScript]. [signDesc] is a pointer: the descriptor comes
    back as the call leaves it. *)
Definition ComputeInputScript (s : rpcSigner) (tx : wire.MsgTx.t)
    (signDesc : input.SignDescriptor)
  : result input.Script * input.SignDescriptor :=
  match Serialize tx with
  | Err err =>
      (Err (Errorf_w "tx.Serialize %#v: %w" [MsgTx_GoString tx] err), signDesc)
  | Panic p => (Panic p, signDesc)
  | Ok rawTx =>
      match input.Output signDesc with
      | None => (Panic nil_dereference, signDesc)
      | Some output =>
          let signDescriptor :=
            [signrpc.mkSignDescriptor
               (signrpc.mkTxOut (wire.Value output) (wire.PkScript output))
               (uint32 (input.HashType signDesc))
               (input.WitnessScript signDesc)
               (int32 (input.InputIndex signDesc))] in
          match input.SigHashes signDesc with
          | None => (Panic nil_dereference, signDesc)
          | Some sigHashes =>
              match signerClient s with
              | None => (Panic nil_dereference, signDesc)
              | Some srpc =>
                  match signrpc.ComputeInputScript srpc
                          (signrpc.mkSignReq rawTx signDescriptor
                             (Some (signrpc.mkTxSigHashes
                                      (txscript.HashPrevOuts sigHashes)
                                      (txscript.HashSequence sigHashes)
                                      (txscript.HashOutputs sigHashes)))) with
                  | Err err =>
                      (Err (Errorf_w "srpc.ComputeInputScript: %w" [] err), signDesc)
                  | Panic p => (Panic p, signDesc)
                  | Ok r =>
                      match signrpc.InputScriptResp.SigHashes r with
                      | None => (Panic nil_dereference, signDesc)
                      | Some answered =>
                          match chainhash.SetBytes (signrpc.HashPrevOuts answered) with
                          | Err err => (Err (Errorf_w "bad HashPrevOuts: %w" [] err), signDesc)
                          | Panic p => (Panic p, signDesc)
                          | Ok hashPrevOuts =>
                          match chainhash.SetBytes (signrpc.HashSequence answered) with
                          | Err err => (Err (Errorf_w "bad HashSequence: %w" [] err), signDesc)
                          | Panic p => (Panic p, signDesc)
                          | Ok hashSequence =>
                          match chainhash.SetBytes (signrpc.HashOutputs answered) with
                          | Err err => (Err (Errorf_w "bad HashOutputs: %w" [] err), signDesc)
                          | Panic p => (Panic p, signDesc)
                          | Ok hashOutputs =>
                              let signDesc :=
                                input.mkSignDescriptor
                                  (input.Output signDesc)
                                  (input.HashType signDesc)
                                  (input.WitnessScript signDesc)
                                  (input.InputIndex signDesc)
                                  (Some (txscript.mkTxSigHashes
                                           hashPrevOuts hashSequence hashOutputs)) in
                              match signrpc.InputScriptResp.InputScripts r with
                              | [] => (Panic index_out_of_range, signDesc)
                              | None :: _ => (Panic nil_dereference, signDesc)
                              | Some script :: _ =>
                                  (Ok (input.mkScript (signrpc.Witness script)
                                         (signrpc.SigScript script)), signDesc)
                              end
                          end
                          end
                          end
                      end
                  end
              end
          end
      end
  end.

End rpc_signer.

End signer_go.

(** Stand-ins and inputs for the signer. *)
Module signing.

Definition der : DER := {|
  DERSignature := list byte;
  ParseDERSignature sigStr :=
    match sigStr with
    | x30 :: _ => Ok sigStr
    | _ => Err (pkg_error "btcec" "malformed signature: no header magic")
    end |}.

Definition hashes_of (b : byte) : signrpc.TxSigHashes :=
  signrpc.mkTxSigHashes (repeat b 32) (repeat b 32) (repeat b 32).

(** A node that answers with fresh hashes and nothing else. *)
Definition answer_empty : signrpc.InputScriptResp.t :=
  signrpc.InputScriptResp.mk [] (Some (hashes_of x5a)).

Definition client_empty : signrpc.SignerClient :=
  signrpc.mkSignerClient
    (fun _ => Ok (signrpc.mkSignResp []))
    (fun _ => Ok answer_empty).

Definition tx_one : wire.MsgTx.t :=
  wire.MsgTx.mk 2 [wire.mkOutPoint (repeat x33 32) 0]
    [wire.mkTxOut 49000 [x00; x14]] 700000.

Definition descriptor : input.SignDescriptor :=
  input.mkSignDescriptor (Some (wire.mkTxOut 50000 [x00; x14])) 1 [] 0
    (Some (txscript.mkTxSigHashes (repeat x01 32) (repeat x02 32) (repeat x03 32))).

End signing.

(** ** Package [lnnode]: is the node ready to pay *)

Module lnnode.

Module Channel.
Record t := mk { Active : bool }.
End Channel.
Record ListChannelsRequest := mkListChannelsRequest { ActiveOnly : bool }.
Record ListChannelsResponse := mkListChannelsResponse { Channels : list Channel.t }.

(** The call of [lnrpc.LightningClient] this package makes. *)
Record LightningClient := mkLightningClient {
  ListChannels : ListChannelsRequest -> result ListChannelsResponse }.

(** [Daemon]: the client is nil until the daemon is up. Logging and the
    lock around the field are left out. *)
Record Daemon := mkDaemon {
  lightningClient : option LightningClient }.

Definition APIClient (d : Daemon) : option LightningClient := lightningClient d.

(** [HasActiveChannel]. *)
Definition HasActiveChannel (d : Daemon) : result bool :=
  match APIClient d with
  | None => Ok false
  | Some lnclient =>
      match ListChannels lnclient (mkListChannelsRequest true) with
      | Err err => Ok false
      | Panic p => Panic p
      | Ok channels => Ok (0 <? length (Channels channels))%nat
      end
  end.

(** The loop of [allChannelsActive]. *)
Fixpoint allChannelsActive_range (channels : list Channel.t) : bool :=
  match channels with
  | [] => true
  | c :: rest =>
      if negb (Channel.Active c) then false else allChannelsActive_range rest
  end.

(** [allChannelsActive]. *)
Definition allChannelsActive (client : LightningClient) : result bool :=
  match ListChannels client (mkListChannelsRequest false) with
  | Err err => Err err
  | Panic p => Panic p
  | Ok channels => Ok (allChannelsActive_range (Channels channels))
  end.

(** [IsReadyForPayment]. *)
Definition IsReadyForPayment (d : Daemon) : result bool :=
  match APIClient d with
  | None => Ok false
  | Some lnclient =>
      match allChannelsActive lnclient with
      | Err err => Ok false
      | Panic p => Panic p
      | Ok allChannelsActive => Ok allChannelsActive
      end
  end.

(** What the notification client delivers, by the type [WaitReadyForPayment]
    switches on, and what its [select] receives. *)
Inductive event : Set := ChannelEvent | other_event.
Inductive selected : Set := Updates (e : event) | timeoutTimer.

Definition timeout_exceeded : error :=
  Errorf "timeout has exceeded while trying to process your request" [].

(** The [for]/[select] loop of [WaitReadyForPayment] along the receptions
    [trace]; [nodes n] is the daemon as the call number [n] of
    [IsReadyForPayment] finds it. A channel event makes two calls, one for
    the log line and one for the test. [None]: the receptions are used up
    and the loop is waiting. *)
Fixpoint WaitReadyForPayment_select (nodes : nat -> Daemon) (n : nat)
    (trace : list selected) : option (result unit) :=
  match trace with
  | [] => None
  | Updates ChannelEvent :: rest =>
      match IsReadyForPayment (nodes n) with
      | Err err => Some (Err err)
      | Panic p => Some (Panic p)
      | Ok _ =>
          match IsReadyForPayment (nodes (S n)) with
          | Err err => Some (Err err)
          | Panic p => Some (Panic p)
          | Ok true => Some (Ok tt)
          | Ok false => WaitReadyForPayment_select nodes (S (S n)) rest
          end
      end
  | Updates other_event :: rest => WaitReadyForPayment_select nodes n rest
  | timeoutTimer :: _ =>
      match IsReadyForPayment (nodes n) with
      | Err err => Some (Err err)
      | Panic p => Some (Panic p)
      | Ok true => Some (Ok tt)
      | Ok false => Some (Err timeout_exceeded)
      end
  end.

(** [WaitReadyForPayment]; [Subscribe] is what [d.ntfnServer.Subscribe()]
    returns. The deferred [client.Cancel()] is left out. *)
Definition WaitReadyForPayment (Subscribe : result unit) (nodes : nat -> Daemon)
    (trace : list selected) : option (result unit) :=
  match Subscribe with
  | Err err => Some (Err err)
  | Panic p => Some (Panic p)
  | Ok _ =>
      match IsReadyForPayment (nodes 0%nat) with
      | Err err => Some (Err err)
      | Panic p => Some (Panic p)
      | Ok true => Some (Ok tt)
      | Ok false => WaitReadyForPayment_select nodes 1 trace
      end
  end.

(** Sample nodes. *)
Definition node_of (channels : list bool) : Daemon :=
  mkDaemon (Some (mkLightningClient (fun req =>
    Ok (mkListChannelsResponse
          (map Channel.mk
             (if ActiveOnly req then List.filter (fun b => b) channels
              else channels)))))).

(** A node whose one channel is inactive until the fourth look at it. *)
Definition node_waking (n : nat) : Daemon :=
  node_of [(3 <=? n)%nat].

End lnnode.

(** ** Package [chainservice]: the asserted filter header (chainservice/init.go) *)

Module strconv.

Definition ErrSyntax : error := errors_New "invalid syntax".
Definition ErrRange : error := errors_New "value out of range".

(** [lower(c)], that is [c | ('x' - 'X')]. *)
Definition lower (c : Z) : Z := Z.lor c 32.

Section parse.
(** [strconv.Quote], as [NumError.Error] uses it. *)
Variable Quote : string -> string.

(** [(&NumError{Func, Num, Err}).Error()] wrapped as an error value. *)
Definition NumError (Func Num : string) (Err : error) : error :=
  pkg_error "strconv"
    ("strconv." ++ Func ++ ": parsing " ++ Quote Num ++ ": " ++ Error Err)%string.

Definition syntaxError (fn str : string) : error := NumError fn str ErrSyntax.
Definition rangeError (fn str : string) : error := NumError fn str ErrRange.

(** The loop of [ParseUint] over the bytes of the string, for a base from
    2 to 36 (no underscores then); [n] is a [uint64]. The value returned
    beside a range error is [maxVal]; callers here drop it. *)
Fixpoint ParseUint_range (s0 : string) (base cutoff maxVal : Z) (s : string)
    (n : Z) : result Z :=
  match s with
  | "" => Ok n
  | String ch rest =>
      let c := Z.of_nat (nat_of_ascii ch) in
      let d := if (48 <=? c) && (c <=? 57) then Some (c - 48)
               else if (97 <=? lower c) && (lower c <=? 122)
                    then Some (lower c - 97 + 10)
                    else None in
      match d with
      | None => Err (syntaxError "ParseUint" s0)
      | Some d =>
          if base <=? d then Err (syntaxError "ParseUint" s0)
          else if cutoff <=? n then Err (rangeError "ParseUint" s0)
          else
            let n := uint64 (n * base) in
            let n1 := uint64 (n + d) in
            if (n1 <? n) || (maxVal <? n1) then Err (rangeError "ParseUint" s0)
            else ParseUint_range s0 base cutoff maxVal rest n1
      end
  end.

(** [strconv.ParseUint(s, 10, bitSize)] for a [bitSize] from 1 to 64. *)
Definition ParseUint_10 (s : string) (bitSize : Z) : result Z :=
  if String.eqb s "" then Err (syntaxError "ParseUint" s)
  else
    let cutoff := (2 ^ 64 - 1) / 10 + 1 in
    let maxVal := uint64 (uint64 (Z.shiftl 1 bitSize) - 1) in
    ParseUint_range s 10 cutoff maxVal s 0.

End parse.
End strconv.

Module strings.
(** [strings.Split(s, sep)] for a separator of one byte. *)
Fixpoint Split (s : string) (sep : ascii) : list string :=
  match s with
  | "" => [""]
  | String c rest =>
      if Ascii.eqb c sep then "" :: Split rest sep
      else match Split rest sep with
           | field :: fields => String c field :: fields
           | [] => [String c ""]
           end
  end.
End strings.

Module headerfs.
Record FilterHeader := mkFilterHeader {
  FilterHash : list byte;
  Height : Z }.
End headerfs.

Class Chainhash := {
  (** [strconv.Quote(s)] *)
  Quote : string -> string;
  (** [chainhash.NewHashFromStr(hash)] *)
  NewHashFromStr : string -> result (list byte) }.

Module chainservice.
Import lnurl_go.

Section init_go.
Context `{Chainhash}.

(** [parseAssertFilterHeader]; [nil, nil] is [Ok None]. *)
Definition parseAssertFilterHeader (headerStr : string)
  : result (option headerfs.FilterHeader) :=
  if String.eqb headerStr "" then Ok None
  else
    let heightAndHash := strings.Split headerStr ":" in
    match heightAndHash with
    | [] => Panic index_out_of_range
    | heightStr :: fields =>
        match strconv.ParseUint_10 Quote heightStr 32 with
        | Err err => Err (Errorf "invalid filter header height: %v" [Error err])
        | Panic p => Panic p
        | Ok height =>
            match fields with
            | [] => Panic index_out_of_range
            | hashStr :: _ =>
                match NewHashFromStr hashStr with
                | Err err => Err (Errorf "invalid filter header hash: %v" [Error err])
                | Panic p => Panic p
                | Ok hash => Ok (Some (headerfs.mkFilterHeader hash (uint32 height)))
                end
            end
        end
    end.

End init_go.

(** The decimal digits and the number they write. *)
Definition is_digit (ch : ascii) : bool :=
  let c := Z.of_nat (nat_of_ascii ch) in (48 <=? c) && (c <=? 57).

Fixpoint all_digits (s : string) : bool :=
  match s with
  | "" => true
  | String ch rest => is_digit ch && all_digits rest
  end.

Fixpoint decimal_from (n : Z) (s : string) : Z :=
  match s with
  | "" => n
  | String ch rest => decimal_from (10 * n + (Z.of_nat (nat_of_ascii ch) - 48)) rest
  end.

Definition decimal (s : string) : Z := decimal_from 0 s.

Fixpoint has_byte (c : ascii) (s : string) : bool :=
  match s with
  | "" => false
  | String ch rest => Ascii.eqb ch c || has_byte c rest
  end.

(** A stand-in for the two library calls: a hash is 64 hex digits, kept in
    the order written. *)
Definition chainhash : Chainhash := {|
  Quote s := (sample.dq ++ s ++ sample.dq)%string;
  NewHashFromStr hash :=
    match hex_DecodeString hash with
    | (b, None) =>
        if (length b =? 32)%nat then Ok b
        else Err (pkg_error "chainhash" "invalid hash string length")
    | (_, Some err) => Err err
    end |}.

End chainservice.

(** ** version.go *)

Module breez.

Definition currentVersion : string := "2021-07-08".

(** The loop of [CheckVersion] over the versions the server lists. *)
Fixpoint CheckVersion_range (versions : list string) : result unit :=
  match versions with
  | [] => Err (Errorf "bad version" [])
  | v :: rest =>
      if String.eqb v currentVersion then Ok tt else CheckVersion_range rest
  end.

(** [CheckVersion]; [Versions] is what [a.ServicesClient.Versions()]
    returns. *)
Definition CheckVersion (Versions : result (list string)) : result unit :=
  match Versions with
  | Err err => Err err
  | Panic p => Panic p
  | Ok versions => CheckVersion_range versions
  end.

End breez.

(** * Properties *)

(** ** Known answers for the standard-library pieces *)

Example sha256_constants :
  nth 0 sha256._K 0 = 0x428a2f98 /\ nth 63 sha256._K 0 = 0xc67178f2
  /\ length sha256._K = 64%nat
  /\ sha256.h0 sha256.init = 0x6a09e667 /\ sha256.h7 sha256.init = 0x5be0cd19.
Proof. vm_compute. repeat split; reflexivity. Qed.

Example sha_abc :
  hex_EncodeToString (sha256.Sum256 (bytes_of_string "abc")) =
  "ba7816bf8f01cfea414140de5dae2223b00361a396177a9cb410ff61f20015ad".
Proof. vm_compute. reflexivity. Qed.

Example sha_empty :
  hex_EncodeToString (sha256.Sum256 []) =
  "e3b0c44298fc1c149afbf4c8996fb92427ae41e4649b934ca495991b7852b855".
Proof. vm_compute. reflexivity. Qed.

Example sha_two_blocks :
  hex_EncodeToString (sha256.Sum256 (bytes_of_string
    "abcdbcdecdefdefgefghfghighijhijkijkljklmklmnlmnomnopnopq")) =
  "248d6a61d20638b8e5c026930c3e6039a33ce45964ff2167f6ecedd419db06c1".
Proof. vm_compute. reflexivity. Qed.

Example hmac_rfc4231_2 :
  hex_EncodeToString (hmac_sha256 (bytes_of_string "Jefe")
    (bytes_of_string "what do ya want for nothing?")) =
  "5bdcc146bf60754e6a042426089575c75a003f089d2739839dec58b964ec3843".
Proof. vm_compute. reflexivity. Qed.

Example hex_decode_partial :
  hex_DecodeString "0aFFzz" = ([x0a; xff], Some (InvalidByteError "z"%char)).
Proof. vm_compute. reflexivity. Qed.

(** A digest has 32 bytes, so [sha[:16]] and its four-byte slices are in
    range. *)
Lemma Sum256_length (data : list byte) : length (sha256.Sum256 data) = 32%nat.
Proof. reflexivity. Qed.

Lemma hmac_sha256_length (key msg : list byte) :
  length (hmac_sha256 key msg) = 32%nat.
Proof. apply Sum256_length. Qed.

Example sprintf_flags :
  Sprintf "tx.Serialize %#v: %w" ["{tx}"; "short write"] = "tx.Serialize {tx}: short write".
Proof. reflexivity. Qed.

(** ** encoding/hex *)

Lemma hex_digits_of_byte (b : byte) :
  fromHexChar (hexdigit (Z.shiftr (byte_to_Z b) 4)) = Some (Z.shiftr (byte_to_Z b) 4)
  /\ fromHexChar (hexdigit (Z.land (byte_to_Z b) 15)) = Some (Z.land (byte_to_Z b) 15)
  /\ byte_of_Z (Z.lor (Z.shiftl (Z.shiftr (byte_to_Z b) 4) 4) (Z.land (byte_to_Z b) 15)) = b.
Proof. destruct b; vm_compute; auto. Qed.

(** Decoding undoes encoding. *)
Lemma hex_DecodeString_EncodeToString (src : list byte) :
  hex_DecodeString (hex_EncodeToString src) = (src, None).
Proof.
  induction src as [|b rest IH]; [reflexivity|].
  destruct (hex_digits_of_byte b) as (Hhi & Hlo & Hb).
  cbn [hex_EncodeToString hex_DecodeString].
  rewrite Hhi, Hlo, IH, Hb. reflexivity.
Qed.

(** So comparing the hex strings compares the bytes. *)
Lemma hex_EncodeToString_inj (x y : list byte) :
  hex_EncodeToString x = hex_EncodeToString y -> x = y.
Proof.
  intros E.
  pose proof (hex_DecodeString_EncodeToString x) as Hx.
  rewrite E, hex_DecodeString_EncodeToString in Hx. congruence.
Qed.

Lemma hex_eqb_spec (x y : list byte) :
  String.eqb (hex_EncodeToString x) (hex_EncodeToString y) = true <-> x = y.
Proof.
  rewrite String.eqb_eq. split; [apply hex_EncodeToString_inj | congruence].
Qed.

(** ** PayFlow: [FinishLNURLPay] *)

Section pay_properties.
Context `{Zpay32, Lnurl, Network}.
Import account.

(** Once the service's answer is in hand, the outcome is that of the
    verification steps, and only an accepted invoice is stored. *)
Lemma FinishLNURLPay_after_request a params payResponse2 :
  FinishLNURLPay_request params = Ok payResponse2 ->
  FinishLNURLPay a params =
    match FinishLNURLPay_verify a params payResponse2 with
    | Ok info => (Ok info, with_breezDB a (snd (db.SaveLNUrlPayInfo (breezDB a) info)))
    | other => (other, a)
    end.
Proof.
  intros Hreq. unfold FinishLNURLPay. rewrite Hreq. cbn [bind].
  destruct (FinishLNURLPay_verify a params payResponse2); try reflexivity.
  destruct (db.SaveLNUrlPayInfo (breezDB a) a0); reflexivity.
Qed.

(** What an accepted invoice went through. *)
Lemma FinishLNURLPay_verify_Ok a params payResponse2 info :
  FinishLNURLPay_verify a params payResponse2 = Ok info ->
  exists invoice milliSat,
    zpay32_Decode (lnurl.LNURLPayResponse2.PR payResponse2) = Ok invoice
    /\ zpay32.DescriptionHash invoice = Some (spec.expected_hash a)
    /\ zpay32.MilliSat invoice = Some milliSat
    /\ data.LNURLPayResponse1.Amount params = uint64 milliSat.
Proof.
  unfold FinishLNURLPay_verify, spec.expected_hash.
  destruct (zpay32_Decode _) as [invoice| |]; cbn [bind]; try discriminate.
  destruct (zpay32.DescriptionHash invoice) as [h|] eqn:Hh; try discriminate.
  destruct (String.eqb _ _) eqn:Ehash; cbn [negb]; try discriminate.
  destruct (zpay32.MilliSat invoice) as [m|] eqn:Hm; try discriminate.
  destruct (Z.eqb _ _) eqn:Eamt; cbn [negb]; try discriminate.
  intros _. exists invoice, m. apply hex_eqb_spec in Ehash. apply Z.eqb_eq in Eamt.
  repeat split; congruence.
Qed.

(** C1. For a pay flow resolved with [resolved], and with the service's
    answer and its decoded invoice in hand: [FinishLNURLPay] accepts only if
    the invoice's description hash is the SHA-256 of the encoded metadata
    captured at resolution time, byte for byte; an invoice carrying any other
    hash makes the call fail with HashMismatch, with no PayInfo returned and
    none stored. *)
Theorem C1_description_hash_check a0 resolved params payResponse2 invoice :
  let a := HandleLNURL_LNURLPayResponse1 a0 resolved in
  let expected :=
    sha256.Sum256 (bytes_of_string (lnurl.LNURLPayResponse1.EncodedMetadata resolved)) in
  FinishLNURLPay_request params = Ok payResponse2 ->
  zpay32_Decode (lnurl.LNURLPayResponse2.PR payResponse2) = Ok invoice ->
  (forall info a', FinishLNURLPay a params = (Ok info, a') ->
     zpay32.DescriptionHash invoice = Some expected)
  /\ (forall descriptionHash,
        zpay32.DescriptionHash invoice = Some descriptionHash ->
        descriptionHash <> expected ->
        FinishLNURLPay a params = (Err spec.HashMismatch, a)).
Proof.
  intros a expected Hreq Hdec.
  change expected with (spec.expected_hash a).
  rewrite (FinishLNURLPay_after_request a _ _ Hreq). split.
  - intros info a' Hrun.
    destruct (FinishLNURLPay_verify a params payResponse2) as [i| |] eqn:Hv;
      try discriminate.
    apply FinishLNURLPay_verify_Ok in Hv as (inv & m & Hdec' & Hh & _).
    congruence.
  - intros h Hh Hne. unfold FinishLNURLPay_verify. rewrite Hdec. cbn [bind].
    rewrite Hh.
    destruct (String.eqb _ _) eqn:E.
    + apply hex_eqb_spec in E. unfold spec.expected_hash in Hne. congruence.
    + reflexivity.
Qed.

(** C4. With the answer and its invoice in hand, and the invoice's amount a
    uint64 [milliSat]: [FinishLNURLPay] accepts only if [milliSat] is the
    requested amount exactly; if the two differ (the hash check passed) the
    call fails with AmountMismatch. *)
Theorem C4_amount_check a params payResponse2 invoice milliSat :
  FinishLNURLPay_request params = Ok payResponse2 ->
  zpay32_Decode (lnurl.LNURLPayResponse2.PR payResponse2) = Ok invoice ->
  zpay32.MilliSat invoice = Some milliSat ->
  0 <= milliSat < 2 ^ 64 ->
  (forall info a', FinishLNURLPay a params = (Ok info, a') ->
     data.LNURLPayResponse1.Amount params = milliSat)
  /\ (zpay32.DescriptionHash invoice = Some (spec.expected_hash a) ->
      data.LNURLPayResponse1.Amount params <> milliSat ->
      FinishLNURLPay a params = (Err spec.AmountMismatch, a)).
Proof.
  intros Hreq Hdec Hm Hrange.
  assert (Hu : uint64 milliSat = milliSat)
    by (unfold uint64; apply Z.mod_small; lia).
  rewrite (FinishLNURLPay_after_request a _ _ Hreq). split.
  - intros info a' Hrun.
    destruct (FinishLNURLPay_verify a params payResponse2) as [i| |] eqn:Hv;
      try discriminate.
    apply FinishLNURLPay_verify_Ok in Hv as (inv & m & Hdec' & _ & Hm' & Hamt).
    congruence.
  - intros Hh Hne. unfold FinishLNURLPay_verify. rewrite Hdec. cbn [bind].
    rewrite Hh. unfold spec.expected_hash. rewrite String.eqb_refl. cbn [negb].
    rewrite Hm, Hu.
    destruct (Z.eqb _ _) eqn:E; [apply Z.eqb_eq in E; contradiction | reflexivity].
Qed.

(** C10. An invoice that decodes, carries the right description hash and
    has no amount makes the amount check dereference a nil pointer: the call
    panics, and neither AmountMismatch nor any other error is returned. *)
Theorem C10_amount_nil_dereference a params payResponse2 invoice :
  FinishLNURLPay_request params = Ok payResponse2 ->
  zpay32_Decode (lnurl.LNURLPayResponse2.PR payResponse2) = Ok invoice ->
  zpay32.DescriptionHash invoice = Some (spec.expected_hash a) ->
  zpay32.MilliSat invoice = None ->
  FinishLNURLPay a params = (Panic nil_dereference, a).
Proof.
  intros Hreq Hdec Hh Hm.
  rewrite (FinishLNURLPay_after_request a _ _ Hreq).
  unfold FinishLNURLPay_verify. rewrite Hdec. cbn [bind].
  rewrite Hh. unfold spec.expected_hash. rewrite String.eqb_refl. cbn [negb].
  rewrite Hm. reflexivity.
Qed.

End pay_properties.

(** The specification's own cases: the metadata [[["text/plain","hi"]]]
    and a request for 1,000,000 msat. *)

Example pay_accepts_matching_invoice :
  match fst (@account.FinishLNURLPay
               (sample.zpay32_knowing sample.pr_sample
                  (sample.invoice_of (Some 1000000) sample.hash_hi))
               sample.lnurl (sample.network_answering sample.answer_plain)
               sample.service_hi sample.params_1000sat) with
  | Ok info => data.LNUrlPayInfo.InvoiceDescription info = "hi"
  | _ => False
  end.
Proof. vm_compute. reflexivity. Qed.

Lemma C1_description_hash_check_witness :
  @account.FinishLNURLPay
    (sample.zpay32_knowing sample.pr_sample
       (sample.invoice_of (Some 1000000) (repeat x00 32)))
    sample.lnurl (sample.network_answering sample.answer_plain)
    sample.service_hi sample.params_1000sat
  = (Err spec.HashMismatch, sample.service_hi).
Proof.
  refine (proj2 (@C1_description_hash_check
                   (sample.zpay32_knowing sample.pr_sample
                      (sample.invoice_of (Some 1000000) (repeat x00 32)))
                   sample.lnurl (sample.network_answering sample.answer_plain)
                   sample.service_new sample.resolved_hi
                   sample.params_1000sat sample.answer_plain
                   (sample.invoice_of (Some 1000000) (repeat x00 32)) _ _)
            (repeat x00 32) _ _).
  - vm_compute. reflexivity.
  - vm_compute. reflexivity.
  - reflexivity.
  - vm_compute. discriminate.
Defined.

Lemma C4_amount_check_witness :
  @account.FinishLNURLPay
    (sample.zpay32_knowing sample.pr_sample
       (sample.invoice_of (Some 999000) sample.hash_hi))
    sample.lnurl (sample.network_answering sample.answer_plain)
    sample.service_hi sample.params_1000sat
  = (Err spec.AmountMismatch, sample.service_hi).
Proof.
  refine (proj2 (@C4_amount_check
                   (sample.zpay32_knowing sample.pr_sample
                      (sample.invoice_of (Some 999000) sample.hash_hi))
                   sample.lnurl (sample.network_answering sample.answer_plain)
                   sample.service_hi sample.params_1000sat sample.answer_plain
                   (sample.invoice_of (Some 999000) sample.hash_hi) 999000
                   _ _ _ _) _ _).
  - vm_compute. reflexivity.
  - vm_compute. reflexivity.
  - reflexivity.
  - lia.
  - reflexivity.
  - vm_compute. discriminate.
Defined.

Lemma C10_amount_nil_dereference_witness :
  @account.FinishLNURLPay
    (sample.zpay32_knowing sample.pr_sample (sample.invoice_of None sample.hash_hi))
    sample.lnurl (sample.network_answering sample.answer_plain)
    sample.service_hi sample.params_1000sat
  = (Panic nil_dereference, sample.service_hi).
Proof.
  apply (@C10_amount_nil_dereference
           (sample.zpay32_knowing sample.pr_sample
              (sample.invoice_of None sample.hash_hi))
           sample.lnurl (sample.network_answering sample.answer_plain)
           sample.service_hi sample.params_1000sat sample.answer_plain
           (sample.invoice_of None sample.hash_hi)).
  - vm_compute. reflexivity.
  - vm_compute. reflexivity.
  - reflexivity.
  - reflexivity.
Defined.

(** ** Success-action decryption: [DecryptLNUrlPayMessage] *)

Section decrypt_properties.
Context `{Lnurl}.
Import account.

(** C8, as amended. For a stored record with a success action:
    an empty ciphertext makes the call fail with NotDecryptable, and a
    plaintext is returned only for a non-empty ciphertext that [Decipher]
    accepted. The tag plays no part. *)
Theorem C8_decrypt_needs_ciphertext a paymentHash preimage info isa :
  db.failure (breezDB a) = None ->
  db.lnurlPayInfo (breezDB a) !! paymentHash = Some info ->
  data.LNUrlPayInfo.SuccessAction info = Some isa ->
  (data.SuccessAction.Ciphertext isa = "" ->
   DecryptLNUrlPayMessage a paymentHash preimage = (Err spec.NotDecryptable, a))
  /\ (forall plaintext a',
        DecryptLNUrlPayMessage a paymentHash preimage = (Ok plaintext, a') ->
        data.SuccessAction.Ciphertext isa <> ""
        /\ Decipher (spec.to_lnurl isa) preimage = Ok plaintext).
Proof.
  intros Hdb Hinfo Hsa. unfold DecryptLNUrlPayMessage, db.FetchLNUrlPayInfo.
  rewrite Hdb, Hinfo, Hsa. cbn [lnurl.SuccessAction.Ciphertext]. split.
  - intros ->. reflexivity.
  - intros plaintext a'.
    destruct (String.eqb (data.SuccessAction.Ciphertext isa) "") eqn:E;
      [discriminate|].
    apply String.eqb_neq in E. fold (spec.to_lnurl isa).
    destruct (Decipher (spec.to_lnurl isa) preimage) as [message|e|p];
      try discriminate.
    destruct (db.SaveLNUrlPayInfo _ _) as [[e|] d]; [discriminate|].
    intros [= -> _]. auto.
Qed.

(** C9. The call's outcome [r] and the service [a'] it leaves: when
    [Decipher] fails on the stored action, [r] is an error and [a'] is [a],
    the store included; and the store differs from before only if
    [Decipher] succeeded. *)
Theorem C9_failed_decipher_keeps_record a paymentHash preimage r a' :
  DecryptLNUrlPayMessage a paymentHash preimage = (r, a') ->
  (forall info isa err,
      db.failure (breezDB a) = None ->
      db.lnurlPayInfo (breezDB a) !! paymentHash = Some info ->
      data.LNUrlPayInfo.SuccessAction info = Some isa ->
      Decipher (spec.to_lnurl isa) preimage = Err err ->
      (exists e, r = Err e) /\ a' = a)
  /\ (breezDB a' <> breezDB a ->
      exists info isa message,
        db.lnurlPayInfo (breezDB a) !! paymentHash = Some info
        /\ data.LNUrlPayInfo.SuccessAction info = Some isa
        /\ Decipher (spec.to_lnurl isa) preimage = Ok message
        /\ r = Ok message).
Proof.
  unfold DecryptLNUrlPayMessage, db.FetchLNUrlPayInfo. intros Hrun. split.
  - intros info isa err Hdb Hinfo Hsa Hdec.
    rewrite Hdb, Hinfo, Hsa in Hrun. fold (spec.to_lnurl isa) in Hrun.
    rewrite Hdec in Hrun.
    destruct (String.eqb _ _); injection Hrun as <- <-; eauto.
  - intros Hne.
    destruct (db.failure (breezDB a)) as [e|] eqn:Hdb;
      [injection Hrun as <- <-; contradiction|].
    destruct (db.lnurlPayInfo (breezDB a) !! paymentHash) as [info|] eqn:Hinfo;
      [|injection Hrun as <- <-; contradiction].
    destruct (data.LNUrlPayInfo.SuccessAction info) as [isa|] eqn:Hsa;
      [|injection Hrun as <- <-; contradiction].
    fold (spec.to_lnurl isa) in Hrun.
    destruct (String.eqb _ _); [injection Hrun as <- <-; contradiction|].
    destruct (Decipher (spec.to_lnurl isa) preimage) as [message|e|p] eqn:Hdec;
      try (injection Hrun as <- <-; contradiction).
    unfold db.SaveLNUrlPayInfo in Hrun. rewrite Hdb in Hrun.
    injection Hrun as <- <-. exists info, isa, message. auto.
Qed.

End decrypt_properties.

(** C8, as the specification has it, fails: a stored action tagged "message"
    with a ciphertext is deciphered and its content returned. *)
Lemma C8_counterexample :
  data.SuccessAction.Tag sample.action_message <> "aes"
  /\ db.lnurlPayInfo (account.breezDB sample.service_paid) !! "1111"
     = Some sample.info_message
  /\ fst (@account.DecryptLNUrlPayMessage sample.lnurl sample.service_paid "1111"
            sample.preimage_7) = Ok "c2VjcmV0IGNvZGU=".
Proof.
  split; [discriminate|]. split; vm_compute; reflexivity.
Qed.

(** With the right preimage the content is returned and stored as the
    record's message. *)
Example decrypt_stores_message :
  match @account.DecryptLNUrlPayMessage sample.lnurl sample.service_paid "1111"
          sample.preimage_7 with
  | (Ok message, a') =>
      message = "c2VjcmV0IGNvZGU="
      /\ (db.lnurlPayInfo (account.breezDB a') !! "1111"
          ≫= data.LNUrlPayInfo.SuccessAction) = Some
           (data.SuccessAction.mk "message" "Here is your redeem code" "" message
              "c2VjcmV0IGNvZGU=" "0707")
  | _ => False
  end.
Proof. vm_compute. split; reflexivity. Qed.

Lemma C8_decrypt_needs_ciphertext_witness :
  @Decipher sample.lnurl (spec.to_lnurl sample.action_message) sample.preimage_7
  = Ok "c2VjcmV0IGNvZGU=".
Proof.
  refine (proj2 (proj2 (@C8_decrypt_needs_ciphertext sample.lnurl
            sample.service_paid "1111" sample.preimage_7 sample.info_message
            sample.action_message _ _ _) "c2VjcmV0IGNvZGU=" _ _)).
  - reflexivity.
  - vm_compute. reflexivity.
  - reflexivity.
  - vm_compute. reflexivity.
Defined.

Lemma C9_failed_decipher_keeps_record_witness :
  @account.DecryptLNUrlPayMessage sample.lnurl sample.service_paid "1111"
    sample.preimage_wrong
  = (Err (Errorf "Could not decrypt message: %v"
            ["cipher: message authentication failed"]), sample.service_paid).
Proof.
  destruct (@account.DecryptLNUrlPayMessage sample.lnurl sample.service_paid "1111"
              sample.preimage_wrong) as [r a'] eqn:Hrun.
  destruct (proj1 (@C9_failed_decipher_keeps_record sample.lnurl
              sample.service_paid "1111" sample.preimage_wrong r a' Hrun)
              sample.info_message sample.action_message
              (pkg_error "lnurl" "cipher: message authentication failed"))
    as [_ ->].
  - reflexivity.
  - vm_compute. reflexivity.
  - reflexivity.
  - vm_compute. reflexivity.
  - vm_compute in Hrun. injection Hrun as <-. reflexivity.
Defined.

(** ** LinkKeyDeriver: [getLNURLAuthKey] and the loop of [FinishLNURLAuth] *)

Section auth_properties.
Context `{Bip32, Btcec}.
Import account.

Lemma retry_loop_no_error fuel nextChildIndex :
  retry_loop fuel None nextChildIndex = Some nextChildIndex.
Proof. destruct fuel; reflexivity. Qed.

(** With [err] set the loop only counts: it is still running after any
    number of iterations. *)
Lemma retry_loop_spins fuel err nextChildIndex :
  retry_loop fuel (Some err) nextChildIndex = None.
Proof.
  revert nextChildIndex. induction fuel as [|fuel IH]; intros idx; [reflexivity|].
  cbn [retry_loop]. apply IH.
Qed.

Lemma derivation_path_valid fuel first16 i steps key k :
  NewChildKey key (BigEndian_Uint32 (slice first16 (i * 4) (i * 4 + 4))) = Ok k ->
  derivation_path fuel first16 (i :: steps) key = derivation_path fuel first16 steps k.
Proof.
  intros Hk. cbn [derivation_path]. rewrite Hk, retry_loop_no_error. reflexivity.
Qed.

Lemma derivation_path_invalid fuel first16 i steps key err :
  NewChildKey key (BigEndian_Uint32 (slice first16 (i * 4) (i * 4 + 4))) = Err err ->
  derivation_path fuel first16 (i :: steps) key = None.
Proof.
  intros Hk. cbn [derivation_path]. rewrite Hk, retry_loop_spins. reflexivity.
Qed.

(** The loop has no error exit. *)
Lemma derivation_path_no_error fuel first16 steps key err :
  derivation_path fuel first16 steps key <> Some (Err err).
Proof.
  revert key. induction steps as [|i steps IH]; intros key; [discriminate|].
  destruct (NewChildKey key (BigEndian_Uint32 (slice first16 (i * 4) (i * 4 + 4))))
    as [k|e|p] eqn:Hk.
  - rewrite (derivation_path_valid _ _ _ _ _ _ Hk). apply IH.
  - rewrite (derivation_path_invalid _ _ _ _ _ _ Hk). discriminate.
  - cbn [derivation_path]. rewrite Hk. discriminate.
Qed.

(** What the loop returns does not depend on the iterations allowed. *)
Lemma derivation_path_fuel fuel fuel' first16 steps key r :
  derivation_path fuel first16 steps key = Some r ->
  derivation_path fuel' first16 steps key = Some r.
Proof.
  revert key. induction steps as [|i steps IH]; intros key; [auto|].
  destruct (NewChildKey key (BigEndian_Uint32 (slice first16 (i * 4) (i * 4 + 4))))
    as [k|e|p] eqn:Hk.
  - rewrite !(derivation_path_valid _ _ _ _ _ _ Hk). apply IH.
  - rewrite (derivation_path_invalid _ _ _ _ _ _ Hk). discriminate.
  - cbn [derivation_path]. rewrite Hk. auto.
Qed.

(** A refused first child leaves [FinishLNURLAuth] in its loop. *)
Lemma FinishLNURLAuth_keypair_spins fuel a NewSeed authParams masterKey a' err :
  getLNURLAuthKey a NewSeed = (Ok masterKey, a') ->
  NewChildKey masterKey
    (spec.child_index masterKey (data.LNURLAuth.Host authParams) 0) = Err err ->
  FinishLNURLAuth_keypair fuel a NewSeed authParams = (None, a').
Proof.
  intros Hkey Hk. unfold FinishLNURLAuth_keypair. rewrite Hkey.
  unfold spec.child_index in Hk.
  rewrite (derivation_path_invalid _ _ _ _ _ _ Hk). reflexivity.
Qed.

(** A seed created on first use is the one the store keeps. *)
Lemma getLNURLAuthKey_keeps_seed a seed r a' :
  db.failure (breezDB a) = None ->
  db.lnurlAuthKey (breezDB a) = None ->
  getLNURLAuthKey a (Ok seed) = (r, a') ->
  db.lnurlAuthKey (breezDB a') = Some seed /\ backupRequests a' = S (backupRequests a).
Proof.
  unfold getLNURLAuthKey, db.FetchLNURLAuthKey. intros -> ->.
  destruct (NewMasterKey seed); intros [= <- <-]; auto.
Qed.

(** With a stored seed the master key is that seed's. *)
Lemma getLNURLAuthKey_stored a NewSeed seed masterKey a' :
  db.lnurlAuthKey (breezDB a) = Some seed ->
  getLNURLAuthKey a NewSeed = (Ok masterKey, a') ->
  NewMasterKey seed = Ok masterKey.
Proof.
  unfold getLNURLAuthKey, db.FetchLNURLAuthKey. intros ->.
  destruct (db.failure (breezDB a)); [discriminate|].
  destruct (NewMasterKey seed); intros [= <- _]; reflexivity.
Qed.

(** The master key comes from the seed the store holds after the call,
    which is the one it held before if it held one. *)
Lemma getLNURLAuthKey_seed a NewSeed masterKey a' :
  getLNURLAuthKey a NewSeed = (Ok masterKey, a') ->
  exists seed,
    db.lnurlAuthKey (breezDB a') = Some seed
    /\ NewMasterKey seed = Ok masterKey
    /\ (forall s, db.lnurlAuthKey (breezDB a) = Some s -> s = seed).
Proof.
  unfold getLNURLAuthKey, db.FetchLNURLAuthKey.
  destruct (db.failure (breezDB a)); [discriminate|].
  destruct (db.lnurlAuthKey (breezDB a)) as [stored|] eqn:Hstored.
  - destruct (NewMasterKey stored) eqn:Hm; intros [= <- <-].
    exists stored. cbn. rewrite Hstored. repeat split; congruence.
  - destruct NewSeed as [seed|e|p]; try discriminate.
    destruct (NewMasterKey seed) eqn:Hm; intros [= <- <-].
    exists seed. cbn. repeat split; [assumption | discriminate].
Qed.

(** A keypair, when one is produced, is read off the seed in the store:
    the end of the path from its master key, whatever the iterations
    allowed. *)
Lemma FinishLNURLAuth_keypair_Ok fuel a NewSeed authParams keypair a' :
  FinishLNURLAuth_keypair fuel a NewSeed authParams = (Some (Ok keypair), a') ->
  exists seed masterKey key,
    db.lnurlAuthKey (breezDB a') = Some seed
    /\ (forall s, db.lnurlAuthKey (breezDB a) = Some s -> s = seed)
    /\ NewMasterKey seed = Ok masterKey
    /\ derivation_path 0
         (slice (hmac_sha256 (bip32.KeyBytes masterKey)
                   (bytes_of_string (data.LNURLAuth.Host authParams))) 0 16)
         [0; 1; 2; 3]%nat masterKey = Some (Ok key)
    /\ keypair = PrivKeyFromBytes (bip32.KeyBytes key).
Proof.
  unfold FinishLNURLAuth_keypair.
  destruct (getLNURLAuthKey a NewSeed) as [[m|e|p] b] eqn:Hkey; try discriminate.
  destruct (derivation_path fuel _ _ m) as [[k|e|p]|] eqn:Hd; try discriminate.
  intros [= <- <-].
  apply getLNURLAuthKey_seed in Hkey as (seed & Hseed & Hm & Hold).
  exists seed, m, k. repeat split; try assumption.
  exact (derivation_path_fuel _ 0 _ _ _ _ Hd).
Qed.

(** The run that creates the seed and a later run for the same host agree. *)
Lemma FinishLNURLAuth_keypair_first_use fuel1 fuel2 a seed NewSeed2 auth1 auth2
    keypair1 keypair2 a1 a2 :
  data.LNURLAuth.Host auth1 = data.LNURLAuth.Host auth2 ->
  db.lnurlAuthKey (breezDB a) = None ->
  FinishLNURLAuth_keypair fuel1 a (Ok seed) auth1 = (Some (Ok keypair1), a1) ->
  FinishLNURLAuth_keypair fuel2 a1 NewSeed2 auth2 = (Some (Ok keypair2), a2) ->
  keypair1 = keypair2.
Proof.
  intros Hhost Hnone Hrun1 Hrun2.
  apply FinishLNURLAuth_keypair_Ok in Hrun1
    as (s1 & m1 & k1 & Hs1 & _ & Hm1 & Hd1 & ->).
  apply FinishLNURLAuth_keypair_Ok in Hrun2
    as (s2 & m2 & k2 & _ & Hold & Hm2 & Hd2 & ->).
  rewrite (Hold _ Hs1) in Hm1. rewrite Hhost in Hd1.
  assert (m2 = m1) as -> by congruence. congruence.
Qed.

(** The path when nothing is refused. The four child keys are derived in
    sequence at the four big-endian indices read from the first 16 bytes of
    the HMAC-SHA256 of the host under the master key's bytes; when each
    derivation succeeds at its index the computation ends, whatever the
    iterations allowed, with the keypair of the fourth child. The loop has
    no error of its own: an error of the computation is one of
    [getLNURLAuthKey]. *)
Lemma four_child_derivations fuel a NewSeed authParams masterKey a' k1 k2 k3 k4 :
  getLNURLAuthKey a NewSeed = (Ok masterKey, a') ->
  NewChildKey masterKey
    (spec.child_index masterKey (data.LNURLAuth.Host authParams) 0) = Ok k1 ->
  NewChildKey k1 (spec.child_index masterKey (data.LNURLAuth.Host authParams) 1) = Ok k2 ->
  NewChildKey k2 (spec.child_index masterKey (data.LNURLAuth.Host authParams) 2) = Ok k3 ->
  NewChildKey k3 (spec.child_index masterKey (data.LNURLAuth.Host authParams) 3) = Ok k4 ->
  FinishLNURLAuth_keypair fuel a NewSeed authParams
    = (Some (Ok (PrivKeyFromBytes (bip32.KeyBytes k4))), a')
  /\ (forall fuel' b NewSeed' authParams' err b',
        FinishLNURLAuth_keypair fuel' b NewSeed' authParams' = (Some (Err err), b') ->
        getLNURLAuthKey b NewSeed' = (Err err, b')).
Proof.
  intros Hkey H1 H2 H3 H4. split.
  - unfold FinishLNURLAuth_keypair. rewrite Hkey. unfold spec.child_index in *.
    rewrite (derivation_path_valid _ _ _ _ _ _ H1),
      (derivation_path_valid _ _ _ _ _ _ H2),
      (derivation_path_valid _ _ _ _ _ _ H3),
      (derivation_path_valid _ _ _ _ _ _ H4).
    reflexivity.
  - intros fuel' b NewSeed' authParams' err b'. unfold FinishLNURLAuth_keypair.
    destruct (getLNURLAuthKey b NewSeed') as [[key|e|p] b''];
      try (intros [= <- <-]; reflexivity); try discriminate.
    destruct (derivation_path _ _ _ _) as [[k|e|p]|] eqn:Hd; try discriminate.
    exfalso. exact (derivation_path_no_error _ _ _ _ _ Hd).
Qed.

Lemma derivation_path_app fuel first16 before rest key :
  derivation_path fuel first16 (before ++ rest) key
  = match derivation_path fuel first16 before key with
    | Some (Ok k) => derivation_path fuel first16 rest k
    | other => other
    end.
Proof.
  revert key. induction before as [|i before IH]; intros key; [reflexivity|].
  cbn [app derivation_path].
  destruct (NewChildKey key (BigEndian_Uint32 (slice first16 (i * 4) (i * 4 + 4))))
    as [k|e|p]; [| |reflexivity].
  - rewrite retry_loop_no_error. apply IH.
  - rewrite retry_loop_spins. reflexivity.
Qed.

(** C2. The retry the loop is written for is never made. When go-bip32
    refuses the child index of one of the four steps, the steps before it
    having been accepted, [FinishLNURLAuth] does not return, whatever the
    iterations allowed: the body increments the index, but [NewChildKey]
    sits in the init statement of the [for] and is not called again, so
    [err] stays set. Neither a key at an incremented index nor an error
    comes out, also when the library accepts the next index. *)
Theorem C2_refused_index_never_returns a NewSeed authParams masterKey a'
    before i after key err :
  getLNURLAuthKey a NewSeed = (Ok masterKey, a') ->
  [0; 1; 2; 3]%nat = (before ++ i :: after)%list ->
  derivation_path 0
    (slice (hmac_sha256 (bip32.KeyBytes masterKey)
              (bytes_of_string (data.LNURLAuth.Host authParams))) 0 16)
    before masterKey = Some (Ok key) ->
  NewChildKey key (spec.child_index masterKey (data.LNURLAuth.Host authParams) i)
    = Err err ->
  forall fuel, FinishLNURLAuth_keypair fuel a NewSeed authParams = (None, a').
Proof.
  intros Hkey Hsteps Hbefore Hrefused fuel.
  unfold FinishLNURLAuth_keypair. rewrite Hkey, Hsteps, derivation_path_app.
  rewrite (derivation_path_fuel 0 fuel _ _ _ _ Hbefore).
  unfold spec.child_index in Hrefused.
  rewrite (derivation_path_invalid _ _ _ _ _ _ Hrefused). reflexivity.
Qed.

(** C5. Two runs of the key computation for one host, on services holding
    one seed, that both produce a keypair produce the same one, whatever the
    entropy offered and the iterations allowed. *)
Theorem C5_link_key_deterministic seed host auth1 auth2 a1 a2 NewSeed1 NewSeed2
    fuel1 fuel2 keypair1 keypair2 a1' a2' :
  data.LNURLAuth.Host auth1 = host ->
  data.LNURLAuth.Host auth2 = host ->
  db.lnurlAuthKey (breezDB a1) = Some seed ->
  db.lnurlAuthKey (breezDB a2) = Some seed ->
  FinishLNURLAuth_keypair fuel1 a1 NewSeed1 auth1 = (Some (Ok keypair1), a1') ->
  FinishLNURLAuth_keypair fuel2 a2 NewSeed2 auth2 = (Some (Ok keypair2), a2') ->
  keypair1 = keypair2.
Proof.
  intros Hh1 Hh2 Hs1 Hs2. unfold FinishLNURLAuth_keypair. rewrite Hh1, Hh2.
  destruct (getLNURLAuthKey a1 NewSeed1) as [[m1|e|p] b1] eqn:Hk1; try discriminate.
  destruct (getLNURLAuthKey a2 NewSeed2) as [[m2|e|p] b2] eqn:Hk2; try discriminate.
  apply (getLNURLAuthKey_stored _ _ _ _ _ Hs1) in Hk1.
  apply (getLNURLAuthKey_stored _ _ _ _ _ Hs2) in Hk2.
  assert (m2 = m1) as -> by congruence.
  destruct (derivation_path fuel1 _ _ m1) as [[k|e|p]|] eqn:Hd1; try discriminate.
  rewrite (derivation_path_fuel fuel1 fuel2 _ _ _ _ Hd1).
  intros [= <- _] [= <- _]. reflexivity.
Qed.

End auth_properties.

(** A library that refuses one index only, the first one of the host
    "site.example" under [sample.seed_1]: the next index is one it accepts,
    and the login does not return. *)
Lemma C2_refused_index_never_returns_witness :
  @NewChildKey
    (sample.bip32_with
       (fun childIdx =>
          childIdx =? spec.child_index (sample.master sample.seed_1) "site.example" 0))
    (sample.master sample.seed_1)
    (uint32 (spec.child_index (sample.master sample.seed_1) "site.example" 0 + 1))
  = Ok (sample.child (sample.master sample.seed_1)
          (uint32 (spec.child_index (sample.master sample.seed_1) "site.example" 0 + 1)))
  /\ forall fuel,
       @account.FinishLNURLAuth_keypair
         (sample.bip32_with
            (fun childIdx =>
               childIdx =? spec.child_index (sample.master sample.seed_1)
                             "site.example" 0))
         sample.btcec fuel sample.service_seeded sample.no_entropy sample.auth_site
       = (None, sample.service_seeded).
Proof.
  split; [vm_compute; reflexivity|].
  apply (@C2_refused_index_never_returns
           (sample.bip32_with
              (fun childIdx =>
                 childIdx =? spec.child_index (sample.master sample.seed_1)
                               "site.example" 0))
           sample.btcec sample.service_seeded sample.no_entropy sample.auth_site
           (sample.master sample.seed_1) sample.service_seeded
           [] 0%nat [1; 2; 3]%nat (sample.master sample.seed_1)
           sample.ErrInvalidPrivateKey).
  - reflexivity.
  - reflexivity.
  - reflexivity.
  - vm_compute. reflexivity.
Defined.

(** The same login with a library that refuses nothing. *)
Lemma four_child_derivations_sample :
  @account.FinishLNURLAuth_keypair (sample.bip32_with (fun _ => false))
    sample.btcec 0 sample.service_seeded sample.no_entropy sample.auth_site
  = (Some (Ok (@PrivKeyFromBytes sample.btcec
                 (bip32.KeyBytes (sample.path_site 4)))),
     sample.service_seeded).
Proof.
  apply (@four_child_derivations (sample.bip32_with (fun _ => false))
           sample.btcec 0 sample.service_seeded sample.no_entropy
           sample.auth_site (sample.path_site 0) sample.service_seeded
           (sample.path_site 1) (sample.path_site 2) (sample.path_site 3)
           (sample.path_site 4)).
  - vm_compute. reflexivity.
  - vm_compute. reflexivity.
  - vm_compute. reflexivity.
  - vm_compute. reflexivity.
  - vm_compute. reflexivity.
Qed.

Lemma C5_link_key_deterministic_witness :
  fst (@account.FinishLNURLAuth_keypair (sample.bip32_with (fun _ => false))
         sample.btcec 0 sample.service_seeded sample.no_entropy sample.auth_site)
  = fst (@account.FinishLNURLAuth_keypair (sample.bip32_with (fun _ => false))
           sample.btcec 7 sample.service_seeded_used (Ok (repeat x09 32))
           sample.auth_site_jwt).
Proof.
  assert (Hrun1 :
    @account.FinishLNURLAuth_keypair (sample.bip32_with (fun _ => false))
      sample.btcec 0 sample.service_seeded sample.no_entropy sample.auth_site
    = (Some (Ok sample.keypair_site), sample.service_seeded))
    by (vm_compute; reflexivity).
  assert (Hrun2 :
    @account.FinishLNURLAuth_keypair (sample.bip32_with (fun _ => false))
      sample.btcec 7 sample.service_seeded_used (Ok (repeat x09 32))
      sample.auth_site_jwt
    = (Some (Ok sample.keypair_site), sample.service_seeded_used))
    by (vm_compute; reflexivity).
  rewrite Hrun1, Hrun2. cbn [fst].
  refine (f_equal (fun keypair => Some (Ok keypair)) _).
  exact (@C5_link_key_deterministic (sample.bip32_with (fun _ => false))
           sample.btcec sample.seed_1 "site.example" sample.auth_site
           sample.auth_site_jwt sample.service_seeded sample.service_seeded_used
           sample.no_entropy (Ok (repeat x09 32)) 0%nat 7%nat
           sample.keypair_site sample.keypair_site
           sample.service_seeded sample.service_seeded_used
           eq_refl eq_refl eq_refl eq_refl Hrun1 Hrun2).
Defined.

(** ** int64 arithmetic *)

Lemma int64_small x : - 2 ^ 63 <= x < 2 ^ 63 -> int64 x = x.
Proof. intros Hx. unfold int64. rewrite Z.mod_small; lia. Qed.

Lemma int64_add_l a b : int64 (int64 a + b) = int64 (a + b).
Proof.
  unfold int64.
  replace ((a + 2 ^ 63) mod 2 ^ 64 - 2 ^ 63 + b + 2 ^ 63)
    with ((a + 2 ^ 63) mod 2 ^ 64 + b) by lia.
  rewrite Z.add_mod_idemp_l by lia. do 2 f_equal. lia.
Qed.

Lemma int64_sub a b : int64 (int64 a - int64 b) = int64 (a - b).
Proof.
  replace (int64 a - int64 b) with (int64 a + - int64 b) by lia.
  rewrite int64_add_l. unfold int64. f_equal.
  assert (Hpow : 2 ^ 64 = 2 ^ 63 + 2 ^ 63) by reflexivity.
  remember ((b + 2 ^ 63) mod 2 ^ 64) as x eqn:Hx.
  replace (a + - (x - 2 ^ 63) + 2 ^ 63) with (a + 2 ^ 64 - x) by lia.
  subst x. rewrite Zminus_mod_idemp_r. f_equal. lia.
Qed.

(** ** RemoteUtxoSource: [ListUnspentWitness] *)

Section utxo_source_properties.
Import account.

Lemma amtOut_of_sum (outs : list wire.TxOut) :
  amtOut_of outs = int64 (spec.sum_Z (map wire.Value outs)).
Proof.
  unfold amtOut_of. change 0 with (int64 0) at 1.
  replace (spec.sum_Z (map wire.Value outs))
    with (0 + spec.sum_Z (map wire.Value outs)) by lia.
  generalize 0 as acc. induction outs as [|o outs IH]; intros acc.
  - cbn. f_equal. lia.
  - cbn [fold_left map spec.sum_Z fold_right]. rewrite int64_add_l, IH.
    f_equal. unfold spec.sum_Z. lia.
Qed.

(** A listing that succeeds leaves in [totalAmount] the int64 sum of the
    values of the coins it returns. *)
Lemma ListUnspentWitness_range_total utxos lu acc lu' total :
  ListUnspentWitness_range utxos lu (int64 acc) = (Ok lu', total) ->
  exists new,
    lu' = (lu ++ new)%list
    /\ total = int64 (acc + spec.sum_Z (map lnwallet.Utxo.Value new)).
Proof.
  revert lu acc. induction utxos as [|utxo rest IH]; intros lu acc.
  - cbn. intros [= <- <-]. exists []. rewrite app_nil_r. cbn.
    split; [reflexivity | f_equal; lia].
  - cbn [ListUnspentWitness_range].
    destruct (lnrpc.Utxo.AddressType utxo); try discriminate.
    all: destruct (hex_DecodeString _) as [pk [e|]]; try discriminate.
    all: destruct (lnrpc.Utxo.Outpoint utxo) as [op|]; try discriminate.
    all: destruct (chainhash.SetBytes _) as [h|e|p]; try discriminate.
    all: rewrite int64_add_l; intros Hrest.
    all: apply IH in Hrest as (new & -> & ->).
    all: eexists (_ :: new); rewrite <- app_assoc; split; [reflexivity|].
    all: cbn [map spec.sum_Z fold_right lnwallet.Utxo.Value]; f_equal.
    all: unfold spec.sum_Z; lia.
Qed.

Lemma ListUnspentWitness_total u minConfs maxConfs lu u' :
  ListUnspentWitness u minConfs maxConfs = (Ok lu, u') ->
  totalAmount u' = int64 (spec.sum_Z (map lnwallet.Utxo.Value lu)).
Proof.
  unfold ListUnspentWitness.
  destruct (lnrpc.ListUnspent _ _ _) as [utxos|e|p]; try discriminate.
  destruct (ListUnspentWitness_range utxos [] 0) as [r total] eqn:Hrange.
  intros [= -> <-]. cbn [totalAmount].
  change 0 with (int64 0) in Hrange.
  apply ListUnspentWitness_range_total in Hrange as (new & -> & ->).
  reflexivity.
Qed.

(** After the builder has run, [totalAmount] is that of the coins it was
    last shown. *)
Lemma run_last_listing b : forall rus last r rus' listed,
  (forall l, last = Some l ->
     totalAmount rus = int64 (spec.sum_Z (map lnwallet.Utxo.Value l))) ->
  run b rus = (r, rus') ->
  spec.last_listing b rus last = Some listed ->
  totalAmount rus' = int64 (spec.sum_Z (map lnwallet.Utxo.Value listed)).
Proof.
  induction b as [res | minConfs maxConfs k IH]; intros rus last r rus' listed Hlast.
  - cbn. intros [= _ <-] ->. auto.
  - cbn [run spec.last_listing].
    destruct (ListUnspentWitness rus minConfs maxConfs) as [answer rus1] eqn:Hlist.
    apply IH. intros l Hl.
    destruct answer as [lu|e|p]; try discriminate.
    injection Hl as <-. exact (ListUnspentWitness_total _ _ _ _ _ Hlist).
Qed.

End utxo_source_properties.

(** ** SweepPlanner: [SweepAllCoinsTransactions] *)

Section sweep_properties.
Context `{Btcec, Lnd}.
Import account.

(** What a tier that records a transaction has done. *)
Lemma sweep_tier_set daemonAPI lnClient info targetAddr confTarget details total :
  sweep_tier daemonAPI lnClient info targetAddr confTarget = tier_set details total ->
  exists builder sweepTxPkg rus,
    spec.builder_of daemonAPI info targetAddr confTarget = Some builder
    /\ run builder (NewRpcUtxoSource lnClient) = (Ok sweepTxPkg, rus)
    /\ data.Fees details
       = int64 (totalAmount rus
                - amtOut_of (wire.MsgTx.TxOut (sweep.SweepTx sweepTxPkg))).
Proof.
  unfold sweep_tier, spec.builder_of.
  destruct (determineFeePerKw daemonAPI confTarget) as [feePerKw|e|p];
    try discriminate.
  destruct (run _ _) as [[pkg|e|p] rus] eqn:Hrun; try discriminate.
  - destruct (Serialize _) as [rawTx|e|p]; try discriminate.
    intros [= <- _]. eexists _, pkg, rus. auto.
  - destruct (errors_As_RuleError e); discriminate.
Qed.

(** A tier whose builder fails: skipped on a rule error, fatal otherwise. *)
Lemma sweep_tier_builder_error daemonAPI lnClient info targetAddr confTarget
    builder err rus :
  spec.builder_of daemonAPI info targetAddr confTarget = Some builder ->
  run builder (NewRpcUtxoSource lnClient) = (Err err, rus) ->
  sweep_tier daemonAPI lnClient info targetAddr confTarget
  = if errors_As_RuleError err then tier_continue
    else tier_return (Err (Errorf_w "sweep.CraftSweepAllTx(): %w" [] err)).
Proof.
  unfold sweep_tier, spec.builder_of.
  destruct (determineFeePerKw daemonAPI confTarget) as [feePerKw|e|p];
    try discriminate.
  intros [= <-] ->. reflexivity.
Qed.

(** Every entry of the returned map is one the loop was given or one a tier
    of the range recorded. *)
Lemma sweep_range_entries daemonAPI lnClient info targetAddr confTargets :
  forall td total r key details,
    sweep_range daemonAPI lnClient info targetAddr confTargets td total = Ok r ->
    data.Transactions r !! key = Some details ->
    td !! key = Some details
    \/ exists confTarget total',
         In confTarget confTargets /\ key = int32 confTarget
         /\ sweep_tier daemonAPI lnClient info targetAddr confTarget
            = tier_set details total'.
Proof.
  induction confTargets as [|t rest IH]; intros td total r key details.
  - cbn. intros [= <-]. auto.
  - cbn [sweep_range].
    destruct (sweep_tier daemonAPI lnClient info targetAddr t) as [|d tot|res]
      eqn:Htier.
    + intros Hrun Hkey.
      destruct (IH _ _ _ _ _ Hrun Hkey) as [Htd | (c & tot' & Hin & Hk & Hc)];
        [auto|]. right. exists c, tot'. cbn [In]. auto.
    + intros Hrun Hkey.
      destruct (IH _ _ _ _ _ Hrun Hkey) as [Htd | (c & tot' & Hin & Hk & Hc)].
      * destruct (decide (int32 t = key)) as [<-|Hne].
        -- rewrite lookup_insert_eq in Htd. injection Htd as <-.
           right. exists t, tot. cbn [In]. auto.
        -- rewrite lookup_insert_ne in Htd by exact Hne. auto.
      * right. exists c, tot'. cbn [In]. auto.
    + intros -> Hkey. right.
      (* the range returned at this tier: no map was built *)
      exfalso. revert Htier. unfold sweep_tier.
      destruct (determineFeePerKw daemonAPI t); try discriminate.
      destruct (run _ _) as [[pkg|e|p] rus]; try discriminate.
      * destruct (Serialize _); discriminate.
      * destruct (errors_As_RuleError e); discriminate.
Qed.

(** A tier the loop skips can be left out of the range. *)
Lemma sweep_range_skip daemonAPI lnClient info targetAddr confTarget :
  sweep_tier daemonAPI lnClient info targetAddr confTarget = tier_continue ->
  forall before after td total,
    sweep_range daemonAPI lnClient info targetAddr
      (before ++ confTarget :: after) td total
    = sweep_range daemonAPI lnClient info targetAddr (before ++ after) td total.
Proof.
  intros Hskip before after. induction before as [|t before IH]; intros td total.
  - cbn [app sweep_range]. rewrite Hskip. reflexivity.
  - cbn [app sweep_range].
    destruct (sweep_tier daemonAPI lnClient info targetAddr t); auto.
Qed.

(** A tier that returns an error keeps every range through it from a
    result. *)
Lemma sweep_range_abort daemonAPI lnClient info targetAddr confTarget err :
  sweep_tier daemonAPI lnClient info targetAddr confTarget = tier_return (Err err) ->
  forall before after td total r,
    sweep_range daemonAPI lnClient info targetAddr
      (before ++ confTarget :: after) td total <> Ok r.
Proof.
  intros Habort before after. induction before as [|t before IH]; intros td total r.
  - cbn [app sweep_range]. rewrite Habort. discriminate.
  - cbn [app sweep_range].
    destruct (sweep_tier daemonAPI lnClient info targetAddr t) as [|d tot|res]
      eqn:Htier; auto.
    intros ->. revert Htier. unfold sweep_tier.
    destruct (determineFeePerKw daemonAPI t); try discriminate.
    destruct (run _ _) as [[pkg|e|p] rus]; try discriminate.
    + destruct (Serialize _); discriminate.
    + destruct (errors_As_RuleError e); discriminate.
Qed.

(** What a planning call that returns a result went through. *)
Lemma SweepAllCoinsTransactions_over_Ok confTargets daemonAPI address r :
  SweepAllCoinsTransactions_over confTargets daemonAPI address = Ok r ->
  exists targetAddr lnClient info,
    DecodeAddress address = Ok targetAddr
    /\ APIClient daemonAPI = Some lnClient
    /\ lnrpc.GetInfo lnClient = Ok info
    /\ sweep_range daemonAPI lnClient info targetAddr confTargets ∅ 0 = Ok r.
Proof.
  unfold SweepAllCoinsTransactions_over.
  destruct (DecodeAddress address) as [targetAddr|e|p]; try discriminate.
  destruct (IsForNet targetAddr); cbn [negb]; try discriminate.
  destruct (hex_DecodeString address) as [decodedAddr e].
  destruct (ParsePubKey decodedAddr); try discriminate.
  destruct (APIClient daemonAPI) as [lnClient|]; try discriminate.
  destruct (lnrpc.GetInfo lnClient) as [info|e'|p] eqn:Hinfo; try discriminate.
  intros Hrange. exists targetAddr, lnClient, info. repeat split; assumption.
Qed.

(** C3, as amended. Every transaction in the returned map is that of a tier
    in [targets] whose builder returned it, and its reported fee is, in int64
    arithmetic, the total the tier's UTXO source holds after the builder ran
    less the sum of the output values; that total is the sum of the values of
    the coins last listed to the builder. Without overflow the fee is the
    plain difference, and it is positive exactly when the outputs sum to less
    than the listed coins. *)
Theorem C3_reported_fee daemonAPI address r key details :
  SweepAllCoinsTransactions daemonAPI address = Ok r ->
  data.Transactions r !! key = Some details ->
  exists targetAddr lnClient info confTarget builder sweepTxPkg rus,
    DecodeAddress address = Ok targetAddr
    /\ APIClient daemonAPI = Some lnClient
    /\ lnrpc.GetInfo lnClient = Ok info
    /\ In confTarget targets /\ key = int32 confTarget
    /\ spec.builder_of daemonAPI info targetAddr confTarget = Some builder
    /\ run builder (NewRpcUtxoSource lnClient) = (Ok sweepTxPkg, rus)
    /\ data.Fees details
       = int64 (totalAmount rus
                - amtOut_of (wire.MsgTx.TxOut (sweep.SweepTx sweepTxPkg)))
    /\ forall listed,
         spec.last_listing builder (NewRpcUtxoSource lnClient) None = Some listed ->
         let inputs := spec.sum_Z (map lnwallet.Utxo.Value listed) in
         let outputs :=
           spec.sum_Z (map wire.Value (wire.MsgTx.TxOut (sweep.SweepTx sweepTxPkg))) in
         data.Fees details = int64 (inputs - outputs)
         /\ (- 2 ^ 63 <= inputs - outputs < 2 ^ 63 ->
             data.Fees details = inputs - outputs
             /\ (0 < data.Fees details <-> outputs < inputs)).
Proof.
  intros Hrun Hkey.
  apply SweepAllCoinsTransactions_over_Ok in Hrun
    as (targetAddr & lnClient & info & Hdec & Hapi & Hinfo & Hrange).
  destruct (sweep_range_entries _ _ _ _ _ _ _ _ _ _ Hrange Hkey)
    as [Hempty | (confTarget & total' & Hin & Hk & Htier)].
  { rewrite lookup_empty in Hempty. discriminate. }
  apply sweep_tier_set in Htier as (builder & pkg & rus & Hb & Hbuild & Hfee).
  exists targetAddr, lnClient, info, confTarget, builder, pkg, rus.
  repeat (split; [assumption|]).
  intros listed Hlisted inputs outputs.
  assert (Hfee' : data.Fees details = int64 (inputs - outputs)).
  { rewrite Hfee, amtOut_of_sum.
    rewrite (run_last_listing builder _ None _ _ listed
               ltac:(intros l; discriminate) Hbuild Hlisted).
    apply int64_sub. }
  split; [exact Hfee'|]. intros Hrange'.
  rewrite Hfee', int64_small by assumption. split; [reflexivity | lia].
Qed.

(** C6. An address whose hex decoding parses as a public key never yields
    transactions; and when the address is otherwise a valid one for the
    active network, the call fails with PubkeyDestinationRejected. *)
Theorem C6_pubkey_destination_rejected daemonAPI address pubKey :
  ParsePubKey (fst (hex_DecodeString address)) = Ok pubKey ->
  (forall r, SweepAllCoinsTransactions daemonAPI address <> Ok r)
  /\ (forall targetAddr,
        DecodeAddress address = Ok targetAddr ->
        IsForNet targetAddr = true ->
        SweepAllCoinsTransactions daemonAPI address
        = Err spec.PubkeyDestinationRejected).
Proof.
  intros Hpub. unfold SweepAllCoinsTransactions, SweepAllCoinsTransactions_over.
  destruct (hex_DecodeString address) as [decodedAddr e]. cbn [fst] in Hpub.
  split.
  - intros r. destruct (DecodeAddress address) as [targetAddr|e'|p];
      try discriminate.
    destruct (IsForNet targetAddr); cbn [negb]; try discriminate.
    rewrite Hpub. discriminate.
  - intros targetAddr -> ->. cbn [negb]. rewrite Hpub. reflexivity.
Qed.

(** C7. A tier whose builder fails with [err], in a call whose address and
    node are in order. If [err] is a rule error, the call goes on as if the
    tier were not among the targets, and its result has no entry for the
    tier. Otherwise the loop returns the wrapped error at that tier, and no
    call whose targets include the tier returns a result. *)
Theorem C7_builder_failure daemonAPI address targetAddr lnClient info confTarget
    builder err rus :
  DecodeAddress address = Ok targetAddr ->
  APIClient daemonAPI = Some lnClient ->
  lnrpc.GetInfo lnClient = Ok info ->
  spec.builder_of daemonAPI info targetAddr confTarget = Some builder ->
  run builder (NewRpcUtxoSource lnClient) = (Err err, rus) ->
  (errors_As_RuleError err = true ->
     (forall before after,
        SweepAllCoinsTransactions_over (before ++ confTarget :: after)
          daemonAPI address
        = SweepAllCoinsTransactions_over (before ++ after) daemonAPI address)
     /\ (In confTarget targets ->
         forall r, SweepAllCoinsTransactions daemonAPI address = Ok r ->
                   data.Transactions r !! int32 confTarget = None))
  /\ (errors_As_RuleError err = false ->
      (forall after td total,
         sweep_range daemonAPI lnClient info targetAddr (confTarget :: after)
           td total
         = Err (Errorf_w "sweep.CraftSweepAllTx(): %w" [] err))
      /\ (forall before after r,
            SweepAllCoinsTransactions_over (before ++ confTarget :: after)
              daemonAPI address <> Ok r)).
Proof.
  intros Hdec Hapi Hinfo Hb Hbuild.
  pose proof (sweep_tier_builder_error _ _ _ _ _ _ _ _ Hb Hbuild) as Htier.
  split; intros Hrule; rewrite Hrule in Htier.
  - split.
    + intros before after. unfold SweepAllCoinsTransactions_over.
      rewrite Hdec, Hapi, Hinfo.
      rewrite (sweep_range_skip _ _ _ _ _ Htier). reflexivity.
    + intros Hin r Hrun.
      destruct (data.Transactions r !! int32 confTarget) as [d|] eqn:Hkey;
        [exfalso | reflexivity].
      apply SweepAllCoinsTransactions_over_Ok in Hrun
        as (ta & c & i & Hdec' & Hapi' & Hinfo' & Hrange).
      assert (ta = targetAddr) as -> by congruence.
      assert (c = lnClient) as -> by congruence.
      assert (i = info) as -> by congruence.
      destruct (sweep_range_entries _ _ _ _ _ _ _ _ _ _ Hrange Hkey)
        as [Hempty | (t & tot & Hin' & Hk & Hset)].
      * rewrite lookup_empty in Hempty. discriminate.
      * assert (t = confTarget) as ->.
        { unfold targets in Hin, Hin'. cbn [In] in Hin, Hin'.
          destruct Hin as [<-|[<-|[<-|[]]]];
            destruct Hin' as [<-|[<-|[<-|[]]]];
            first [reflexivity | vm_compute in Hk; discriminate]. }
        congruence.
  - split.
    + intros after td total. cbn [sweep_range]. rewrite Htier. reflexivity.
    + intros before after r. unfold SweepAllCoinsTransactions_over.
      rewrite Hdec.
      destruct (IsForNet targetAddr); cbn [negb]; try discriminate.
      destruct (hex_DecodeString address) as [decodedAddr e].
      destruct (ParsePubKey decodedAddr); try discriminate.
      rewrite Hapi, Hinfo. exact (sweep_range_abort _ _ _ _ _ _ Htier _ _ _ _ _).
Qed.

End sweep_properties.

(** The sample node: two coins of 50,000 and 30,000 sat, swept by a
    transaction of weight 712. *)

Example sweep_three_tiers :
  let plan := sample.plan_of (sample.node_with sample.fee_tiers sample.two_coins) in
  @account.SweepAllCoinsTransactions sample.btcec sample.btcutil sample.lnd
    (sample.node_with sample.fee_tiers sample.two_coins) sample.destination
  = Ok plan
  /\ data.Fees <$> (data.Transactions plan !! 2) = Some 712
  /\ data.Fees <$> (data.Transactions plan !! 6) = Some 356
  /\ data.Fees <$> (data.Transactions plan !! 25) = Some 180
  /\ data.Amt plan = 80000.
Proof. vm_compute. repeat split; reflexivity. Qed.

(** A failure of the node's listing is not a rule error: the call aborts. *)
Example sweep_listing_failure_aborts :
  @account.SweepAllCoinsTransactions sample.btcec sample.btcutil sample.lnd
    (sample.node_with sample.fee_253 (Err (pkg_error "rpc" "connection refused")))
    sample.destination
  = Err (Errorf_w "sweep.CraftSweepAllTx(): %w" []
           (Errorf_w "u.lightningClient.ListUnspent: %w" []
              (pkg_error "rpc" "connection refused"))).
Proof. vm_compute. reflexivity. Qed.

(** C3, as the specification has it, fails: with a fee estimate of zero for
    the 25-block target the planner returns a transaction for that tier
    whose outputs take all of the coins, and reports a fee of zero. *)
Lemma C3_counterexample :
  @account.SweepAllCoinsTransactions sample.btcec sample.btcutil sample.lnd
    (sample.node_with sample.fee_zero_at_25 sample.two_coins) sample.destination
  = Ok (sample.plan_of (sample.node_with sample.fee_zero_at_25 sample.two_coins))
  /\ data.Fees <$> (data.Transactions
       (sample.plan_of (sample.node_with sample.fee_zero_at_25 sample.two_coins))
       !! 25) = Some 0.
Proof. vm_compute. auto. Qed.

Lemma C3_reported_fee_witness :
  exists confTarget,
    In confTarget account.targets /\ 6 = int32 confTarget
    /\ data.Fees (sample.details_of
                    (sample.node_with sample.fee_253 sample.two_coins) 6) = 180.
Proof.
  destruct (@C3_reported_fee sample.btcec sample.btcutil sample.lnd
              (sample.node_with sample.fee_253 sample.two_coins) sample.destination
              (sample.plan_of (sample.node_with sample.fee_253 sample.two_coins))
              6
              (sample.details_of (sample.node_with sample.fee_253 sample.two_coins) 6))
    as (_ & _ & _ & confTarget & _ & _ & _ & _ & _ & _ & Hin & Hk & _).
  - vm_compute. reflexivity.
  - vm_compute. reflexivity.
  - exists confTarget.
    split; [exact Hin | split; [exact Hk | vm_compute; reflexivity]].
Defined.

Lemma C6_pubkey_destination_rejected_witness :
  @account.SweepAllCoinsTransactions sample.btcec sample.btcutil sample.lnd
    (sample.node_with sample.fee_253 sample.two_coins) sample.pubkey_hex
  = Err spec.PubkeyDestinationRejected.
Proof.
  apply (proj2 (@C6_pubkey_destination_rejected sample.btcec sample.btcutil
                  sample.lnd (sample.node_with sample.fee_253 sample.two_coins)
                  sample.pubkey_hex (fst (hex_DecodeString sample.pubkey_hex))
                  ltac:(vm_compute; reflexivity))
           sample.pubkey_hex).
  - vm_compute. reflexivity.
  - vm_compute. reflexivity.
Defined.

Lemma C7_builder_failure_witness :
  data.Transactions (sample.plan_of (sample.node_with sample.fee_steep sample.two_coins))
    !! int32 2 = None
  /\ dom (data.Transactions
            (sample.plan_of (sample.node_with sample.fee_steep sample.two_coins)))
     = {[6; 25]}.
Proof.
  split.
  - refine (proj2 (proj1 (@C7_builder_failure sample.btcec sample.btcutil sample.lnd
              (sample.node_with sample.fee_steep sample.two_coins) sample.destination
              sample.destination
              (lnrpc.mkLightningClient (Ok (lnrpc.mkGetInfoResponse 700000))
                 (fun _ _ => sample.two_coins))
              (lnrpc.mkGetInfoResponse 700000) 2
              (sample.craft_sweep_all 1000000000 573 700000 sample.destination)
              (RuleError "transaction output has negative value")
              (account.mkRpcUtxoSource
                 (lnrpc.mkLightningClient (Ok (lnrpc.mkGetInfoResponse 700000))
                    (fun _ _ => sample.two_coins)) 80000)
              _ _ _ _ _) _) _ _ _).
    + vm_compute. reflexivity.
    + reflexivity.
    + reflexivity.
    + vm_compute. reflexivity.
    + vm_compute. reflexivity.
    + reflexivity.
    + vm_compute. auto.
    + vm_compute. reflexivity.
  - vm_compute. reflexivity.
Defined.

(** * Further properties *)

(** ** What [FinishLNURLPay] stores *)

Section pay_store_properties.
Context `{Zpay32, Lnurl, Network}.
Import account.

Lemma with_breezDB_same a : with_breezDB a (breezDB a) = a.
Proof. destruct a; reflexivity. Qed.

Lemma SaveLNUrlPayInfo_spec d info :
  snd (db.SaveLNUrlPayInfo d info)
  = match db.failure d with Some _ => d | None => store.saved d info end.
Proof.
  unfold db.SaveLNUrlPayInfo, store.saved.
  destruct (db.failure d); reflexivity.
Qed.

(** The two outcomes of a call: an accepted record, saved; or no change. *)
Lemma FinishLNURLPay_outcome a params :
  (exists info payResponse2,
      FinishLNURLPay_request params = Ok payResponse2
      /\ FinishLNURLPay_verify a params payResponse2 = Ok info
      /\ FinishLNURLPay a params
         = (Ok info, with_breezDB a (snd (db.SaveLNUrlPayInfo (breezDB a) info))))
  \/ ((forall info, fst (FinishLNURLPay a params) <> Ok info)
      /\ snd (FinishLNURLPay a params) = a).
Proof.
  unfold FinishLNURLPay.
  destruct (FinishLNURLPay_request params) as [pr2|e|p] eqn:Hreq; cbn [bind].
  - destruct (FinishLNURLPay_verify a params pr2) as [info|e|p] eqn:Hv.
    + left. exists info, pr2. split; [reflexivity|]. split; [exact Hv|].
      destruct (db.SaveLNUrlPayInfo (breezDB a) info); reflexivity.
    + right. split; [discriminate | reflexivity].
    + right. split; [discriminate | reflexivity].
  - right. split; [discriminate | reflexivity].
  - right. split; [discriminate | reflexivity].
Qed.

(** What the verification steps put into an accepted record. *)
Lemma FinishLNURLPay_verify_record a params payResponse2 info :
  FinishLNURLPay_verify a params payResponse2 = Ok info ->
  exists invoice paymentHash,
    zpay32_Decode (lnurl.LNURLPayResponse2.PR payResponse2) = Ok invoice
    /\ zpay32.PaymentHash invoice = Some paymentHash
    /\ FinishLNURLPay_successAction
         (lnurl.LNURLPayResponse2.SuccessAction payResponse2)
       = Ok (data.LNUrlPayInfo.SuccessAction info)
    /\ data.LNUrlPayInfo.PaymentHash info = hex_EncodeToString paymentHash
    /\ data.LNUrlPayInfo.Invoice info = lnurl.LNURLPayResponse2.PR payResponse2
    /\ data.LNUrlPayInfo.Comment info = data.LNURLPayResponse1.Comment params
    /\ data.LNUrlPayInfo.Metadata info = data.LNURLPayResponse1.Metadata params
    /\ data.LNUrlPayInfo.Host info = data.LNURLPayResponse1.Host params.
Proof.
  unfold FinishLNURLPay_verify.
  destruct (zpay32_Decode _) as [invoice| |] eqn:Hdec; cbn [bind];
    try discriminate.
  destruct (zpay32.DescriptionHash invoice) as [h|]; try discriminate.
  destruct (negb (String.eqb _ _)); try discriminate.
  destruct (zpay32.MilliSat invoice) as [m|]; try discriminate.
  destruct (negb (Z.eqb _ _)); try discriminate.
  destruct (FinishLNURLPay_successAction _) as [sa|e|p] eqn:Hsa; cbn [bind];
    try discriminate.
  destruct (zpay32.PaymentHash invoice) as [ph|] eqn:Hph; try discriminate.
  intros [= <-]. exists invoice, ph. cbn.
  repeat split; first [assumption | reflexivity].
Qed.

(** The action of an accepted record is the service's, field by field, and
    its tag is a supported one. *)
Lemma FinishLNURLPay_successAction_Ok sa _sa :
  FinishLNURLPay_successAction sa = Ok _sa ->
  match sa with
  | None => _sa = None
  | Some sa =>
      In (lnurl.SuccessAction.Tag sa) store.supported_tags
      /\ exists isa, _sa = Some isa /\ spec.to_lnurl isa = sa
  end.
Proof.
  unfold FinishLNURLPay_successAction. destruct sa as [sa|]; [|congruence].
  destruct (String.eqb (lnurl.SuccessAction.Tag sa) "message") eqn:Em;
    [apply String.eqb_eq in Em|];
    (destruct (String.eqb (lnurl.SuccessAction.Tag sa) "url") eqn:Eu;
     [apply String.eqb_eq in Eu|]);
    (destruct (String.eqb (lnurl.SuccessAction.Tag sa) "aes") eqn:Ea;
     [apply String.eqb_eq in Ea|]);
    cbn [negb andb]; try discriminate.
  all: intros [= <-]; split;
    [unfold store.supported_tags; cbn [In]; auto
    | eexists; split; [reflexivity | destruct sa; reflexivity]].
Qed.

(** X1. The whole effect of [FinishLNURLPay] on the service. A call that
    does not return a record changes nothing. A call that returns [info]
    touches the store only: with the store working, [info] is then fetched
    under its payment hash and every other record is as before; with the
    store failing the error of the save is dropped, [info] is returned all
    the same and nothing is stored. *)
Theorem X1_pay_effect a params :
  let '(r, a') := FinishLNURLPay a params in
  match r with
  | Ok info =>
      lnurlWithdrawing a' = lnurlWithdrawing a
      /\ lnurlPayMetadata a' = lnurlPayMetadata a
      /\ backupRequests a' = backupRequests a
      /\ db.lnurlAuthKey (breezDB a') = db.lnurlAuthKey (breezDB a)
      /\ match db.failure (breezDB a) with
         | None =>
             db.FetchLNUrlPayInfo (breezDB a')
               (data.LNUrlPayInfo.PaymentHash info) = Ok (Some info)
             /\ forall k, k <> data.LNUrlPayInfo.PaymentHash info ->
                  db.lnurlPayInfo (breezDB a') !! k = db.lnurlPayInfo (breezDB a) !! k
         | Some _ => a' = a
         end
  | _ => a' = a
  end.
Proof.
  destruct (FinishLNURLPay_outcome a params)
    as [(info & pr2 & _ & _ & ->) | [Hno Hsame]].
  - rewrite SaveLNUrlPayInfo_spec. cbn [with_breezDB lnurlWithdrawing
      lnurlPayMetadata backupRequests breezDB].
    repeat (split; [reflexivity|]).
    destruct (db.failure (breezDB a)) eqn:Hf.
    + split; [reflexivity|]. apply with_breezDB_same.
    + split; [reflexivity|]. unfold db.FetchLNUrlPayInfo, store.saved.
      cbn [db.failure db.lnurlPayInfo]. rewrite Hf, lookup_insert_eq.
      split; [reflexivity|]. intros k Hk. apply lookup_insert_ne. congruence.
  - destruct (FinishLNURLPay a params) as [[info|e|p] a'];
      cbn [fst snd] in *; try assumption.
    exfalso. exact (Hno info eq_refl).
Qed.

(** X2. What an accepted record holds: the payment hash of the decoded
    invoice in hex, the payment request, and the caller's comment, metadata
    and host; and its success action is none when the service sent none,
    and otherwise the service's action, field by field, with a tag among
    "message", "url" and "aes". *)
Theorem X2_accepted_record a params info a' :
  FinishLNURLPay a params = (Ok info, a') ->
  exists payResponse2 invoice paymentHash,
    FinishLNURLPay_request params = Ok payResponse2
    /\ zpay32_Decode (lnurl.LNURLPayResponse2.PR payResponse2) = Ok invoice
    /\ zpay32.PaymentHash invoice = Some paymentHash
    /\ data.LNUrlPayInfo.PaymentHash info = hex_EncodeToString paymentHash
    /\ data.LNUrlPayInfo.Invoice info = lnurl.LNURLPayResponse2.PR payResponse2
    /\ data.LNUrlPayInfo.Comment info = data.LNURLPayResponse1.Comment params
    /\ data.LNUrlPayInfo.Metadata info = data.LNURLPayResponse1.Metadata params
    /\ data.LNUrlPayInfo.Host info = data.LNURLPayResponse1.Host params
    /\ match lnurl.LNURLPayResponse2.SuccessAction payResponse2 with
       | None => data.LNUrlPayInfo.SuccessAction info = None
       | Some sa =>
           In (lnurl.SuccessAction.Tag sa) store.supported_tags
           /\ exists isa,
                data.LNUrlPayInfo.SuccessAction info = Some isa
                /\ spec.to_lnurl isa = sa
       end.
Proof.
  intros Hrun.
  destruct (FinishLNURLPay_outcome a params)
    as [(info' & pr2 & Hreq & Hv & Hrun') | [Hno _]].
  - rewrite Hrun in Hrun'. injection Hrun' as -> _.
    apply FinishLNURLPay_verify_record in Hv
      as (invoice & ph & Hdec & Hph & Hsa & Hh & Hi & Hc & Hm & Hhost).
    exists pr2, invoice, ph. repeat (split; [assumption|]).
    exact (FinishLNURLPay_successAction_Ok _ _ Hsa).
  - rewrite Hrun in Hno. exfalso. exact (Hno info eq_refl).
Qed.

End pay_store_properties.

(** ** Pay, then decrypt *)

Section pay_decrypt_properties.
Context `{Zpay32, Lnurl, Network}.
Import account.

(** An accepted call on a working store leaves the record under its hash. *)
Lemma FinishLNURLPay_saved a params info a1 :
  db.failure (breezDB a) = None ->
  FinishLNURLPay a params = (Ok info, a1) ->
  a1 = with_breezDB a (store.saved (breezDB a) info)
  /\ db.FetchLNUrlPayInfo (breezDB a1) (data.LNUrlPayInfo.PaymentHash info)
     = Ok (Some info).
Proof.
  intros Hf Hrun.
  destruct (FinishLNURLPay_outcome a params)
    as [(info' & pr2 & _ & _ & Hrun') | [Hno _]].
  - rewrite Hrun in Hrun'. injection Hrun' as -> ->.
    rewrite SaveLNUrlPayInfo_spec, Hf. split; [reflexivity|].
    unfold db.FetchLNUrlPayInfo, store.saved. cbn. rewrite Hf, lookup_insert_eq.
    reflexivity.
  - rewrite Hrun in Hno. exfalso. exact (Hno info eq_refl).
Qed.

(** [DecryptLNUrlPayMessage] on a record that is there. *)
Lemma DecryptLNUrlPayMessage_found a paymentHash preimage info :
  db.FetchLNUrlPayInfo (breezDB a) paymentHash = Ok (Some info) ->
  DecryptLNUrlPayMessage a paymentHash preimage
  = match data.LNUrlPayInfo.SuccessAction info with
    | None => (Panic nil_dereference, a)
    | Some isa =>
        if String.eqb (data.SuccessAction.Ciphertext isa) ""
        then (Err spec.NotDecryptable, a)
        else
          match Decipher (spec.to_lnurl isa) preimage with
          | Ok message =>
              (Ok message,
               with_breezDB a
                 (store.saved (breezDB a) (store.with_message info message)))
          | Err err =>
              (Err (Errorf "Could not decrypt message: %v" [Error err]), a)
          | Panic p => (Panic p, a)
          end
    end.
Proof.
  intros Hfetch. unfold DecryptLNUrlPayMessage. rewrite Hfetch.
  unfold db.FetchLNUrlPayInfo in Hfetch.
  destruct (db.failure (breezDB a)) eqn:Hf; [discriminate|].
  destruct (data.LNUrlPayInfo.SuccessAction info) as [isa|] eqn:Hsa;
    [|reflexivity].
  cbn [lnurl.SuccessAction.Ciphertext]. fold (spec.to_lnurl isa).
  destruct (String.eqb _ _); [reflexivity|].
  destruct (Decipher (spec.to_lnurl isa) preimage); try reflexivity.
  unfold db.SaveLNUrlPayInfo. rewrite Hf.
  unfold store.saved, store.with_message. rewrite Hsa, Hf. reflexivity.
Qed.

(** A call that finds no usable record changes nothing. *)
Lemma DecryptLNUrlPayMessage_not_found a paymentHash preimage :
  (forall info, db.FetchLNUrlPayInfo (breezDB a) paymentHash <> Ok (Some info)) ->
  (forall message,
      fst (DecryptLNUrlPayMessage a paymentHash preimage) <> Ok message)
  /\ snd (DecryptLNUrlPayMessage a paymentHash preimage) = a.
Proof.
  intros Hno. unfold DecryptLNUrlPayMessage.
  destruct (db.FetchLNUrlPayInfo (breezDB a) paymentHash) as [[info|]|e|p];
    cbn [fst snd]; try (split; [discriminate | reflexivity]).
  exfalso. exact (Hno info eq_refl).
Qed.

(** X4. Pay, then decrypt. After an accepted call on a working store whose
    record carries an action with a ciphertext, [DecryptLNUrlPayMessage] for
    the record's payment hash hands that action to [Decipher]: the content
    is returned and saved as the record's message, the rest of the record
    staying as accepted; if [Decipher] fails or panics the service is as
    the payment left it. *)
Theorem X4_pay_then_decrypt a params info a1 isa preimage :
  db.failure (breezDB a) = None ->
  FinishLNURLPay a params = (Ok info, a1) ->
  data.LNUrlPayInfo.SuccessAction info = Some isa ->
  data.SuccessAction.Ciphertext isa <> "" ->
  DecryptLNUrlPayMessage a1 (data.LNUrlPayInfo.PaymentHash info) preimage
  = match Decipher (spec.to_lnurl isa) preimage with
    | Ok message =>
        (Ok message,
         with_breezDB a1
           (store.saved (breezDB a1) (store.with_message info message)))
    | Err err => (Err (Errorf "Could not decrypt message: %v" [Error err]), a1)
    | Panic p => (Panic p, a1)
    end.
Proof.
  intros Hf Hrun Hsa Hct.
  destruct (FinishLNURLPay_saved _ _ _ _ Hf Hrun) as [_ Hfetch].
  rewrite (DecryptLNUrlPayMessage_found _ _ _ _ Hfetch), Hsa.
  apply String.eqb_neq in Hct. rewrite Hct. reflexivity.
Qed.

(** X5. Pay, then decrypt, when the service sent no success action: the
    call is accepted and its record stored without an action, and
    [DecryptLNUrlPayMessage] for that payment hash dereferences the missing
    action and panics. *)
Theorem X5_decrypt_without_action a params payResponse2 info a1 preimage :
  db.failure (breezDB a) = None ->
  FinishLNURLPay_request params = Ok payResponse2 ->
  lnurl.LNURLPayResponse2.SuccessAction payResponse2 = None ->
  FinishLNURLPay a params = (Ok info, a1) ->
  data.LNUrlPayInfo.SuccessAction info = None
  /\ DecryptLNUrlPayMessage a1 (data.LNUrlPayInfo.PaymentHash info) preimage
     = (Panic nil_dereference, a1).
Proof.
  intros Hf Hreq Hnone Hrun.
  assert (Hsa : data.LNUrlPayInfo.SuccessAction info = None).
  { destruct (FinishLNURLPay_outcome a params)
      as [(info' & pr2 & Hreq' & Hv & Hrun') | [Hno _]].
    - rewrite Hrun in Hrun'. injection Hrun' as -> _.
      assert (pr2 = payResponse2) as -> by congruence.
      apply FinishLNURLPay_verify_record in Hv as (_ & _ & _ & _ & Hact & _).
      rewrite Hnone in Hact. cbn in Hact. congruence.
    - rewrite Hrun in Hno. exfalso. exact (Hno info eq_refl). }
  split; [exact Hsa|].
  destruct (FinishLNURLPay_saved _ _ _ _ Hf Hrun) as [_ Hfetch].
  rewrite (DecryptLNUrlPayMessage_found _ _ _ _ Hfetch), Hsa. reflexivity.
Qed.

(** X6. The whole effect of [DecryptLNUrlPayMessage] on the service. A call
    that returns no message changes nothing. A call that returns [message]
    found a record under the given hash and saved it, under the record's own
    payment hash, with its message replaced by [message] and nothing else
    changed; the other records, the seed and the rest of the service are as
    before. *)
Theorem X6_decrypt_effect a paymentHash preimage :
  let '(r, a') := DecryptLNUrlPayMessage a paymentHash preimage in
  match r with
  | Ok message =>
      exists info,
        db.lnurlPayInfo (breezDB a) !! paymentHash = Some info
        /\ db.lnurlPayInfo (breezDB a')
           = <[data.LNUrlPayInfo.PaymentHash info :=
                 store.with_message info message]> (db.lnurlPayInfo (breezDB a))
        /\ db.lnurlAuthKey (breezDB a') = db.lnurlAuthKey (breezDB a)
        /\ db.failure (breezDB a') = db.failure (breezDB a)
        /\ lnurlWithdrawing a' = lnurlWithdrawing a
        /\ lnurlPayMetadata a' = lnurlPayMetadata a
        /\ backupRequests a' = backupRequests a
  | _ => a' = a
  end.
Proof.
  destruct (db.FetchLNUrlPayInfo (breezDB a) paymentHash) as [[info|]|e|p]
    eqn:Hfetch.
  2-4: destruct (DecryptLNUrlPayMessage_not_found a paymentHash preimage
                   ltac:(intros i; rewrite Hfetch; discriminate)) as [Hno Hsame];
       destruct (DecryptLNUrlPayMessage a paymentHash preimage) as [[m|e'|p'] a'];
       cbn [fst snd] in *; try assumption; exfalso; exact (Hno m eq_refl).
  rewrite (DecryptLNUrlPayMessage_found _ _ _ _ Hfetch).
  unfold db.FetchLNUrlPayInfo in Hfetch.
  destruct (db.failure (breezDB a)) eqn:Hf; [discriminate|].
  injection Hfetch as Hinfo.
  destruct (data.LNUrlPayInfo.SuccessAction info) as [isa|]; [|reflexivity].
  destruct (String.eqb _ _); [reflexivity|].
  destruct (Decipher _ _) as [message|e|p]; try reflexivity.
  exists info. cbn. repeat split; first [assumption | reflexivity].
Qed.

End pay_decrypt_properties.

Lemma sample_flow_accepted answer :
  answer = store.answer_aes \/ answer = sample.answer_plain ->
  @account.FinishLNURLPay store.zpay32_hi sample.lnurl
    (sample.network_answering answer) sample.service_hi sample.params_1000sat
  = (Ok (store.info_after answer), store.service_after answer).
Proof. intros [-> | ->]; vm_compute; reflexivity. Qed.

Lemma X2_accepted_record_witness :
  exists isa,
    data.LNUrlPayInfo.SuccessAction (store.info_after store.answer_aes) = Some isa
    /\ data.SuccessAction.Tag isa = "aes"
    /\ data.LNUrlPayInfo.PaymentHash (store.info_after store.answer_aes)
       = hex_EncodeToString (repeat x11 32).
Proof.
  destruct (@X2_accepted_record store.zpay32_hi sample.lnurl
              (sample.network_answering store.answer_aes) sample.service_hi
              sample.params_1000sat (store.info_after store.answer_aes)
              (store.service_after store.answer_aes)
              (sample_flow_accepted _ (or_introl eq_refl)))
    as (pr2 & invoice & ph & Hreq & Hdec & Hph & Hhash & _ & _ & _ & _ & Hact).
  vm_compute in Hreq. injection Hreq as <-.
  vm_compute in Hdec. injection Hdec as <-.
  injection Hph as <-.
  cbn [lnurl.LNURLPayResponse2.SuccessAction store.answer_aes] in Hact.
  destruct Hact as (_ & isa & Hisa & Hto).
  exists isa. split; [exact Hisa|]. split; [|exact Hhash].
  destruct isa. injection Hto as -> _. reflexivity.
Defined.

Lemma X4_pay_then_decrypt_witness :
  fst (@account.DecryptLNUrlPayMessage sample.lnurl
         (store.service_after store.answer_aes)
         (data.LNUrlPayInfo.PaymentHash (store.info_after store.answer_aes))
         sample.preimage_7)
  = Ok "c2VjcmV0IGNvZGU=".
Proof.
  rewrite (@X4_pay_then_decrypt store.zpay32_hi sample.lnurl
             (sample.network_answering store.answer_aes) sample.service_hi
             sample.params_1000sat (store.info_after store.answer_aes)
             (store.service_after store.answer_aes)
             (data.SuccessAction.mk "aes" "Here is your redeem code" "" ""
                "c2VjcmV0IGNvZGU=" "0707")
             sample.preimage_7 eq_refl
             (sample_flow_accepted _ (or_introl eq_refl))
             ltac:(vm_compute; reflexivity) ltac:(discriminate)).
  vm_compute. reflexivity.
Defined.

Lemma X5_decrypt_without_action_witness :
  @account.DecryptLNUrlPayMessage sample.lnurl
    (store.service_after sample.answer_plain)
    (data.LNUrlPayInfo.PaymentHash (store.info_after sample.answer_plain))
    sample.preimage_7
  = (Panic nil_dereference, store.service_after sample.answer_plain).
Proof.
  exact (proj2 (@X5_decrypt_without_action store.zpay32_hi sample.lnurl
                  (sample.network_answering sample.answer_plain)
                  sample.service_hi sample.params_1000sat sample.answer_plain
                  (store.info_after sample.answer_plain)
                  (store.service_after sample.answer_plain) sample.preimage_7
                  eq_refl ltac:(vm_compute; reflexivity) eq_refl
                  (sample_flow_accepted _ (or_intror eq_refl)))).
Defined.

(** ** The seed of the link keys: [getLNURLAuthKey] *)

Section seed_properties.
Context `{Bip32}.
Import account.

(** X7. The life of the seed. A stored seed is never replaced, and a call
    that finds one changes nothing and requests no backup. With no seed
    stored, a working store and fresh entropy, the new seed is stored and
    one backup is requested, whether or not a master key can be made of it.
    In every other case the call fails and nothing changes. The pay
    records and the pending flows are never touched. *)
Theorem X7_seed_lifecycle a NewSeed :
  let '(r, a') := getLNURLAuthKey a NewSeed in
  lnurlWithdrawing a' = lnurlWithdrawing a
  /\ lnurlPayMetadata a' = lnurlPayMetadata a
  /\ db.lnurlPayInfo (breezDB a') = db.lnurlPayInfo (breezDB a)
  /\ db.failure (breezDB a') = db.failure (breezDB a)
  /\ match db.lnurlAuthKey (breezDB a) with
     | Some seed => a' = a
     | None =>
         match db.failure (breezDB a), NewSeed with
         | None, Ok seed =>
             db.lnurlAuthKey (breezDB a') = Some seed
             /\ backupRequests a' = S (backupRequests a)
         | _, _ => a' = a /\ forall masterKey, r <> Ok masterKey
         end
     end.
Proof.
  unfold getLNURLAuthKey, db.FetchLNURLAuthKey.
  destruct a as [w m [seed payInfo failure] n]; cbn.
  destruct failure as [e|]; cbn.
  { repeat split. destruct seed; [reflexivity|]. split; [reflexivity | discriminate]. }
  destruct seed as [seed|]; cbn.
  { destruct (NewMasterKey seed); repeat split. }
  destruct NewSeed as [seed|e|p]; cbn.
  - destruct (NewMasterKey seed); repeat split.
  - repeat split. discriminate.
  - repeat split. discriminate.
Qed.

End seed_properties.

(** ** More on [ListUnspentWitness] *)

Section listing_properties.
Import account.

Lemma ListUnspentWitness_range_converts utxos : forall lu total,
  match fst (ListUnspentWitness_range utxos lu total) with
  | Ok lu' => exists new, lu' = (lu ++ new)%list /\ Forall2 listing.converts utxos new
  | _ => ~ Forall listing.convertible utxos
  end.
Proof.
  induction utxos as [|utxo rest IH]; intros lu total.
  - cbn. exists []. rewrite app_nil_r. split; [reflexivity | constructor].
  - cbn [ListUnspentWitness_range].
    assert (Hbad : ~ listing.convertible utxo ->
                   ~ Forall listing.convertible (utxo :: rest))
      by (intros Hno Hall; inversion Hall; contradiction).
    destruct (lnrpc.Utxo.AddressType utxo) eqn:Htype; cbn [fst].
    3,4: apply Hbad; intros (out & Hty & _);
         unfold listing.address_type_of in Hty; rewrite Htype in Hty;
         discriminate.
    all: destruct (hex_DecodeString (lnrpc.Utxo.PkScript utxo)) as [pk [e|]]
           eqn:Hhex; cbn [fst];
         [apply Hbad; intros (out & _ & _ & _ & Hpk & _); congruence|].
    all: destruct (lnrpc.Utxo.Outpoint utxo) as [op|] eqn:Hop; cbn [fst];
         [|apply Hbad; intros (out & _ & _ & _ & _ & op & Hop' & _);
           congruence].
    all: unfold chainhash.SetBytes, chainhash.HashSize;
         destruct (Nat.eqb (length (lnrpc.TxidBytes op)) 32) eqn:Hlen; cbn [fst];
         [apply Nat.eqb_eq in Hlen
         |apply Nat.eqb_neq in Hlen; apply Hbad;
          intros (out & _ & _ & _ & _ & op' & Hop' & Hlen' & _); congruence].
    all: match goal with
         | |- context [ListUnspentWitness_range ?r ?l ?t] =>
             specialize (IH l t);
             destruct (fst (ListUnspentWitness_range r l t)) as [lu'|e|p]
         end.
    all: try (intros Hall; inversion Hall; contradiction).
    all: destruct IH as (new & -> & Hnew); eexists;
         (split; [rewrite <- app_assoc; reflexivity|]);
         cbn [app]; constructor; [|exact Hnew];
         unfold listing.converts, listing.address_type_of; cbn;
         rewrite Htype; repeat split; try reflexivity; try assumption;
         exists op; repeat split; assumption.
Qed.

Lemma Forall2_converts_values utxos lu :
  Forall2 listing.converts utxos lu ->
  map lnwallet.Utxo.Value lu = map lnrpc.Utxo.AmountSat utxos.
Proof.
  induction 1 as [|utxo out utxos lu (_ & Hv & _) _ IH]; [reflexivity|].
  cbn. congruence.
Qed.

(** X8. Whatever arguments it is given and whatever total it held, a
    listing the node answers succeeds exactly when every output listed has a
    supported address type, a script in hex and an outpoint with a 32-byte
    transaction id; it then returns the outputs one for one and in order,
    with their values, confirmations, decoded scripts and outpoints, and
    leaves in [totalAmount] the int64 sum of the listed amounts. *)
Theorem X8_listing_converts u minConfs maxConfs utxos :
  lnrpc.ListUnspent (lightningClient u) 1 math_MaxInt32 = Ok utxos ->
  let '(r, u') := ListUnspentWitness u minConfs maxConfs in
  lightningClient u' = lightningClient u
  /\ match r with
     | Ok lu =>
         Forall2 listing.converts utxos lu
         /\ totalAmount u'
            = int64 (spec.sum_Z (map lnrpc.Utxo.AmountSat utxos))
     | _ => ~ Forall listing.convertible utxos
     end.
Proof.
  intros Hrpc.
  destruct (ListUnspentWitness u minConfs maxConfs) as [r u'] eqn:Hrun.
  pose proof Hrun as Hrun'. unfold ListUnspentWitness in Hrun'.
  rewrite Hrpc in Hrun'.
  pose proof (ListUnspentWitness_range_converts utxos [] 0) as Hconv.
  destruct (ListUnspentWitness_range utxos [] 0) as [r0 total].
  injection Hrun' as <- <-. cbn [fst lightningClient] in *.
  split; [reflexivity|].
  destruct r0 as [lu|e|p]; try exact Hconv.
  destruct Hconv as (new & -> & Hnew). cbn [app] in *. split; [exact Hnew|].
  rewrite (ListUnspentWitness_total _ _ _ _ _ Hrun).
  rewrite (Forall2_converts_values _ _ Hnew). reflexivity.
Qed.

End listing_properties.

Lemma X8_listing_converts_witness :
  account.totalAmount
    (snd (account.ListUnspentWitness
            (account.mkRpcUtxoSource
               (lnrpc.mkLightningClient (Ok (lnrpc.mkGetInfoResponse 700000))
                  (fun _ _ => sample.two_coins)) 12345) 6 100))
  = int64 (spec.sum_Z [50000; 30000]).
Proof.
  pose proof (X8_listing_converts
                (account.mkRpcUtxoSource
                   (lnrpc.mkLightningClient (Ok (lnrpc.mkGetInfoResponse 700000))
                      (fun _ _ => sample.two_coins)) 12345) 6 100
                [sample.coin 50000 0; sample.coin 30000 1] eq_refl) as Hlist.
  destruct (account.ListUnspentWitness _ 6 100) as [[lu|e|p] u'] eqn:Hrun;
    try (exfalso; vm_compute in Hrun; discriminate).
  exact (proj2 (proj2 Hlist)).
Defined.

(** ** More on [SweepAllCoinsTransactions] *)

Section plan_properties.
Context `{Btcec, Lnd}.
Import account.

(** The three things a pass of the loop can do, read back. *)
Lemma sweep_tier_cases daemonAPI lnClient info targetAddr confTarget :
  match sweep_tier daemonAPI lnClient info targetAddr confTarget with
  | tier_continue => listing.skipped daemonAPI lnClient info targetAddr confTarget
  | tier_set details total =>
      listing.recorded daemonAPI lnClient info targetAddr confTarget details total
  | tier_return r => forall plan, r <> Ok plan
  end.
Proof.
  unfold sweep_tier, listing.skipped, listing.recorded, spec.builder_of.
  destruct (determineFeePerKw daemonAPI confTarget) as [feePerKw|e|p];
    try discriminate.
  destruct (run _ _) as [[pkg|e|p] rus] eqn:Hrun; try discriminate.
  - destruct (Serialize _) as [rawTx|e|p] eqn:Hser; try discriminate.
    eexists _, pkg, rus, rawTx. repeat split; first [eassumption | reflexivity].
  - destruct (errors_As_RuleError e) eqn:Hrule; [|discriminate].
    eexists _, e, rus. repeat split; first [eassumption | reflexivity].
Qed.

Lemma skipped_continue daemonAPI lnClient info targetAddr confTarget :
  listing.skipped daemonAPI lnClient info targetAddr confTarget ->
  sweep_tier daemonAPI lnClient info targetAddr confTarget = tier_continue.
Proof.
  intros (builder & err & rus & Hb & Hrun & Hrule).
  rewrite (sweep_tier_builder_error _ _ _ _ _ _ _ _ Hb Hrun), Hrule. reflexivity.
Qed.

(** The amount and the map a range returns: those it was given if every
    tier was passed over, and otherwise the total of the last tier that
    recorded a transaction, which the map holds. *)
Lemma sweep_range_last daemonAPI lnClient info targetAddr confTargets :
  forall td total plan,
    sweep_range daemonAPI lnClient info targetAddr confTargets td total = Ok plan ->
    (Forall (listing.skipped daemonAPI lnClient info targetAddr) confTargets
     /\ data.Amt plan = total /\ data.Transactions plan = td)
    \/ exists before confTarget after details total',
         confTargets = (before ++ confTarget :: after)%list
         /\ listing.recorded daemonAPI lnClient info targetAddr confTarget
              details total'
         /\ Forall (listing.skipped daemonAPI lnClient info targetAddr) after
         /\ data.Amt plan = total'
         /\ data.Transactions plan !! int32 confTarget = Some details.
Proof.
  induction confTargets as [|t rest IH]; intros td total plan.
  - cbn. intros [= <-]. left. repeat split. constructor.
  - cbn [sweep_range].
    pose proof (sweep_tier_cases daemonAPI lnClient info targetAddr t) as Hcase.
    destruct (sweep_tier daemonAPI lnClient info targetAddr t) as [|d tot|r].
    + intros Hrun.
      destruct (IH _ _ _ Hrun)
        as [(Hall & Hamt & Htd) | (b & c & a & d & tot & -> & Hrec & Hall & Hamt & Hk)].
      * left. repeat split; try assumption. constructor; assumption.
      * right. exists (t :: b), c, a, d, tot. repeat split; assumption.
    + intros Hrun.
      destruct (IH _ _ _ Hrun)
        as [(Hall & Hamt & Htd) | (b & c & a & d' & tot' & -> & Hrec & Hall & Hamt & Hk)].
      * right. exists [], t, rest, d, tot. repeat split; try assumption.
        rewrite Htd. apply lookup_insert_eq.
      * right. exists (t :: b), c, a, d', tot'. repeat split; assumption.
    + intros ->. exfalso. exact (Hcase plan eq_refl).
Qed.

(** X9. The amount of a plan. When the call returns a plan, either every
    target was passed over on a rule error, and the plan is empty with an
    amount of 0; or the amount is the total that the UTXO source of the last
    target to record a transaction held after its builder ran, that
    transaction is in the plan under its target, and every later target
    was passed over. *)
Theorem X9_plan_amount daemonAPI address plan :
  SweepAllCoinsTransactions daemonAPI address = Ok plan ->
  exists targetAddr lnClient info,
    DecodeAddress address = Ok targetAddr
    /\ APIClient daemonAPI = Some lnClient
    /\ lnrpc.GetInfo lnClient = Ok info
    /\ ((Forall (listing.skipped daemonAPI lnClient info targetAddr) targets
         /\ data.Amt plan = 0 /\ data.Transactions plan = ∅)
        \/ exists before confTarget after details total,
             targets = (before ++ confTarget :: after)%list
             /\ listing.recorded daemonAPI lnClient info targetAddr confTarget
                  details total
             /\ Forall (listing.skipped daemonAPI lnClient info targetAddr) after
             /\ data.Amt plan = total
             /\ data.Transactions plan !! int32 confTarget = Some details).
Proof.
  intros Hrun.
  apply SweepAllCoinsTransactions_over_Ok in Hrun
    as (targetAddr & lnClient & info & Hdec & Hapi & Hinfo & Hrange).
  exists targetAddr, lnClient, info. repeat (split; [assumption|]).
  exact (sweep_range_last _ _ _ _ _ _ _ _ Hrange).
Qed.

(** X10. When the address and the node are in order and the builder fails
    with a rule error at every target, the call is not an error: it
    returns an empty plan with an amount of 0. *)
Theorem X10_all_tiers_skipped daemonAPI address targetAddr lnClient info err :
  DecodeAddress address = Ok targetAddr ->
  IsForNet targetAddr = true ->
  ParsePubKey (fst (hex_DecodeString address)) = Err err ->
  APIClient daemonAPI = Some lnClient ->
  lnrpc.GetInfo lnClient = Ok info ->
  Forall (listing.skipped daemonAPI lnClient info targetAddr) targets ->
  SweepAllCoinsTransactions daemonAPI address
  = Ok (data.mkSweepAllCoinsTransactions 0 ∅).
Proof.
  intros Hdec Hnet Hpub Hapi Hinfo Hall.
  unfold SweepAllCoinsTransactions, SweepAllCoinsTransactions_over.
  rewrite Hdec, Hnet. cbn [negb].
  destruct (hex_DecodeString address) as [decodedAddr e]. cbn [fst] in Hpub.
  rewrite Hpub, Hapi, Hinfo.
  generalize (∅ : gmap Z data.TransactionDetails) as td. generalize 0 as total.
  induction Hall as [|t rest Ht _ IH]; intros total td; [reflexivity|].
  cbn [sweep_range]. rewrite (skipped_continue _ _ _ _ _ Ht). apply IH.
Qed.

(** X11. A fee estimate that fails for one of the targets keeps every call
    from a plan; and with the wallet kit client not up, a call whose address
    and node are in order returns, at the first target, the error
    "a.determineFeePerKw(2): API not ready". *)
Theorem X11_fee_estimate_failure daemonAPI confTarget err :
  In confTarget targets ->
  determineFeePerKw daemonAPI confTarget = Err err ->
  (forall address plan, SweepAllCoinsTransactions daemonAPI address <> Ok plan)
  /\ (WalletKitClient daemonAPI = None ->
      forall address targetAddr lnClient info e,
        DecodeAddress address = Ok targetAddr ->
        IsForNet targetAddr = true ->
        ParsePubKey (fst (hex_DecodeString address)) = Err e ->
        APIClient daemonAPI = Some lnClient ->
        lnrpc.GetInfo lnClient = Ok info ->
        SweepAllCoinsTransactions daemonAPI address
        = Err (Errorf_w "a.determineFeePerKw(%v): %w" ["2"]
                 (Errorf "API not ready" []))).
Proof.
  intros Hin Hfee. split.
  - intros address plan Hrun.
    apply SweepAllCoinsTransactions_over_Ok in Hrun
      as (targetAddr & lnClient & info & _ & _ & _ & Hrange).
    apply in_split in Hin as (before & after & Htargets).
    rewrite Htargets in Hrange. revert Hrange.
    apply (sweep_range_abort daemonAPI lnClient info targetAddr confTarget
             (Errorf_w "a.determineFeePerKw(%v): %w" [pretty confTarget] err)).
    unfold sweep_tier. rewrite Hfee. reflexivity.
  - intros Hnone address targetAddr lnClient info e Hdec Hnet Hpub Hapi Hinfo.
    unfold SweepAllCoinsTransactions, SweepAllCoinsTransactions_over.
    rewrite Hdec, Hnet. cbn [negb].
    destruct (hex_DecodeString address) as [decodedAddr e']. cbn [fst] in Hpub.
    rewrite Hpub, Hapi, Hinfo. unfold targets. cbn [sweep_range].
    unfold sweep_tier, determineFeePerKw. rewrite Hnone. reflexivity.
Qed.

End plan_properties.

Lemma X9_plan_amount_witness :
  data.Amt (sample.plan_of (sample.node_with sample.fee_tiers sample.two_coins))
  = 80000.
Proof.
  destruct (@X9_plan_amount sample.btcec sample.btcutil sample.lnd
              (sample.node_with sample.fee_tiers sample.two_coins)
              sample.destination
              (sample.plan_of (sample.node_with sample.fee_tiers sample.two_coins))
              ltac:(vm_compute; reflexivity))
    as (targetAddr & lnClient & info & Hdec & Hapi & Hinfo & Hplan).
  vm_compute. reflexivity.
Defined.

Lemma sample_no_coins_skipped confTarget :
  @listing.skipped sample.btcutil sample.lnd
    (sample.node_with sample.fee_tiers listing.no_coins)
    (lnrpc.mkLightningClient (Ok (lnrpc.mkGetInfoResponse 700000))
       (fun _ _ => listing.no_coins))
    (lnrpc.mkGetInfoResponse 700000) sample.destination confTarget.
Proof.
  unfold listing.skipped, spec.builder_of, account.determineFeePerKw.
  cbn [account.WalletKitClient sample.node_with walletrpc.EstimateFee].
  destruct (sample.fee_tiers (int32 confTarget)) as [fee|e|p] eqn:Hfee.
  - eexists _, (RuleError "transaction has no inputs"), _.
    repeat split; reflexivity.
  - exfalso. unfold sample.fee_tiers in Hfee.
    destruct (_ =? 2); [discriminate|]. destruct (_ =? 6); discriminate.
  - exfalso. unfold sample.fee_tiers in Hfee.
    destruct (_ =? 2); [discriminate|]. destruct (_ =? 6); discriminate.
Qed.

Lemma X10_all_tiers_skipped_witness :
  @account.SweepAllCoinsTransactions sample.btcec sample.btcutil sample.lnd
    (sample.node_with sample.fee_tiers listing.no_coins) sample.destination
  = Ok (data.mkSweepAllCoinsTransactions 0 ∅).
Proof.
  apply (@X10_all_tiers_skipped sample.btcec sample.btcutil sample.lnd
           (sample.node_with sample.fee_tiers listing.no_coins)
           sample.destination sample.destination
           (lnrpc.mkLightningClient (Ok (lnrpc.mkGetInfoResponse 700000))
              (fun _ _ => listing.no_coins))
           (lnrpc.mkGetInfoResponse 700000)
           (pkg_error "btcec" "invalid pub key")).
  - reflexivity.
  - reflexivity.
  - vm_compute. reflexivity.
  - reflexivity.
  - reflexivity.
  - repeat constructor; apply sample_no_coins_skipped.
Defined.

Lemma X11_fee_estimate_failure_witness :
  @account.SweepAllCoinsTransactions sample.btcec sample.btcutil sample.lnd
    listing.node_without_walletkit sample.destination
  = Err (Errorf_w "a.determineFeePerKw(%v): %w" ["2"] (Errorf "API not ready" [])).
Proof.
  apply (proj2 (@X11_fee_estimate_failure sample.btcec sample.btcutil sample.lnd
                  listing.node_without_walletkit 6 (Errorf "API not ready" [])
                  ltac:(cbn; auto) eq_refl) eq_refl
           sample.destination sample.destination
           (lnrpc.mkLightningClient (Ok (lnrpc.mkGetInfoResponse 700000))
              (fun _ _ => sample.two_coins))
           (lnrpc.mkGetInfoResponse 700000)
           (pkg_error "btcec" "invalid pub key")).
  - reflexivity.
  - reflexivity.
  - vm_compute. reflexivity.
  - reflexivity.
  - reflexivity.
Defined.

(** ** Resolving a link: [HandleLNURL] *)

Section resolve_properties.
Context `{LnurlWeb}.
Import account lnurl_go.

Lemma metadata_entries_spec entries metadata :
  metadata_entries entries metadata =
    if forallb (fun e => (2 <=? length e)%nat) entries
    then Ok (metadata
             ++ map (fun e => data.LNUrlPayMetadata.mk (firstn 2 e)) entries)%list
    else Panic index_out_of_range.
Proof.
  revert metadata. induction entries as [|e rest IH]; intros metadata; cbn.
  - rewrite app_nil_r. reflexivity.
  - destruct e as [|e0 [|e1 more]]; cbn; try reflexivity.
    rewrite IH. destruct (forallb _ rest); [|reflexivity].
    rewrite <- app_assoc. reflexivity.
Qed.

Lemma insert_string_perm k keys : insert_string k keys ≡ₚ k :: keys.
Proof.
  induction keys as [|k' rest IH]; cbn; [reflexivity|].
  destruct (String.leb k k'); [reflexivity|].
  rewrite IH. apply Permutation_swap.
Qed.

Lemma sort_Strings_perm keys : sort_Strings keys ≡ₚ keys.
Proof.
  induction keys as [|k rest IH]; cbn; [reflexivity|].
  rewrite insert_string_perm, IH. reflexivity.
Qed.

Lemma filter_key_pairs k k' (values : list string) :
  List.filter (fun kv => String.eqb (fst kv) k) (map (pair k') values)
  = if String.eqb k' k then map (pair k') values else [].
Proof.
  induction values as [|x rest IH]; cbn; [destruct (String.eqb k' k); reflexivity|].
  rewrite IH. destruct (String.eqb k' k); reflexivity.
Qed.

Lemma filter_key_flat_map k (f : string -> list string) keys :
  NoDup keys ->
  List.filter (fun kv => String.eqb (fst kv) k)
    (flat_map (fun k' => map (pair k') (f k')) keys)
  = if bool_decide (k ∈ keys) then map (pair k) (f k) else [].
Proof.
  induction 1 as [|k' rest Hnotin Hnd IH]; cbn; [reflexivity|].
  rewrite List.filter_app, filter_key_pairs, IH.
  destruct (String.eqb k' k) eqn:E.
  - apply String.eqb_eq in E. subst k'.
    rewrite (bool_decide_eq_true_2 (k ∈ k :: rest)) by left.
    rewrite (bool_decide_eq_false_2 (k ∈ rest)) by exact Hnotin.
    apply app_nil_r.
  - apply String.eqb_neq in E. cbn.
    destruct (bool_decide (k ∈ rest)) eqn:Hin.
    + apply bool_decide_eq_true_1 in Hin.
      rewrite (bool_decide_eq_true_2 (k ∈ k' :: rest)) by (right; exact Hin).
      reflexivity.
    + apply bool_decide_eq_false_1 in Hin.
      rewrite (bool_decide_eq_false_2 (k ∈ k' :: rest)); [reflexivity|].
      intros Hk. apply elem_of_cons in Hk as [Hk|Hk]; [congruence | exact (Hin Hk)].
Qed.

(** What [Encode] writes under one key: the values the map holds for it. *)
Lemma Values_Encode_key v k :
  List.filter (fun kv => String.eqb (fst kv) k) (Values_Encode v)
  = map (pair k) (Values_index v k).
Proof.
  unfold Values_Encode. rewrite filter_key_flat_map.
  - destruct (bool_decide (k ∈ sort_Strings (map_to_list v).*1)) eqn:Hin;
      [reflexivity|].
    apply bool_decide_eq_false_1 in Hin. rewrite sort_Strings_perm in Hin.
    unfold Values_index. destruct (v !! k) as [values|] eqn:Hk; [|reflexivity].
    exfalso. apply Hin. apply list_elem_of_fmap. exists (k, values).
    split; [reflexivity|]. apply elem_of_map_to_list. exact Hk.
  - rewrite sort_Strings_perm. apply NoDup_fst_map_to_list.
Qed.

Lemma Values_Add_index v k' x k :
  Values_index (Values_Add v k' x) k
  = if String.eqb k' k then (Values_index v k ++ [x])%list else Values_index v k.
Proof.
  unfold Values_Add, Values_index. destruct (String.eqb k' k) eqn:E.
  - apply String.eqb_eq in E. subst k'. rewrite lookup_insert_eq. reflexivity.
  - apply String.eqb_neq in E. rewrite lookup_insert_ne by exact E. reflexivity.
Qed.

(** What [Query] holds under one key: the values written for it, in the
    order written. *)
Lemma URL_Query_index u k :
  Values_index (URL_Query u) k
  = map snd (List.filter (fun kv => String.eqb (fst kv) k) (url.Query u)).
Proof.
  unfold URL_Query.
  assert (Hgen : forall q (v : gmap string (list string)),
            Values_index (fold_left (fun v kv => Values_Add v (fst kv) (snd kv)) q v) k
            = (Values_index v k
               ++ map snd (List.filter (fun kv => String.eqb (fst kv) k) q))%list).
  { induction q as [|[k' x] rest IH]; intros v; cbn [fold_left List.filter fst snd].
    - cbn. rewrite app_nil_r. reflexivity.
    - rewrite IH, Values_Add_index.
      destruct (String.eqb k' k); [|reflexivity].
      cbn. rewrite <- app_assoc. reflexivity. }
  rewrite Hgen. reflexivity.
Qed.

(** The callback of the sample withdraw answer, as it is kept: the keys
    come out sorted, [k1] replaced. *)
Example withdraw_callback_encoded :
  Values_Encode
    (Values_Set
       (URL_Query (url.mk "https://service.example/w"
                     [("z", "1"); ("k1", "old"); ("a", "2"); ("z", "3")]))
       "k1" "fresh")
  = [("a", "2"); ("k1", "fresh"); ("z", "1"); ("z", "3")].
Proof. vm_compute. reflexivity. Qed.

(** X12. What resolving a link may change. The store and the backup
    requests are never touched, and of the two pending flows at most one is
    replaced: a withdraw link leaves the pay metadata alone, a pay link
    leaves the withdraw callback alone, and a login link, a channel link and
    every error leave the service as it was. *)
Theorem X12_resolve_frame a rawString :
  let '(r, a') := HandleLNURL a rawString in
  breezDB a' = breezDB a
  /\ backupRequests a' = backupRequests a
  /\ match r with
     | Err _ => a' = a
     | Ok (response.LNUrlResponse_Auth _) => a' = a
     | Ok (response.LNUrlResponse_Channel _) => a' = a
     | Ok (response.LNUrlResponse_Withdraw _) =>
         lnurlPayMetadata a' = lnurlPayMetadata a
     | Ok (response.LNUrlResponse_PayResponse1 _) =>
         lnurlWithdrawing a' = lnurlWithdrawing a
     | Panic _ =>
         lnurlWithdrawing a' = lnurlWithdrawing a
     end.
Proof.
  unfold HandleLNURL. destruct a as [w m d n].
  destruct (FindLNURLInText rawString) as [encodedLnurl|]; [|cbn; auto].
  destruct (lnurl_HandleLNURL encodedLnurl) as [[rawurl [p|p|p|p|]]|e|p];
    cbn; auto.
  - destruct (golnurl.LNURLWithdrawResponse.CallbackURL p); cbn; auto.
  - rewrite metadata_entries_spec.
    destruct (forallb _ _); cbn; auto.
Qed.

(** X13. A pay link whose metadata has an entry of fewer than two strings
    makes [HandleLNURL] panic, and by then the service already holds the new
    metadata. When every entry has two strings or more, the answer lists the
    first two of each, in order, with no amount and no comment chosen yet.
    Either way the pay metadata of the service is the link's. *)
Theorem X13_pay_link_metadata a rawString encodedLnurl rawurl params :
  FindLNURLInText rawString = Some encodedLnurl ->
  lnurl_HandleLNURL encodedLnurl = Ok (rawurl, golnurl.PayResponse1 params) ->
  let '(r, a') := HandleLNURL a rawString in
  a' = HandleLNURL_LNURLPayResponse1 a params
  /\ if forallb (fun e => (2 <=? length e)%nat)
          (lnurl.LNURLPayResponse1.Metadata params)
     then exists resp,
            r = Ok (response.LNUrlResponse_PayResponse1 resp)
            /\ data.LNURLPayResponse1.Metadata resp
               = map (fun e => data.LNUrlPayMetadata.mk (firstn 2 e))
                   (lnurl.LNURLPayResponse1.Metadata params)
            /\ data.LNURLPayResponse1.Amount resp = 0
            /\ data.LNURLPayResponse1.Comment resp = ""
     else r = Panic index_out_of_range.
Proof.
  intros Hfind Hres. unfold HandleLNURL. rewrite Hfind, Hres.
  rewrite metadata_entries_spec.
  destruct (forallb _ _); [|split; reflexivity].
  split; [reflexivity|]. eexists. split; [reflexivity|]. cbn. auto.
Qed.

(** X14. The callback kept for a withdraw carries the answer's [k1] once:
    a [k1] the service had put in its callback is replaced; and every other
    parameter of the callback keeps its values, those written under one key
    in the order they were written. (The keys themselves are written
    sorted.) *)
Theorem X14_withdraw_callback a rawString encodedLnurl rawurl params CallbackURL :
  FindLNURLInText rawString = Some encodedLnurl ->
  lnurl_HandleLNURL encodedLnurl = Ok (rawurl, golnurl.WithdrawResponse params) ->
  golnurl.LNURLWithdrawResponse.CallbackURL params = Some CallbackURL ->
  exists qs,
    lnurlWithdrawing (snd (HandleLNURL a rawString))
      = url_String (url.mk (url.Base CallbackURL) qs)
    /\ List.filter (fun kv => String.eqb (fst kv) "k1") qs
       = [("k1", golnurl.LNURLWithdrawResponse.K1 params)]
    /\ forall key, key <> "k1" ->
         List.filter (fun kv => String.eqb (fst kv) key) qs
         = map (pair key)
             (map snd (List.filter (fun kv => String.eqb (fst kv) key)
                         (url.Query CallbackURL))).
Proof.
  intros Hfind Hres Hcb. unfold HandleLNURL. rewrite Hfind, Hres, Hcb. cbn.
  eexists. split; [reflexivity|]. split.
  - rewrite Values_Encode_key. unfold Values_index, Values_Set.
    rewrite lookup_insert_eq. reflexivity.
  - intros key Hkey. rewrite Values_Encode_key. f_equal.
    rewrite <- URL_Query_index. unfold Values_index, Values_Set.
    rewrite lookup_insert_ne by congruence. reflexivity.
Qed.

End resolve_properties.

Lemma X13_pay_link_metadata_witness :
  (let '(r, a') := @lnurl_go.HandleLNURL resolve.web sample.service_new resolve.short_link in
   a' = account.HandleLNURL_LNURLPayResponse1 sample.service_new resolve.resolved_short
   /\ r = Panic lnurl_go.index_out_of_range)
  /\ (let '(r, a') := @lnurl_go.HandleLNURL resolve.web sample.service_new resolve.pay_link in
      a' = sample.service_hi
      /\ exists resp,
           r = Ok (response.LNUrlResponse_PayResponse1 resp)
           /\ data.LNURLPayResponse1.Metadata resp
              = [data.LNUrlPayMetadata.mk ["text/plain"; "hi"]]
           /\ data.LNURLPayResponse1.Amount resp = 0
           /\ data.LNURLPayResponse1.Comment resp = "").
Proof.
  split.
  - exact (@X13_pay_link_metadata resolve.web sample.service_new resolve.short_link
             resolve.short_link "https://service.example/lnurl" resolve.resolved_short
             eq_refl eq_refl).
  - exact (@X13_pay_link_metadata resolve.web sample.service_new resolve.pay_link
             resolve.pay_link "https://service.example/lnurl" sample.resolved_hi
             eq_refl eq_refl).
Defined.

Lemma X14_withdraw_callback_witness :
  exists qs,
    account.lnurlWithdrawing
      (snd (@lnurl_go.HandleLNURL resolve.web sample.service_hi resolve.withdraw_link))
      = @url_String resolve.web (url.mk "https://service.example/w" qs)
    /\ List.filter (fun kv => String.eqb (fst kv) "k1") qs = [("k1", "fresh")]
    /\ forall key, key <> "k1" ->
         List.filter (fun kv => String.eqb (fst kv) key) qs
         = map (pair key)
             (map snd (List.filter (fun kv => String.eqb (fst kv) key)
                         [("z", "1"); ("k1", "old"); ("a", "2"); ("z", "3")])).
Proof.
  exact (@X14_withdraw_callback resolve.web sample.service_hi resolve.withdraw_link
           resolve.withdraw_link "https://service.example/lnurl"
           resolve.withdraw_answer _ eq_refl eq_refl eq_refl).
Defined.

(** ** Logging in: [FinishLNURLAuth] *)

Section login_properties.
Context `{Bip32, Btcec, Zpay32, Lnurl, Network, LnurlWeb} `{!Signer}.
Import account lnurl_go.

(** X15. The challenge is looked at only once the linking key is derived.
    A login whose [k1] is not hexadecimal fails with the decoding error, yet
    everything before it has happened: on a first login the new seed is in
    the store and a backup has been requested. *)
Theorem X15_login_bad_challenge fuel a NewSeed authParams keypair a' err :
  FinishLNURLAuth_keypair fuel a NewSeed authParams = (Some (Ok keypair), a') ->
  snd (hex_DecodeString (data.LNURLAuth.K1 authParams)) = Some err ->
  FinishLNURLAuth fuel a NewSeed authParams
    = (Some (Err (Errorf_w "failed to decode k1 challenge %w" [] err)), a')
  /\ (db.lnurlAuthKey (breezDB a) = None ->
      exists seed,
        NewSeed = Ok seed
        /\ db.lnurlAuthKey (breezDB a') = Some seed
        /\ backupRequests a' = S (backupRequests a)).
Proof.
  intros Hkp Hk1. split.
  - unfold FinishLNURLAuth. rewrite Hkp. destruct keypair as [priv pub].
    unfold FinishLNURLAuth_login.
    destruct (hex_DecodeString (data.LNURLAuth.K1 authParams)) as [k1Decoded e].
    cbn in Hk1. subst e. reflexivity.
  - intros Hnone. unfold FinishLNURLAuth_keypair in Hkp.
    destruct (getLNURLAuthKey a NewSeed) as [[m|e|p] b] eqn:Hkey; try discriminate.
    assert (b = a') as ->.
    { destruct (derivation_path fuel _ _ m) as [[k|e|p]|]; congruence. }
    clear Hkp. revert Hkey.
    unfold getLNURLAuthKey, db.FetchLNURLAuthKey. rewrite Hnone.
    destruct (db.failure (breezDB a)); [discriminate|].
    destruct NewSeed as [seed|e|p]; try discriminate.
    destruct (NewMasterKey seed); intros [= <- <-].
    exists seed. cbn. auto.
Qed.

End login_properties.

Lemma X15_login_bad_challenge_witness :
  @lnurl_go.FinishLNURLAuth (sample.bip32_with (fun _ => false)) sample.btcec
    (sample.network_answering sample.answer_plain) resolve.web resolve.signer
    0 sample.service_new (Ok sample.seed_1) resolve.auth_bad_k1
  = (Some (Err (Errorf_w "failed to decode k1 challenge %w" []
                  (InvalidByteError "g"))),
     account.requestBackup sample.service_seeded)
  /\ (db.lnurlAuthKey (account.breezDB sample.service_new) = None ->
      exists seed,
        Ok sample.seed_1 = Ok seed
        /\ db.lnurlAuthKey (account.breezDB (account.requestBackup sample.service_seeded))
           = Some seed
        /\ account.backupRequests (account.requestBackup sample.service_seeded)
           = S (account.backupRequests sample.service_new)).
Proof.
  apply (@X15_login_bad_challenge (sample.bip32_with (fun _ => false)) sample.btcec
           (sample.network_answering sample.answer_plain) resolve.web resolve.signer
           0 sample.service_new (Ok sample.seed_1) resolve.auth_bad_k1
           sample.keypair_site).
  - vm_compute. reflexivity.
  - reflexivity.
Defined.

(** ** The signer of the sweep: [rpcSigner] *)

Section signer_properties.
Context `{Lnd, DER}.
Import signer_go lnurl_go.

Lemma SetBytes_Ok newHash hash :
  chainhash.SetBytes newHash = Ok hash -> hash = newHash /\ length newHash = 32%nat.
Proof.
  unfold chainhash.SetBytes, chainhash.HashSize.
  destruct (length newHash =? 32)%nat eqn:E; [|discriminate].
  intros [= <-]. split; [reflexivity|]. apply Nat.eqb_eq. exact E.
Qed.

Lemma SetBytes_32 newHash :
  length newHash = 32%nat -> chainhash.SetBytes newHash = Ok newHash.
Proof.
  intros Hlen. unfold chainhash.SetBytes, chainhash.HashSize.
  rewrite Hlen. reflexivity.
Qed.

(** X16. [ComputeInputScript] and the descriptor it is handed. Only the
    three hashes of the descriptor can change. A call that returns an error
    leaves the descriptor as it was. A call that returns a script has
    replaced the hashes with the ones the node answered, each of 32 bytes,
    and the script is the first of the answer. *)
Theorem X16_input_script_descriptor s tx signDesc :
  let '(r, signDesc') := ComputeInputScript s tx signDesc in
  input.Output signDesc' = input.Output signDesc
  /\ input.HashType signDesc' = input.HashType signDesc
  /\ input.WitnessScript signDesc' = input.WitnessScript signDesc
  /\ input.InputIndex signDesc' = input.InputIndex signDesc
  /\ match r with
     | Err _ => signDesc' = signDesc
     | Panic _ => True
     | Ok script =>
         exists srpc req answer answered first rest,
           signerClient s = Some srpc
           /\ signrpc.ComputeInputScript srpc req = Ok answer
           /\ signrpc.InputScriptResp.SigHashes answer = Some answered
           /\ signrpc.InputScriptResp.InputScripts answer = Some first :: rest
           /\ script = input.mkScript (signrpc.Witness first) (signrpc.SigScript first)
           /\ input.SigHashes signDesc'
              = Some (txscript.mkTxSigHashes (signrpc.HashPrevOuts answered)
                        (signrpc.HashSequence answered) (signrpc.HashOutputs answered))
           /\ length (signrpc.HashPrevOuts answered) = 32%nat
           /\ length (signrpc.HashSequence answered) = 32%nat
           /\ length (signrpc.HashOutputs answered) = 32%nat
     end.
Proof.
  unfold ComputeInputScript.
  destruct (Serialize tx) as [rawTx|e|p]; [|cbn; auto 6..].
  destruct (input.Output signDesc) as [output|] eqn:Hout; [|cbn; auto 6].
  destruct (input.SigHashes signDesc) as [sigHashes|] eqn:Hsig; [|cbn; auto 6].
  destruct (signerClient s) as [srpc|] eqn:Hs; [|cbn; auto 6].
  match goal with
  | |- context [signrpc.ComputeInputScript srpc ?q] =>
      destruct (signrpc.ComputeInputScript srpc q) as [answer|e|p] eqn:Hrpc
  end; [|cbn; auto 6..].
  destruct (signrpc.InputScriptResp.SigHashes answer) as [answered|] eqn:Hans;
    [|cbn; auto 6].
  destruct (chainhash.SetBytes (signrpc.HashPrevOuts answered)) as [h1|e|p] eqn:Hb1;
    [|cbn; auto 6..].
  destruct (chainhash.SetBytes (signrpc.HashSequence answered)) as [h2|e|p] eqn:Hb2;
    [|cbn; auto 6..].
  destruct (chainhash.SetBytes (signrpc.HashOutputs answered)) as [h3|e|p] eqn:Hb3;
    [|cbn; auto 6..].
  apply SetBytes_Ok in Hb1 as [-> L1], Hb2 as [-> L2], Hb3 as [-> L3].
  destruct (signrpc.InputScriptResp.InputScripts answer) as [|[first|] rest] eqn:Hin;
    cbn; auto 6.
  repeat split.
  eexists srpc, _, answer, answered, first, rest.
  repeat split; try eassumption.
Qed.

(** X17. A node that answers without a signature, or without an input
    script, makes the signer panic on the first element it reads; and in
    [ComputeInputScript] the hashes of the descriptor have by then been
    replaced with the answered ones. *)
Theorem X17_signer_empty_answer s srpc tx signDesc rawTx output sigHashes
    signed answer answered :
  Serialize tx = Ok rawTx ->
  input.Output signDesc = Some output ->
  input.SigHashes signDesc = Some sigHashes ->
  signerClient s = Some srpc ->
  (forall req, signrpc.SignOutputRaw srpc req = Ok signed) ->
  (forall req, signrpc.ComputeInputScript srpc req = Ok answer) ->
  signrpc.RawSigs signed = [] ->
  signrpc.InputScriptResp.InputScripts answer = [] ->
  signrpc.InputScriptResp.SigHashes answer = Some answered ->
  length (signrpc.HashPrevOuts answered) = 32%nat ->
  length (signrpc.HashSequence answered) = 32%nat ->
  length (signrpc.HashOutputs answered) = 32%nat ->
  SignOutputRaw s tx signDesc = Panic index_out_of_range
  /\ ComputeInputScript s tx signDesc
     = (Panic index_out_of_range,
        input.mkSignDescriptor (Some output) (input.HashType signDesc)
          (input.WitnessScript signDesc) (input.InputIndex signDesc)
          (Some (txscript.mkTxSigHashes (signrpc.HashPrevOuts answered)
                   (signrpc.HashSequence answered) (signrpc.HashOutputs answered)))).
Proof.
  intros Hser Hout Hsig Hs Hsign Hcomp Hraw Hin Hans L1 L2 L3.
  unfold SignOutputRaw, ComputeInputScript.
  rewrite Hser, Hout, Hsig, Hs, Hsign, Hcomp, Hraw, Hans.
  rewrite (SetBytes_32 _ L1), (SetBytes_32 _ L2), (SetBytes_32 _ L3), Hin.
  split; reflexivity.
Qed.

End signer_properties.

Lemma X17_signer_empty_answer_witness :
  @signer_go.SignOutputRaw sample.btcutil sample.lnd signing.der
    (signer_go.NewRpcSigner (Some signing.client_empty)) signing.tx_one
    signing.descriptor
  = Panic lnurl_go.index_out_of_range
  /\ @signer_go.ComputeInputScript sample.btcutil sample.lnd
       (signer_go.NewRpcSigner (Some signing.client_empty)) signing.tx_one
       signing.descriptor
     = (Panic lnurl_go.index_out_of_range,
        input.mkSignDescriptor (Some (wire.mkTxOut 50000 [x00; x14])) 1 [] 0
          (Some (txscript.mkTxSigHashes (repeat x5a 32) (repeat x5a 32)
                   (repeat x5a 32)))).
Proof.
  apply (@X17_signer_empty_answer sample.btcutil sample.lnd signing.der
           (signer_go.NewRpcSigner (Some signing.client_empty))
           signing.client_empty signing.tx_one signing.descriptor
           (sample.serialize signing.tx_one) (wire.mkTxOut 50000 [x00; x14])
           (txscript.mkTxSigHashes (repeat x01 32) (repeat x02 32) (repeat x03 32))
           (signrpc.mkSignResp []) signing.answer_empty (signing.hashes_of x5a));
    try reflexivity; intros; reflexivity.
Defined.

(** ** Ready to pay: package [lnnode] *)

Section lnnode_properties.
Import lnnode.

Lemma allChannelsActive_range_forallb channels :
  allChannelsActive_range channels = forallb Channel.Active channels.
Proof.
  induction channels as [|c rest IH]; cbn; [reflexivity|].
  destruct (Channel.Active c); cbn; [exact IH | reflexivity].
Qed.

Lemma IsReadyForPayment_not_Err d err : IsReadyForPayment d <> Err err.
Proof.
  unfold IsReadyForPayment.
  destruct (APIClient d) as [c|]; [|discriminate].
  destruct (allChannelsActive c) as [[]|e|q]; discriminate.
Qed.

Lemma filter_Active_nil all :
  List.filter Channel.Active all = [] <-> Forall (fun c => Channel.Active c = false) all.
Proof.
  induction all as [|c rest IH]; cbn.
  - split; [constructor | reflexivity].
  - destruct (Channel.Active c) eqn:E.
    + split; [discriminate | inversion 1; congruence].
    + rewrite IH. split; [constructor; assumption | inversion 1; assumption].
Qed.

(** X18. Ready to pay against having an active channel, for a node whose
    answer to the active-only request is the active part of its full list.
    The node is ready exactly when none of its channels is inactive, and it
    has an active channel exactly when one is active; so a node is ready
    without an active channel exactly when it has no channel at all. *)
Theorem X18_ready_without_channels d client all :
  lightningClient d = Some client ->
  ListChannels client (mkListChannelsRequest false)
    = Ok (mkListChannelsResponse all) ->
  ListChannels client (mkListChannelsRequest true)
    = Ok (mkListChannelsResponse (List.filter Channel.Active all)) ->
  (IsReadyForPayment d = Ok true <-> Forall (fun c => Channel.Active c = true) all)
  /\ (HasActiveChannel d = Ok true <-> Exists (fun c => Channel.Active c = true) all)
  /\ (IsReadyForPayment d = Ok true /\ HasActiveChannel d = Ok false <-> all = []).
Proof.
  intros Hc Hall Hactive.
  assert (Hready : IsReadyForPayment d = Ok (forallb Channel.Active all)).
  { unfold IsReadyForPayment, APIClient, allChannelsActive.
    rewrite Hc, Hall. cbn. rewrite allChannelsActive_range_forallb. reflexivity. }
  assert (Hhas : HasActiveChannel d
                 = Ok (0 <? length (List.filter Channel.Active all))%nat).
  { unfold HasActiveChannel, APIClient. rewrite Hc, Hactive. reflexivity. }
  rewrite Hready, Hhas.
  assert (Hall_iff : forallb Channel.Active all = true
                     <-> Forall (fun c => Channel.Active c = true) all).
  { rewrite List.forallb_forall, List.Forall_forall. reflexivity. }
  assert (Hex_iff : (0 <? length (List.filter Channel.Active all))%nat = true
                    <-> Exists (fun c => Channel.Active c = true) all).
  { rewrite List.Exists_exists. split.
    - intros Hlt. destruct (List.filter Channel.Active all) as [|c rest] eqn:E;
        [discriminate|].
      assert (Hin : List.In c (List.filter Channel.Active all))
        by (rewrite E; left; reflexivity).
      apply List.filter_In in Hin. exists c. exact Hin.
    - intros (c & Hin & Hact).
      assert (Hf : List.In c (List.filter Channel.Active all))
        by (apply List.filter_In; auto).
      destruct (List.filter Channel.Active all); [destruct Hf | reflexivity]. }
  split; [|split].
  - split; [intros [= E]; apply Hall_iff, E | intros E; f_equal; apply Hall_iff, E].
  - split; [intros [= E]; apply Hex_iff, E | intros E; f_equal; apply Hex_iff, E].
  - split.
    + intros [[= Hr] [= Hh]]. apply Hall_iff in Hr.
      assert (Hnil : List.filter Channel.Active all = []).
      { destruct (List.filter Channel.Active all); [reflexivity | discriminate]. }
      apply filter_Active_nil in Hnil.
      destruct all as [|c rest]; [reflexivity|].
      inversion Hr; inversion Hnil; congruence.
    + intros ->. cbn. auto.
Qed.

Lemma select_other nodes n trace :
  WaitReadyForPayment_select nodes n
    (List.filter (fun s => match s with Updates other_event => false | _ => true end)
       trace)
  = WaitReadyForPayment_select nodes n trace.
Proof.
  revert n. induction trace as [|[[|]|] rest IH]; intros n; cbn; try reflexivity.
  - destruct (IsReadyForPayment (nodes n)); try reflexivity.
    destruct (IsReadyForPayment (nodes (S n))) as [[]|e|q]; try reflexivity.
    apply IH.
  - apply IH.
Qed.

(** X19. Receptions that are not channel events change nothing: with them
    struck out, [WaitReadyForPayment] asks the node the same questions and
    ends, or goes on waiting, in the same way. *)
Theorem X19_wait_ignores_other_events Subscribe nodes trace :
  WaitReadyForPayment Subscribe nodes
    (List.filter (fun s => match s with Updates other_event => false | _ => true end)
       trace)
  = WaitReadyForPayment Subscribe nodes trace.
Proof.
  unfold WaitReadyForPayment. destruct Subscribe; try reflexivity.
  destruct (IsReadyForPayment (nodes 0%nat)) as [[]|e|q]; try reflexivity.
  apply select_other.
Qed.

Lemma select_outcome nodes trace n :
  match WaitReadyForPayment_select nodes n trace with
  | Some (Ok _) => exists m, IsReadyForPayment (nodes m) = Ok true
  | Some (Err err) => err = timeout_exceeded /\ List.In timeoutTimer trace
  | Some (Panic p) => exists m, IsReadyForPayment (nodes m) = Panic p
  | None => ~ List.In timeoutTimer trace
  end.
Proof.
  revert n. induction trace as [|[[|]|] rest IH]; intros n; cbn.
  - auto.
  - destruct (IsReadyForPayment (nodes n)) as [b|e|q] eqn:E1.
    + destruct (IsReadyForPayment (nodes (S n))) as [[]|e|q] eqn:E2.
      * eauto.
      * specialize (IH (S (S n))).
        destruct (WaitReadyForPayment_select nodes (S (S n)) rest) as [[u|e|q]|];
          [exact IH | split; [apply IH | right; apply IH] | exact IH |].
        intros [Hd|Hin]; [discriminate | exact (IH Hin)].
      * destruct (IsReadyForPayment_not_Err _ _ E2).
      * eauto.
    + destruct (IsReadyForPayment_not_Err _ _ E1).
    + eauto.
  - specialize (IH n).
    destruct (WaitReadyForPayment_select nodes n rest) as [[u|e|q]|];
      [exact IH | split; [apply IH | right; apply IH] | exact IH |].
    intros [Hd|Hin]; [discriminate | exact (IH Hin)].
  - destruct (IsReadyForPayment (nodes n)) as [[]|e|q] eqn:E1; eauto.
    destruct (IsReadyForPayment_not_Err _ _ E1).
Qed.

(** X20. How [WaitReadyForPayment] ends. It returns nil only when some call
    of [IsReadyForPayment] answered true; an error is the one of the
    subscription or, only once the timer has fired, the timeout error; it
    panics only if the subscription or a call to the node does; and once
    the timer has fired it is not left waiting. *)
Theorem X20_wait_outcome Subscribe nodes trace :
  match WaitReadyForPayment Subscribe nodes trace with
  | Some (Ok _) => exists m, IsReadyForPayment (nodes m) = Ok true
  | Some (Err err) =>
      Subscribe = Err err
      \/ (err = timeout_exceeded /\ List.In timeoutTimer trace)
  | Some (Panic p) =>
      Subscribe = Panic p \/ exists m, IsReadyForPayment (nodes m) = Panic p
  | None => ~ List.In timeoutTimer trace
  end.
Proof.
  unfold WaitReadyForPayment. destruct Subscribe as [u|e|q]; auto.
  destruct (IsReadyForPayment (nodes 0%nat)) as [[]|e|q] eqn:E0.
  - eauto.
  - pose proof (select_outcome nodes trace 1) as Hs.
    destruct (WaitReadyForPayment_select nodes 1 trace) as [[v|e|q]|]; auto.
  - destruct (IsReadyForPayment_not_Err _ _ E0).
  - eauto.
Qed.

End lnnode_properties.

Lemma X18_ready_without_channels_witness :
  (lnnode.IsReadyForPayment (lnnode.node_of []) = Ok true
   <-> Forall (fun c => lnnode.Channel.Active c = true) [])
  /\ (lnnode.HasActiveChannel (lnnode.node_of []) = Ok true
      <-> Exists (fun c => lnnode.Channel.Active c = true) [])
  /\ (lnnode.IsReadyForPayment (lnnode.node_of []) = Ok true
      /\ lnnode.HasActiveChannel (lnnode.node_of []) = Ok false
      <-> @nil lnnode.Channel.t = []).
Proof.
  exact (X18_ready_without_channels (lnnode.node_of [])
           (lnnode.mkLightningClient (fun req =>
              Ok (lnnode.mkListChannelsResponse
                    (map lnnode.Channel.mk
                       (if lnnode.ActiveOnly req then List.filter (fun b => b) []
                        else [])))))
           [] eq_refl eq_refl eq_refl).
Defined.

(** ** The asserted filter header: [parseAssertFilterHeader] *)

Section chainservice_properties.
Context `{Chainhash}.
Import chainservice lnurl_go.

Lemma decimal_from_le n s :
  all_digits s = true -> 0 <= n -> n <= decimal_from n s.
Proof.
  revert n. induction s as [|ch rest IH]; intros n Hd Hn; cbn; [lia|].
  cbn in Hd. apply andb_prop in Hd as [Hc Hrest].
  unfold is_digit in Hc. apply andb_prop in Hc as [Hlo Hhi].
  apply Z.leb_le in Hlo, Hhi.
  specialize (IH (10 * n + (Z.of_nat (nat_of_ascii ch) - 48)) Hrest). lia.
Qed.

Lemma ParseUint_range_spec s0 cutoff maxVal s n m :
  maxVal < cutoff -> 10 * maxVal + 9 < 2 ^ 64 -> 0 <= n <= maxVal ->
  strconv.ParseUint_range Quote s0 10 cutoff maxVal s n = Ok m
  <-> all_digits s = true /\ decimal_from n s = m /\ m <= maxVal.
Proof.
  intros Hcut Hmax. revert n.
  induction s as [|ch rest IH]; intros n Hn; cbn.
  - split; [intros [= <-]; repeat split; lia | intros (_ & <- & _); reflexivity].
  - unfold is_digit. set (c := Z.of_nat (nat_of_ascii ch)).
    destruct ((48 <=? c) && (c <=? 57)) eqn:Hdigit; cbn.
    + apply andb_prop in Hdigit as [Hlo Hhi]. apply Z.leb_le in Hlo, Hhi.
      destruct (10 <=? c - 48) eqn:Hbase; [apply Z.leb_le in Hbase; lia|].
      destruct (cutoff <=? n) eqn:Hc; [apply Z.leb_le in Hc; lia|].
      unfold uint64.
      rewrite (Z.mod_small (n * 10)) by lia.
      rewrite (Z.mod_small (n * 10 + (c - 48))) by lia.
      destruct (n * 10 + (c - 48) <? n * 10) eqn:Hlt; [apply Z.ltb_lt in Hlt; lia|].
      cbn. destruct (maxVal <? n * 10 + (c - 48)) eqn:Hover.
      * apply Z.ltb_lt in Hover. split; [discriminate|].
        intros (Hd & Hm & Hle).
        pose proof (decimal_from_le (10 * n + (c - 48)) rest Hd). lia.
      * apply Z.ltb_ge in Hover.
        replace (10 * n + (c - 48)) with (n * 10 + (c - 48)) by lia.
        apply IH. lia.
    + split; [|intros [[=] _]].
      destruct ((97 <=? strconv.lower c) && (strconv.lower c <=? 122)) eqn:Hletter;
        [|discriminate].
      apply andb_prop in Hletter as [Hlo _]. apply Z.leb_le in Hlo.
      destruct (10 <=? strconv.lower c - 97 + 10) eqn:Hbase; [discriminate|].
      apply Z.leb_gt in Hbase. lia.
Qed.

Lemma ParseUint_range_not_Panic s0 base cutoff maxVal s n p :
  strconv.ParseUint_range Quote s0 base cutoff maxVal s n <> Panic p.
Proof.
  revert n. induction s as [|ch rest IH]; intros n; cbn; [discriminate|].
  repeat match goal with
         | |- context [if ?b then _ else _] => destruct b
         end; try discriminate; apply IH.
Qed.

(** [ParseUint(s, 10, 32)] accepts the non-empty strings of decimal digits
    that write a number below 2^32, leading zeros included. *)
Lemma ParseUint_10_32 s m :
  strconv.ParseUint_10 Quote s 32 = Ok m
  <-> s <> "" /\ all_digits s = true /\ decimal s = m /\ m < 2 ^ 32.
Proof.
  unfold strconv.ParseUint_10, decimal.
  destruct (String.eqb s "") eqn:E.
  - apply String.eqb_eq in E. split; [discriminate | intros [Hn _]; contradiction].
  - apply String.eqb_neq in E.
    change (uint64 (uint64 (Z.shiftl 1 32) - 1)) with (2 ^ 32 - 1).
    rewrite ParseUint_range_spec by (cbv; repeat split; congruence).
    split; [intros (Hd & Hm & Hle) | intros (_ & Hd & Hm & Hlt)];
      repeat split; try assumption; lia.
Qed.

Lemma Split_not_nil s sep : strings.Split s sep <> [].
Proof.
  destruct s as [|c rest]; cbn; [discriminate|].
  destruct (Ascii.eqb c sep); [discriminate|].
  destruct (strings.Split rest sep); discriminate.
Qed.

Lemma Split_no_sep s sep : has_byte sep s = false -> strings.Split s sep = [s].
Proof.
  induction s as [|c rest IH]; cbn; [reflexivity|].
  intros Hb. apply orb_false_elim in Hb as [Hc Hrest].
  rewrite Hc, (IH Hrest). reflexivity.
Qed.

(** X21. A header without a colon never gives a filter header: an
    acceptable height standing alone makes the function panic on the
    missing second field, and anything else is an invalid height. *)
Theorem X21_filter_header_without_colon headerStr :
  headerStr <> "" ->
  has_byte ":" headerStr = false ->
  match parseAssertFilterHeader headerStr with
  | Ok _ => False
  | Panic p =>
      p = index_out_of_range
      /\ all_digits headerStr = true /\ decimal headerStr < 2 ^ 32
  | Err err =>
      (exists cause,
         err = Errorf "invalid filter header height: %v" [Error cause])
      /\ ~ (all_digits headerStr = true /\ decimal headerStr < 2 ^ 32)
  end.
Proof.
  intros Hne Hcolon. unfold parseAssertFilterHeader.
  apply String.eqb_neq in Hne. rewrite Hne. apply String.eqb_neq in Hne.
  rewrite (Split_no_sep _ _ Hcolon).
  destruct (strconv.ParseUint_10 Quote headerStr 32) as [m|e|p] eqn:Hparse.
  - apply ParseUint_10_32 in Hparse as (_ & Hd & Hm & Hlt).
    repeat split; [assumption | lia].
  - split; [eexists; reflexivity|]. intros [Hd Hlt].
    assert (Hok : strconv.ParseUint_10 Quote headerStr 32 = Ok (decimal headerStr))
      by (apply ParseUint_10_32; auto).
    congruence.
  - unfold strconv.ParseUint_10 in Hparse.
    destruct (String.eqb headerStr ""); [discriminate|].
    destruct (ParseUint_range_not_Panic _ _ _ _ _ _ _ Hparse).
Qed.

(** X22. The headers [parseAssertFilterHeader] accepts. The empty string
    alone gives no header and no error. A header is returned exactly when
    the first field is a non-empty string of decimal digits writing a
    number below 2^32 and the second field is a hash; the height is that
    number, with nothing lost in the conversion to 32 bits, and fields
    after the second are ignored. *)
Theorem X22_filter_header_accepted headerStr :
  (parseAssertFilterHeader headerStr = Ok None <-> headerStr = "")
  /\ forall header,
       parseAssertFilterHeader headerStr = Ok (Some header)
       <-> exists heightStr hashStr rest,
             strings.Split headerStr ":" = heightStr :: hashStr :: rest
             /\ heightStr <> ""
             /\ all_digits heightStr = true
             /\ decimal heightStr < 2 ^ 32
             /\ headerfs.Height header = decimal heightStr
             /\ NewHashFromStr hashStr = Ok (headerfs.FilterHash header).
Proof.
  unfold parseAssertFilterHeader.
  destruct (String.eqb headerStr "") eqn:E.
  { apply String.eqb_eq in E. subst headerStr. split; [tauto|].
    intros header. split; [discriminate|].
    intros (a & b & r & Hs & _). discriminate. }
  apply String.eqb_neq in E.
  destruct (strings.Split headerStr ":") as [|heightStr fields] eqn:Hsplit.
  { destruct (Split_not_nil _ _ Hsplit). }
  destruct (strconv.ParseUint_10 Quote heightStr 32) as [m|e|p] eqn:Hparse.
  - apply ParseUint_10_32 in Hparse as (Hne & Hd & Hm & Hlt).
    assert (Hpos : 0 <= m)
      by (rewrite <- Hm; exact (decimal_from_le 0 heightStr Hd (Z.le_refl 0))).
    assert (Hu : uint32 m = m) by (unfold uint32; apply Z.mod_small; lia).
    destruct fields as [|hashStr rest].
    { split; [split; [discriminate | contradiction]|].
      intros header. split; [discriminate|].
      intros (a & b & r & Hs & _). discriminate. }
    destruct (NewHashFromStr hashStr) as [hash|e|p] eqn:Hhash.
    + split; [split; [discriminate | contradiction]|].
      intros [fh ht]. cbn. rewrite Hu. split.
      * intros [= <- <-]. exists heightStr, hashStr, rest. repeat split; auto; lia.
      * intros (a & b & r & [= <- <- <-] & _ & _ & _ & -> & Hb).
        rewrite Hhash in Hb. injection Hb as <-. rewrite Hm. reflexivity.
    + split; [split; [discriminate | contradiction]|].
      intros header. split; [discriminate|].
      intros (a & b & r & [= <- <- <-] & _ & _ & _ & _ & Hb). congruence.
    + split; [split; [discriminate | contradiction]|].
      intros header. split; [discriminate|].
      intros (a & b & r & [= <- <- <-] & _ & _ & _ & _ & Hb). congruence.
  - split; [split; [discriminate | contradiction]|].
    intros header. split; [discriminate|].
    intros (a & b & r & [= <- _] & Hne & Hd & Hlt & _).
    assert (Hok : strconv.ParseUint_10 Quote heightStr 32 = Ok (decimal heightStr))
      by (apply ParseUint_10_32; auto).
    congruence.
  - unfold strconv.ParseUint_10 in Hparse.
    destruct (String.eqb heightStr ""); [discriminate|].
    destruct (ParseUint_range_not_Panic _ _ _ _ _ _ _ Hparse).
Qed.

End chainservice_properties.

Lemma X21_filter_header_without_colon_witness :
  match @chainservice.parseAssertFilterHeader chainservice.chainhash "700000" with
  | Ok _ => False
  | Panic p =>
      p = lnurl_go.index_out_of_range
      /\ chainservice.all_digits "700000" = true
      /\ chainservice.decimal "700000" < 2 ^ 32
  | Err err =>
      (exists cause,
         err = Errorf "invalid filter header height: %v" [Error cause])
      /\ ~ (chainservice.all_digits "700000" = true
            /\ chainservice.decimal "700000" < 2 ^ 32)
  end.
Proof.
  apply (@X21_filter_header_without_colon chainservice.chainhash "700000").
  - discriminate.
  - reflexivity.
Defined.

(** ** version.go *)

Section version_properties.
Import breez.

Lemma CheckVersion_range_spec versions :
  match CheckVersion_range versions with
  | Ok _ => List.In currentVersion versions
  | Err err => err = Errorf "bad version" [] /\ ~ List.In currentVersion versions
  | Panic _ => False
  end.
Proof.
  induction versions as [|v rest IH]; cbn; [auto|].
  destruct (String.eqb v currentVersion) eqn:E.
  - apply String.eqb_eq in E. auto.
  - apply String.eqb_neq in E.
    destruct (CheckVersion_range rest) as [u|e|p]; [auto | | exact IH].
    destruct IH as [-> Hn]. split; [reflexivity|]. intros [Hv|Hin]; auto.
Qed.

(** X23. [CheckVersion] returns nil exactly when the server answers and
    lists "2021-07-08" among its versions, at any place; a server error is
    returned as it is, and a list without that version is the error "bad
    version". *)
Theorem X23_check_version Versions :
  match CheckVersion Versions with
  | Ok _ => exists versions, Versions = Ok versions /\ List.In "2021-07-08" versions
  | Err err =>
      Versions = Err err
      \/ (err = Errorf "bad version" []
          /\ exists versions,
               Versions = Ok versions /\ ~ List.In "2021-07-08" versions)
  | Panic p => Versions = Panic p
  end.
Proof.
  unfold CheckVersion. destruct Versions as [versions|e|p]; auto.
  pose proof (CheckVersion_range_spec versions) as Hs.
  destruct (CheckVersion_range versions) as [u|e|p]; [eauto | | destruct Hs].
  destruct Hs as [-> Hn]. right. eauto.
Qed.

End version_properties.

(** ** The entries of a plan *)

Section plan_entries.
Context `{Btcec, Lnd}.
Import account.

Lemma sweep_range_entries_exact daemonAPI lnClient info targetAddr confTargets :
  List.NoDup (map int32 confTargets) ->
  forall td total plan,
    sweep_range daemonAPI lnClient info targetAddr confTargets td total = Ok plan ->
    (forall key, ~ List.In key (map int32 confTargets) ->
                 data.Transactions plan !! key = td !! key)
    /\ (forall confTarget, List.In confTarget confTargets ->
          (listing.skipped daemonAPI lnClient info targetAddr confTarget
           /\ data.Transactions plan !! int32 confTarget = td !! int32 confTarget)
          \/ exists details total',
               listing.recorded daemonAPI lnClient info targetAddr confTarget
                 details total'
               /\ data.Transactions plan !! int32 confTarget = Some details).
Proof.
  induction confTargets as [|t rest IH]; intros Hnd td total plan.
  - cbn. intros [= <-]. split; [reflexivity | intros ? []].
  - cbn [sweep_range map]. inversion Hnd as [|? ? Hnotin Hnd']; subst.
    pose proof (sweep_tier_cases daemonAPI lnClient info targetAddr t) as Hcase.
    destruct (sweep_tier daemonAPI lnClient info targetAddr t) as [|d tot|r].
    + intros Hrun. destruct (IH Hnd' _ _ _ Hrun) as [Hout Hin]. split.
      * intros key Hkey. apply Hout. intros Hk. apply Hkey. right. exact Hk.
      * intros c [<-|Hc]; [|exact (Hin c Hc)].
        left. split; [exact Hcase | exact (Hout _ Hnotin)].
    + intros Hrun. destruct (IH Hnd' _ _ _ Hrun) as [Hout Hin]. split.
      * intros key Hkey. rewrite Hout by (intros Hk; apply Hkey; right; exact Hk).
        apply lookup_insert_ne. intros Heq. apply Hkey. left. exact Heq.
      * intros c [<-|Hc].
        -- right. exists d, tot. split; [exact Hcase|].
           rewrite (Hout _ Hnotin). apply lookup_insert_eq.
        -- destruct (Hin c Hc) as [[Hs Hl]|Hr]; [|right; exact Hr].
           left. split; [exact Hs|]. rewrite Hl.
           apply lookup_insert_ne. intros Heq. apply Hnotin.
           rewrite Heq. apply in_map. exact Hc.
    + intros ->. exfalso. exact (Hcase plan eq_refl).
Qed.

(** X24. The entries of a plan. A plan has entries under the targets 2, 6
    and 25 only; a target has an entry exactly when its transaction was
    built and serialised, the entry holding that transaction and its hash,
    and has none exactly when it was passed over on a rule error. *)
Theorem X24_plan_entries daemonAPI address plan :
  SweepAllCoinsTransactions daemonAPI address = Ok plan ->
  exists targetAddr lnClient info,
    DecodeAddress address = Ok targetAddr
    /\ APIClient daemonAPI = Some lnClient
    /\ lnrpc.GetInfo lnClient = Ok info
    /\ (forall key, ~ List.In key targets -> data.Transactions plan !! key = None)
    /\ (forall confTarget, List.In confTarget targets ->
          match data.Transactions plan !! confTarget with
          | Some details =>
              exists total,
                listing.recorded daemonAPI lnClient info targetAddr confTarget
                  details total
          | None => listing.skipped daemonAPI lnClient info targetAddr confTarget
          end).
Proof.
  intros Hrun.
  apply SweepAllCoinsTransactions_over_Ok in Hrun
    as (targetAddr & lnClient & info & Hdec & Hapi & Hinfo & Hrange).
  exists targetAddr, lnClient, info. repeat (split; [assumption|]).
  assert (Hnd : List.NoDup (map int32 targets)).
  { cbv. repeat constructor; cbn; intuition discriminate. }
  destruct (sweep_range_entries_exact _ _ _ _ _ Hnd _ _ _ Hrange) as [Hout Hin].
  split.
  - intros key Hkey. rewrite (Hout key Hkey). apply lookup_empty.
  - intros c Hc.
    assert (Hid : int32 c = c).
    { destruct Hc as [<-|[<-|[<-|[]]]]; reflexivity. }
    destruct (Hin c Hc) as [[Hs Hl]|(d & tot & Hr & Hl)]; rewrite Hid in Hl.
    + rewrite Hl, lookup_empty. exact Hs.
    + rewrite Hl. exists tot. exact Hr.
Qed.

End plan_entries.

Lemma X24_plan_entries_witness :
  exists targetAddr lnClient info,
    @DecodeAddress sample.btcutil sample.destination = Ok targetAddr
    /\ account.APIClient (sample.node_with sample.fee_steep sample.two_coins)
       = Some lnClient
    /\ lnrpc.GetInfo lnClient = Ok info
    /\ (forall key, ~ List.In key account.targets ->
          data.Transactions
            (sample.plan_of (sample.node_with sample.fee_steep sample.two_coins))
            !! key = None)
    /\ (forall confTarget, List.In confTarget account.targets ->
          match data.Transactions
                  (sample.plan_of (sample.node_with sample.fee_steep sample.two_coins))
                  !! confTarget with
          | Some details =>
              exists total,
                @listing.recorded sample.btcutil sample.lnd
                  (sample.node_with sample.fee_steep sample.two_coins)
                  lnClient info targetAddr confTarget details total
          | None =>
              @listing.skipped sample.btcutil sample.lnd
                (sample.node_with sample.fee_steep sample.two_coins)
                lnClient info targetAddr confTarget
          end).
Proof.
  exact (@X24_plan_entries sample.btcec sample.btcutil sample.lnd
           (sample.node_with sample.fee_steep sample.two_coins)
           sample.destination
           (sample.plan_of (sample.node_with sample.fee_steep sample.two_coins))
           ltac:(vm_compute; reflexivity)).
Defined.
